(** * WoL-Gateway: a shallow embedding of the gateway, its configuration store
      and its administration panel.

    Sources embedded here:
    - [admin_panel.py]  credentials store, login, roster add/edit/delete,
                        security settings (password, second factor);
    - [setup_wol.py]    [validate_mac], [load_current_config], the
                        configuration dialogue of [main] and its write-out,
                        [detect_linux_distro] and [install_dependencies];
    - [wol_gatway.py]   [load_config], [find_wakeonlan_command], the waiting
                        page and the [/wake] route.

    Conventions of the embedding.
    - A Python [str] is the Rocq string of its UTF-8 encoding, so that
      [encode], equality and hashing are exact.  [strip], [int], [repr] and
      the comparison of one-time codes look at Unicode properties (white
      space, digits, printability, NFKC); they are embedded for ASCII text,
      and a statement that depends on one of them takes the text concerned
      as [is_ascii].
    - Python [int] values are [Z]; a [float] is a binary64 number, given by
      sign, mantissa and exponent, or an infinity or a NaN; [bytes] are lists
      of [Z].
    - A file of the [world] holds either text that [json.load] rejects or a
      JSON object; the loader of the gateway is also given for a file that
      holds another JSON value or cannot be read ([load_config_file]).  An
      object is an association list in insertion order, without repeated
      keys.
    - Handlers run in a state-and-exception monad over the [world]: the two
      files, the browser session, the flashed messages and the clock. *)

From Stdlib Require Import ZArith List String Ascii Bool Lia DecimalString.
Import ListNotations.

Set Warnings "-register-all".

Local Open Scope string_scope.
Local Open Scope Z_scope.
Local Open Scope list_scope.

(* ===================================================================== *)
(** * Bytes and text                                                      *)
(* ===================================================================== *)

Definition byte_of_ascii (c : ascii) : Z := Z.of_N (N_of_ascii c).

Definition ascii_of_byte (b : Z) : ascii := ascii_of_N (Z.to_N b).

(** [s.encode()]: the UTF-8 bytes of the text. *)
Definition encode (s : string) : list Z :=
  map byte_of_ascii (list_ascii_of_string s).

Definition hex_digit (d : Z) : ascii :=
  if d <? 10 then ascii_of_byte (48 + d) else ascii_of_byte (87 + d).

Definition hex_of_byte (b : Z) : list ascii :=
  [hex_digit (Z.shiftr b 4); hex_digit (Z.land b 15)].

(** [bytes.hex()] *)
Definition hex (bs : list Z) : string :=
  string_of_list_ascii (flat_map hex_of_byte bs).

(** Big-endian bytes of a word of [n] bytes. *)
Fixpoint be_bytes (n : nat) (x : Z) : list Z :=
  match n with
  | O => []
  | S n' => Z.land (Z.shiftr x (8 * Z.of_nat n')) 255 :: be_bytes n' x
  end.

(** Big-endian value of a byte string. *)
Definition be_value (bs : list Z) : Z :=
  fold_left (fun acc b => Z.lor (Z.shiftl acc 8) b) bs 0.

(** Cut a list into pieces of [k] elements (the last one may be shorter). *)
Fixpoint chunks_fuel {A} (fuel : nat) (k : nat) (l : list A) : list (list A) :=
  match fuel with
  | O => []
  | S fuel' =>
      match l with
      | [] => []
      | _ => firstn k l :: chunks_fuel fuel' k (skipn k l)
      end
  end.

Definition chunks {A} (k : nat) (l : list A) : list (list A) :=
  chunks_fuel (List.length l) k l.

Definition w32 (x : Z) : Z := Z.land x 0xFFFFFFFF.

Definition add32 (a b : Z) : Z := w32 (a + b).

Definition rotl32 (n x : Z) : Z :=
  Z.lor (w32 (Z.shiftl x n)) (Z.shiftr x (32 - n)).

Definition rotr32 (n x : Z) : Z :=
  Z.lor (Z.shiftr x n) (w32 (Z.shiftl x (32 - n))).

Definition not32 (x : Z) : Z := Z.lxor x 0xFFFFFFFF.

(** Merkle-Damgard padding with a 64-bit big-endian bit length. *)
Definition md_pad (msg : list Z) : list Z :=
  let len := Z.of_nat (List.length msg) in
  let zeros := Z.to_nat ((55 - len) mod 64) in
  msg ++ [0x80] ++ repeat 0 zeros ++ be_bytes 8 (8 * len).

Definition words_of_block (blk : list Z) : list Z :=
  map be_value (chunks 4 blk).

(* ===================================================================== *)
(** * hashlib.sha256 (FIPS 180-4)                                          *)
(* ===================================================================== *)

Module Sha256.

(** The round constants are the first 32 bits of the fractional parts of the
    cube roots of the first 64 primes; the initial hash value is made of
    those of the square roots of the first 8 primes. *)
Definition is_prime (n : Z) : bool :=
  (1 <? n) &&
  forallb (fun d => negb (n mod Z.of_nat d =? 0)) (seq 2 (Z.to_nat n - 2)).

Definition primes : list Z :=
  filter is_prime (map Z.of_nat (seq 2 310)).

(** The bits of [floor (cbrt n)], highest first. *)
Fixpoint cube_root_bits (bits : nat) (n acc : Z) : Z :=
  match bits with
  | O => acc
  | S b =>
      let candidate := acc + 2 ^ Z.of_nat b in
      if candidate ^ 3 <=? n then cube_root_bits b n candidate
      else cube_root_bits b n acc
  end.

Definition frac_cube_root (p : Z) : Z := w32 (cube_root_bits 36 (p * 2 ^ 96) 0).

Definition frac_square_root (p : Z) : Z := w32 (Z.sqrt (p * 2 ^ 64)).

Definition K : list Z := Eval vm_compute in map frac_cube_root primes.

Definition H0 : list Z :=
  Eval vm_compute in map frac_square_root (firstn 8 primes).

Definition Ch (x y z : Z) := Z.lxor (Z.land x y) (Z.land (not32 x) z).
Definition Maj (x y z : Z) :=
  Z.lxor (Z.lxor (Z.land x y) (Z.land x z)) (Z.land y z).
Definition Sigma0 (x : Z) :=
  Z.lxor (Z.lxor (rotr32 2 x) (rotr32 13 x)) (rotr32 22 x).
Definition Sigma1 (x : Z) :=
  Z.lxor (Z.lxor (rotr32 6 x) (rotr32 11 x)) (rotr32 25 x).
Definition sigma0 (x : Z) :=
  Z.lxor (Z.lxor (rotr32 7 x) (rotr32 18 x)) (Z.shiftr x 3).
Definition sigma1 (x : Z) :=
  Z.lxor (Z.lxor (rotr32 17 x) (rotr32 19 x)) (Z.shiftr x 10).

(** The schedule is kept as a window of the last sixteen words. *)
Definition next_window (w : list Z) : list Z :=
  let nw := add32 (add32 (sigma1 (nth 14 w 0)) (nth 9 w 0))
                  (add32 (sigma0 (nth 1 w 0)) (nth 0 w 0)) in
  tl w ++ [nw].

Definition round (k wt : Z) (s : list Z) : list Z :=
  match s with
  | [a; b; c; d; e; f; g; h] =>
      let t1 := add32 (add32 (add32 h (Sigma1 e)) (add32 (Ch e f g) k)) wt in
      let t2 := add32 (Sigma0 a) (Maj a b c) in
      [add32 t1 t2; a; b; c; add32 d t1; e; f; g]
  | _ => s
  end.

Fixpoint rounds (ks : list Z) (w : list Z) (s : list Z) : list Z :=
  match ks with
  | [] => s
  | k :: ks' => rounds ks' (next_window w) (round k (nth 0 w 0) s)
  end.

Definition compress (h : list Z) (blk : list Z) : list Z :=
  map (fun p => add32 (fst p) (snd p))
      (combine h (rounds K (words_of_block blk) h)).

Definition digest (msg : list Z) : list Z :=
  flat_map (be_bytes 4) (fold_left compress (chunks 64 (md_pad msg)) H0).

End Sha256.

(* ===================================================================== *)
(** * SHA-1 and HMAC-SHA1 (the digest pyotp uses by default)              *)
(* ===================================================================== *)

Module Sha1.

Definition H0 : list Z :=
  [0x67452301; 0xEFCDAB89; 0x98BADCFE; 0x10325476; 0xC3D2E1F0].

Definition next_window (w : list Z) : list Z :=
  let nw := rotl32 1 (Z.lxor (Z.lxor (nth 13 w 0) (nth 8 w 0))
                             (Z.lxor (nth 2 w 0) (nth 0 w 0))) in
  tl w ++ [nw].

Definition f (t : nat) (b c d : Z) : Z :=
  if (t <? 20)%nat then Z.lor (Z.land b c) (Z.land (not32 b) d)
  else if (t <? 40)%nat then Z.lxor (Z.lxor b c) d
  else if (t <? 60)%nat then
    Z.lor (Z.lor (Z.land b c) (Z.land b d)) (Z.land c d)
  else Z.lxor (Z.lxor b c) d.

Definition K (t : nat) : Z :=
  if (t <? 20)%nat then 0x5A827999
  else if (t <? 40)%nat then 0x6ED9EBA1
  else if (t <? 60)%nat then 0x8F1BBCDC
  else 0xCA62C1D6.

Definition round (t : nat) (wt : Z) (s : list Z) : list Z :=
  match s with
  | [a; b; c; d; e] =>
      let tmp := add32 (add32 (add32 (rotl32 5 a) (f t b c d))
                              (add32 e wt)) (K t) in
      [tmp; a; rotl32 30 b; c; d]
  | _ => s
  end.

Fixpoint rounds (n : nat) (t : nat) (w : list Z) (s : list Z) : list Z :=
  match n with
  | O => s
  | S n' => rounds n' (S t) (next_window w) (round t (nth 0 w 0) s)
  end.

Definition compress (h : list Z) (blk : list Z) : list Z :=
  map (fun p => add32 (fst p) (snd p))
      (combine h (rounds 80 0 (words_of_block blk) h)).

Definition digest (msg : list Z) : list Z :=
  flat_map (be_bytes 4) (fold_left compress (chunks 64 (md_pad msg)) H0).

End Sha1.

(** [hmac.new(key, msg, hashlib.sha1).digest()] *)
Definition hmac_sha1 (key msg : list Z) : list Z :=
  let key' := if (64 <? List.length key)%nat then Sha1.digest key else key in
  let key64 := key' ++ repeat 0 (64 - List.length key') in
  let ipad := map (fun b => Z.lxor b 0x36) key64 in
  let opad := map (fun b => Z.lxor b 0x5c) key64 in
  Sha1.digest (opad ++ Sha1.digest (ipad ++ msg)).

(* ===================================================================== *)
(** * Exceptions and results                                              *)
(* ===================================================================== *)

Inductive exn : Type :=
| FileNotFoundError (msg : string)
| ValueError (msg : string)
| TypeError (msg : string)
| KeyError (key : string)
| IndexError (msg : string)
| AttributeError (msg : string)
| NameError (name : string)
| OverflowError (msg : string)
| UnicodeDecodeError (start : Z)     (* a ValueError; the index of the bad byte *)
| OSError (msg : string)             (* PermissionError, IsADirectoryError, ... *)
| RecursionError (msg : string).

Inductive result (A : Type) : Type :=
| Ok (a : A)
| Raise (e : exn).

Arguments Ok {A} a.
Arguments Raise {A} e.

Definition rbind {A B} (r : result A) (k : A -> result B) : result B :=
  match r with
  | Ok a => k a
  | Raise e => Raise e
  end.

(* ===================================================================== *)
(** * Python text primitives                                              *)
(* ===================================================================== *)

Definition in_range (lo hi : Z) (c : ascii) : bool :=
  (lo <=? byte_of_ascii c) && (byte_of_ascii c <=? hi).

Definition is_digit (c : ascii) : bool := in_range 48 57 c.

(** [str.isspace] on ASCII: tab, line feed, vertical tab, form feed, carriage
    return, the four separators 0x1c-0x1f and the space. *)
Definition is_space (c : ascii) : bool :=
  in_range 9 13 c || in_range 28 32 c.

(** What [int()] skips around an ASCII literal: the C [isspace] set. *)
Definition is_c_space (c : ascii) : bool :=
  in_range 9 13 c || in_range 32 32 c.

Fixpoint lstrip_with (p : ascii -> bool) (cs : list ascii) : list ascii :=
  match cs with
  | c :: t => if p c then lstrip_with p t else cs
  | [] => []
  end.

Definition rstrip_with (p : ascii -> bool) (cs : list ascii) : list ascii :=
  rev (lstrip_with p (rev cs)).

Definition strip_with (p : ascii -> bool) (s : string) : string :=
  string_of_list_ascii
    (rstrip_with p (lstrip_with p (list_ascii_of_string s))).

(** [s.strip()] on ASCII text (other text may carry white space outside
    ASCII, such as U+00A0, which [str.strip] removes as well). *)
Definition strip (s : string) : string := strip_with is_space s.

(** [str(n)] for an [int]. *)
Definition str_of_int (n : Z) : string := NilZero.string_of_int (Z.to_int n).

(** [needle in hay] for two [str]. *)
Fixpoint contains (needle hay : string) : bool :=
  String.prefix needle hay ||
  match hay with
  | EmptyString => false
  | String _ t => contains needle t
  end.

(** Text all of whose characters are ASCII.  On such text the UTF-8 encoding
    has one byte for each character, NFKC normalisation is the identity, and
    white space and digits are the ASCII ones. *)
Definition is_ascii (s : string) : bool :=
  forallb (fun c => byte_of_ascii c <? 128) (list_ascii_of_string s).

(** [len(s)] for a [str]: its characters are the bytes of the encoding that
    are not continuation bytes. *)
Definition str_len (s : string) : nat :=
  List.length (filter (fun c => negb (in_range 128 191 c))
                      (list_ascii_of_string s)).

(* ===================================================================== *)
(** * Python floats                                                       *)
(* ===================================================================== *)

(** A [float] is a binary64 number: plus or minus [mantissa * 2 ^ exponent]
    with a mantissa below [2 ^ 53] and an exponent from -1074 on, an
    infinity, or a NaN. *)
Inductive pyfloat : Type :=
| Finite (negative : bool) (mantissa exponent : Z)
| Infinite (negative : bool)
| NaN.

(** [int(x)] *)
Definition float_trunc (x : pyfloat) : result Z :=
  match x with
  | Finite negative m e =>
      let n := Z.shiftl m e in Ok (if negative then - n else n)
  | Infinite _ => Raise (OverflowError "cannot convert float infinity to integer")
  | NaN => Raise (ValueError "cannot convert float NaN to integer")
  end.

(** The same number with its mantissa in [2^52, 2^53), or below with the
    least exponent. *)
Fixpoint normalise (fuel : nat) (m e : Z) : Z * Z :=
  match fuel with
  | O => (m, e)
  | S fuel' =>
      if (m <? 2 ^ 52) && (-1074 <? e) then normalise fuel' (2 * m) (e - 1)
      else if 2 ^ 53 <=? m then normalise fuel' (m / 2) (e + 1)
      else (m, e)
  end.

(** [c * 10^p] compared with [b * 2^q]. *)
Definition cmp_dec_bin (c p b q : Z) : comparison :=
  Z.compare (c * 10 ^ Z.max p 0 * 2 ^ Z.max (- q) 0)
            (b * 2 ^ Z.max q 0 * 10 ^ Z.max (- p) 0).

(** [c * 10^p] is read back as [m * 2^e]: it lies between the midpoints to
    the neighbouring floats, a midpoint itself counting when [m] is even. *)
Definition reads_back (m e c p : Z) : bool :=
  let low := if (m =? 2 ^ 52) && (-1074 <? e) then 4 * m - 1 else 4 * m - 2 in
  let high := 4 * m + 2 in
  match cmp_dec_bin c p low (e - 2) with
  | Gt => true
  | Eq => Z.even m
  | Lt => false
  end &&
  match cmp_dec_bin c p high (e - 2) with
  | Lt => true
  | Eq => Z.even m
  | Gt => false
  end.

(** The floor of [m * 2^e / 10^p]. *)
Definition floor_scaled (m e p : Z) : Z :=
  (m * 2 ^ Z.max e 0 * 10 ^ Z.max (- p) 0) / (2 ^ Z.max (- e) 0 * 10 ^ Z.max p 0).

(** The greatest of [high, high - 1, ...] whose power of ten is at most
    [m * 2^e]. *)
Fixpoint decimal_exponent (tries : nat) (m e high : Z) : Z :=
  match tries with
  | O => high
  | S tries' =>
      match cmp_dec_bin 1 high m e with
      | Gt => decimal_exponent tries' m e (high - 1)
      | _ => high
      end
  end.

(** The shortest decimal that reads back as [m * 2^e], the nearest one
    among those: its digits as a number, and the power of ten of its last
    digit.  [n] counts the digits tried so far. *)
Fixpoint shortest_digits (tries : nat) (m e top n : Z) : Z * Z :=
  let p := top - n in
  let c := floor_scaled m e p in
  let below := reads_back m e c p in
  let above := reads_back m e (c + 1) p in
  let nearest :=
    match cmp_dec_bin (2 * c + 1) p (2 * m) e with
    | Gt => c
    | Lt => c + 1
    | Eq => if Z.even c then c else c + 1
    end in
  match tries with
  | O => (nearest, p)
  | S tries' =>
      if below && above then (nearest, p)
      else if below then (c, p)
      else if above then (c + 1, p)
      else shortest_digits tries' m e top (n + 1)
  end.

Fixpoint drop_zeros (fuel : nat) (c p : Z) : Z * Z :=
  match fuel with
  | O => (c, p)
  | S fuel' =>
      if (c mod 10 =? 0) && negb (c =? 0) then drop_zeros fuel' (c / 10) (p + 1)
      else (c, p)
  end.

Definition zeros (n : Z) : string :=
  string_of_list_ascii (repeat "0"%char (Z.to_nat n)).

(** [repr] of a positive float from its digits [ds] and the place [decpt]
    of the point: in full from 0.0001 up to 16 digits before the point,
    with an exponent otherwise. *)
Definition format_float (ds : string) (decpt : Z) : string :=
  let n := Z.of_nat (String.length ds) in
  if (decpt <=? -4) || (16 <? decpt) then
    let exp := decpt - 1 in
    let shown := str_of_int (Z.abs exp) in
    String.substring 0 1 ds
    ++ (if 1 <? n then "." ++ String.substring 1 (Z.to_nat (n - 1)) ds else "")
    ++ "e" ++ (if exp <? 0 then "-" else "+")
    ++ (if Z.abs exp <? 10 then "0" else "") ++ shown
  else if decpt <=? 0 then "0." ++ zeros (- decpt) ++ ds
  else if decpt <? n then
    String.substring 0 (Z.to_nat decpt) ds ++ "."
    ++ String.substring (Z.to_nat decpt) (Z.to_nat (n - decpt)) ds
  else ds ++ zeros (decpt - n) ++ ".0".

(** [repr(x)], which is also [str(x)]. *)
Definition float_repr (x : pyfloat) : string :=
  match x with
  | NaN => "nan"
  | Infinite negative => if negative then "-inf" else "inf"
  | Finite negative m0 e0 =>
      (if negative then "-" else "") ++
      if m0 <=? 0 then "0.0"
      else
        let (m, e) := normalise 2200 m0 e0 in
        let top :=
          decimal_exponent 4 (4 * m) (e - 2)
                           ((Z.log2 m + e) * 30103 / 100000 + 2) in
        let (c0, p0) := shortest_digits 17 m e top 0 in
        let (c, p) := drop_zeros 400 c0 p0 in
        let ds := str_of_int c in
        format_float ds (p + Z.of_nat (String.length ds))
  end.

(* ===================================================================== *)
(** * JSON documents as [json.load] returns them                          *)
(* ===================================================================== *)

Inductive json : Type :=
| JNull
| JBool (b : bool)
| JInt (n : Z)
| JFloat (x : pyfloat)
| JStr (s : string)
| JList (l : list json)
| JDict (d : list (string * json)).

(** A Python [dict] with [str] keys, in insertion order. *)
Definition dict := list (string * json).

Fixpoint dict_lookup (d : dict) (k : string) : option json :=
  match d with
  | [] => None
  | (k', v) :: t => if String.eqb k' k then Some v else dict_lookup t k
  end.

(** [k in d] *)
Definition dict_has (d : dict) (k : string) : bool :=
  match dict_lookup d k with Some _ => true | None => false end.

(** [d.get(k, default)] *)
Definition dict_get (d : dict) (k : string) (default : json) : json :=
  match dict_lookup d k with Some v => v | None => default end.

(** [d[k]] *)
Definition dict_item (d : dict) (k : string) : result json :=
  match dict_lookup d k with Some v => Ok v | None => Raise (KeyError k) end.

(** [d[k] = v]: an existing key keeps its place, a new one goes last. *)
Fixpoint dict_set (d : dict) (k : string) (v : json) : dict :=
  match d with
  | [] => [(k, v)]
  | (k', v') :: t =>
      if String.eqb k' k then (k', v) :: t else (k', v') :: dict_set t k v
  end.

(** Truth value of a Python object ([if x], [not x]). *)
Definition truthy (v : json) : bool :=
  match v with
  | JNull => false
  | JBool b => b
  | JInt n => negb (n =? 0)
  | JFloat (Finite _ m _) => negb (m =? 0)
  | JFloat _ => true
  | JStr s => negb (String.eqb s "")
  | JList l => match l with [] => false | _ => true end
  | JDict d => match d with [] => false | _ => true end
  end.

(** [a == b] where [a] is a [str]. *)
Definition str_eq (a : string) (b : json) : bool :=
  match b with
  | JStr s => String.eqb a s
  | _ => false
  end.

(** [repr] of a [str]. *)
Definition repr_char (quote : ascii) (c : ascii) : list ascii :=
  if Ascii.eqb c quote || Ascii.eqb c "\"%char then ["\"%char; c]
  else if Ascii.eqb c "009"%char then ["\"%char; "t"%char]
  else if Ascii.eqb c "010"%char then ["\"%char; "n"%char]
  else if Ascii.eqb c "013"%char then ["\"%char; "r"%char]
  else if (byte_of_ascii c <? 32) || (byte_of_ascii c =? 127)
       then ["\"%char; "x"%char] ++ hex_of_byte (byte_of_ascii c)
  else [c].

Definition repr_str (s : string) : string :=
  let cs := list_ascii_of_string s in
  let squote := existsb (Ascii.eqb "'"%char) cs in
  let dquote := existsb (Ascii.eqb "034"%char) cs in
  let quote := if squote && negb dquote then "034"%char else "'"%char in
  string_of_list_ascii ([quote] ++ flat_map (repr_char quote) cs ++ [quote]).

(** Digits of a base-10 literal: single underscores are allowed between
    digits, nowhere else. *)
Fixpoint parse_digits (cs : list ascii) (acc : Z) (after_digit : bool)
  : option Z :=
  match cs with
  | [] => if after_digit then Some acc else None
  | c :: t =>
      if is_digit c then parse_digits t (10 * acc + (byte_of_ascii c - 48)) true
      else if Ascii.eqb c "_"%char then
        if after_digit then parse_digits t acc false else None
      else None
  end.

(** The digits at the head of a literal, underscores skipped: what the
    interpreter counts against its limit. *)
Fixpoint leading_digits (cs : list ascii) : nat :=
  match cs with
  | c :: t =>
      if is_digit c then S (leading_digits t)
      else if Ascii.eqb c "_"%char then leading_digits t
      else O
  | [] => O
  end.

(** [sys.int_max_str_digits], at its default. *)
Definition int_max_str_digits : nat := 4300.

(** The digits of a literal after its sign: refused beyond the limit. *)
Definition int_of_digits (s : string) (cs : list ascii) : result Z :=
  if (int_max_str_digits <? leading_digits cs)%nat then
    Raise (ValueError
             ("Exceeds the limit (4300 digits) for integer string conversion: value has "
              ++ str_of_int (Z.of_nat (leading_digits cs))
              ++ " digits; use sys.set_int_max_str_digits() to increase the limit"))
  else
    match parse_digits cs 0 false with
    | Some n => Ok n
    | None =>
        Raise (ValueError ("invalid literal for int() with base 10: " ++ repr_str s))
    end.

(** [int(s)] for a [str] of ASCII text: surrounding white space is dropped,
    one sign is allowed.  (On other text [int] also reads the decimal digits
    and white space of other scripts; text that converts here is ASCII and
    converts to the same number there.) *)
Definition int_of_str (s : string) : result Z :=
  match list_ascii_of_string (strip_with is_c_space s) with
  | "-"%char :: t => rbind (int_of_digits s t) (fun n => Ok (- n))
  | "+"%char :: t => int_of_digits s t
  | cs => int_of_digits s cs
  end.

Fixpoint join (sep : string) (l : list string) : string :=
  match l with
  | [] => ""
  | [x] => x
  | x :: t => (x ++ sep ++ join sep t)%string
  end.

(** [repr(v)] *)
Fixpoint repr (v : json) : string :=
  match v with
  | JNull => "None"
  | JBool true => "True"
  | JBool false => "False"
  | JInt n => str_of_int n
  | JFloat x => float_repr x
  | JStr s => repr_str s
  | JList l => ("[" ++ join ", " (map repr l) ++ "]")%string
  | JDict d =>
      ("{" ++ join ", "
                (map (fun kv => repr_str (fst kv) ++ ": " ++ repr (snd kv)) d)
           ++ "}")%string
  end.

(** [str(v)] *)
Definition py_str (v : json) : string :=
  match v with
  | JStr s => s
  | _ => repr v
  end.

(** [int(v)] *)
Definition py_int (v : json) : result Z :=
  match v with
  | JInt n => Ok n
  | JBool b => Ok (if b then 1 else 0)
  | JFloat x => float_trunc x
  | JStr s => int_of_str s
  | _ => Raise (TypeError "int() argument must be a string, a bytes-like object or a real number")
  end.

(** A value all of whose texts, keys included, are ASCII. *)
Fixpoint ascii_json (v : json) : bool :=
  match v with
  | JStr s => is_ascii s
  | JList l => forallb ascii_json l
  | JDict d => forallb (fun kv => is_ascii (fst kv) && ascii_json (snd kv)) d
  | _ => true
  end.

(* ===================================================================== *)
(** * Regular expressions ([re.match]) and [validate_mac]                 *)
(* ===================================================================== *)

(** The fragment of [re] syntax the pattern of [validate_mac] is written in. *)
Inductive regex : Type :=
| Class (p : ascii -> bool)          (* [...] *)
| Cat (r1 r2 : regex)                (* r1 r2 *)
| Rep (n : nat) (r : regex)          (* r{n} *)
| Bol                                (* ^ *)
| Eol.                               (* $ *)

Definition newline : ascii := "010"%char.

(** [$] without [re.MULTILINE]: at the end of the text, or just before a line
    feed that ends the text. *)
Definition at_eol (rest : list ascii) : bool :=
  match rest with
  | [] => true
  | [c] => Ascii.eqb c newline
  | _ => false
  end.

(** Backtracking matcher in continuation-passing style; [pos] counts the
    characters consumed so far. *)
Fixpoint run (r : regex) (pos : nat) (s : list ascii)
         (k : nat -> list ascii -> bool) {struct r} : bool :=
  match r with
  | Class p =>
      match s with
      | c :: t => p c && k (S pos) t
      | [] => false
      end
  | Cat r1 r2 => run r1 pos s (fun pos' s' => run r2 pos' s' k)
  | Rep n r1 =>
      (fix rep (n : nat) (pos : nat) (s : list ascii) {struct n} : bool :=
         match n with
         | O => k pos s
         | S m => run r1 pos s (fun pos' s' => rep m pos' s')
         end) n pos s
  | Bol => (pos =? 0)%nat && k pos s
  | Eol => at_eol s && k pos s
  end.

(** [re.match(r, s)] as a truth value: a match must start at position 0 and
    may end anywhere. *)
Definition re_match (r : regex) (s : string) : bool :=
  run r 0 (list_ascii_of_string s) (fun _ _ => true).

(** [[0-9A-Fa-f]] *)
Definition hex_class (c : ascii) : bool :=
  in_range 48 57 c || in_range 65 70 c || in_range 97 102 c.

(** [[:-]] *)
Definition sep_class (c : ascii) : bool :=
  Ascii.eqb c ":"%char || Ascii.eqb c "-"%char.

(** [r"^([0-9A-Fa-f]{2}[:-]){5}([0-9A-Fa-f]{2})$"] *)
Definition mac_pattern : regex :=
  Cat Bol
      (Cat (Rep 5 (Cat (Rep 2 (Class hex_class)) (Class sep_class)))
           (Cat (Rep 2 (Class hex_class)) Eol)).

(** setup_wol.py, [validate_mac]. *)
Definition validate_mac (mac : string) : bool :=
  if re_match mac_pattern mac then true else false.

(* ===================================================================== *)
(** * base64.b32decode and pyotp                                          *)
(* ===================================================================== *)

Definition upper (c : ascii) : ascii :=
  if in_range 97 122 c then ascii_of_byte (byte_of_ascii c - 32) else c.

Definition b32rev (c : ascii) : option Z :=
  if in_range 65 90 c then Some (byte_of_ascii c - 65)
  else if in_range 50 55 c then Some (byte_of_ascii c - 24)
  else None.

Fixpoint rstrip_eq_rev (rcs : list ascii) : list ascii :=
  match rcs with
  | c :: t => if Ascii.eqb c "="%char then rstrip_eq_rev t else rcs
  | [] => []
  end.

(** [s.rstrip(b'=')] *)
Definition rstrip_eq (cs : list ascii) : list ascii :=
  rev (rstrip_eq_rev (rev cs)).

(** The accumulator of one quantum: [acc = (acc << 5) + b32rev[c]]. *)
Fixpoint quantum_acc (cs : list ascii) (acc : Z) : option Z :=
  match cs with
  | [] => Some acc
  | c :: t =>
      match b32rev c with
      | Some v => quantum_acc t (Z.shiftl acc 5 + v)
      | None => None
      end
  end.

Fixpoint quanta_accs (qs : list (list ascii)) : option (list Z) :=
  match qs with
  | [] => Some []
  | q :: t =>
      match quantum_acc q 0, quanta_accs t with
      | Some a, Some l => Some (a :: l)
      | _, _ => None
      end
  end.

(** [base64.b32decode(s, casefold=True)] for a [str] argument. *)
Definition b32decode (s : string) : result (list Z) :=
  let cs := list_ascii_of_string s in
  if existsb (fun c => 128 <=? byte_of_ascii c) cs then
    Raise (ValueError "string argument should contain only ASCII characters")
  else if negb (Nat.eqb (List.length cs mod 8) 0) then
    Raise (ValueError "Incorrect padding")
  else
    let up := map upper cs in
    let l := List.length up in
    let body := rstrip_eq up in
    let padchars := (l - List.length body)%nat in
    match quanta_accs (chunks 8 body) with
    | None => Raise (ValueError "Non-base32 digit found")
    | Some accs =>
        if negb (existsb (Nat.eqb padchars) [0; 1; 3; 4; 6]%nat) then
          Raise (ValueError "Incorrect padding")
        else
          let decoded := flat_map (be_bytes 5) accs in
          match padchars, decoded with
          | O, _ | _, [] => Ok decoded
          | _, _ =>
              let acc := Z.shiftl (last accs 0) (5 * Z.of_nat padchars) in
              let lastq := be_bytes 5 acc in
              let leftover := ((43 - 5 * padchars) / 8)%nat in
              Ok (firstn (List.length decoded - 5) decoded
                    ++ firstn leftover lastq)
          end
    end.

Module pyotp.

(** [OTP.byte_secret] *)
Definition byte_secret (secret : string) : result (list Z) :=
  let missing_padding := (String.length secret mod 8)%nat in
  if negb (Nat.eqb missing_padding 0) then
    b32decode (secret ++ string_of_list_ascii
                 (repeat "="%char (8 - missing_padding)))%string
  else b32decode secret.

(** [OTP.int_to_bytestring(i)]: big-endian, right-justified to 8 bytes. *)
Fixpoint int_bytes_le (fuel : nat) (i : Z) : list Z :=
  match fuel with
  | O => []
  | S fuel' =>
      if i =? 0 then [] else Z.land i 255 :: int_bytes_le fuel' (Z.shiftr i 8)
  end.

Definition int_to_bytestring (i : Z) : list Z :=
  let r := rev (int_bytes_le (Z.to_nat (Z.log2_up (i + 1))) i) in
  repeat 0 (8 - List.length r) ++ r.

(** [str_code[-digits:]] for [digits = 6]. *)
Definition last6 (s : string) : string :=
  string_of_list_ascii
    (skipn (String.length s - 6) (list_ascii_of_string s)).

(** [OTP.generate_otp(input)] with the default six digits and SHA-1. *)
Definition generate_otp (secret : string) (input : Z) : result string :=
  if input <? 0 then Raise (ValueError "input must be positive integer")
  else
    rbind (byte_secret secret) (fun key =>
      let hmac_hash := hmac_sha1 key (int_to_bytestring input) in
      let offset := Z.to_nat (Z.land (last hmac_hash 0) 0xF) in
      let code :=
        Z.lor (Z.lor (Z.lor
          (Z.shiftl (Z.land (nth offset hmac_hash 0) 0x7F) 24)
          (Z.shiftl (Z.land (nth (offset + 1) hmac_hash 0) 0xFF) 16))
          (Z.shiftl (Z.land (nth (offset + 2) hmac_hash 0) 0xFF) 8))
          (Z.land (nth (offset + 3) hmac_hash 0) 0xFF) in
      let str_code := str_of_int (10000000000 + code mod 10 ^ 6) in
      Ok (last6 str_code)).

(** [TOTP.timecode]: [int(seconds / interval)] with the default interval. *)
Definition timecode (now : Z) : Z := Z.quot now 30.

(** [TOTP.at(for_time, counter_offset)] *)
Definition at_ (secret : string) (now : Z) (counter_offset : Z)
  : result string :=
  generate_otp secret (timecode now + counter_offset).

(** [utils.strings_equal(s1, s2)]: both texts are brought to NFKC and then
    compared.  NFKC leaves ASCII text as it is, and every generated code is
    ASCII: this is the comparison for a submitted code in ASCII. *)
Definition strings_equal (s1 s2 : string) : bool := String.eqb s1 s2.

(** The loop of [TOTP.verify]: the first offset whose code equals the
    submitted one answers [True]; an exception ends the loop. *)
Fixpoint verify_loop (secret otp : string) (now : Z) (offsets : list Z)
  : result bool :=
  match offsets with
  | [] => Ok false
  | i :: rest =>
      rbind (at_ secret now i) (fun code =>
        if strings_equal otp code then Ok true
        else verify_loop secret otp now rest)
  end.

(** [pyotp.TOTP(secret).verify(otp, valid_window=1)] at clock [now]:
    [range(-1, 2)] is the list of offsets. *)
Definition verify (secret otp : string) (now : Z) : result bool :=
  verify_loop secret otp now [-1; 0; 1].

End pyotp.

(* ===================================================================== *)
(** * The world and the handler monad                                     *)
(* ===================================================================== *)

(** What a file holds: text that [json.load] rejects (with the decoder's
    message), or a JSON object. *)
Inductive content : Type :=
| Unparseable (why : string)
| Document (d : dict).

(** The Flask session of one browser. *)
Record session_t : Type := mkSession {
  admin_logged_in : option bool;      (* session['admin_logged_in'] *)
  permanent : bool                    (* session.permanent *)
}.

Record world : Type := mkWorld {
  config_file : option content;       (* WOL_Brige.config *)
  admin_file : option content;        (* admin_config.json *)
  session : session_t;
  flashes : list (string * string);   (* flash(message, category) *)
  clock : Z                           (* seconds since the epoch *)
}.

Definition set_config_file (c : option content) (w : world) : world :=
  mkWorld c (admin_file w) (session w) (flashes w) (clock w).

Definition set_admin_file (c : option content) (w : world) : world :=
  mkWorld (config_file w) c (session w) (flashes w) (clock w).

Definition set_session (s : session_t) (w : world) : world :=
  mkWorld (config_file w) (admin_file w) s (flashes w) (clock w).

Definition add_flash (msg category : string) (w : world) : world :=
  mkWorld (config_file w) (admin_file w) (session w)
          (flashes w ++ [(msg, category)]) (clock w).

(** A computation that reads and writes the world and may raise. *)
Definition M (A : Type) : Type := world -> result A * world.

Definition ret {A} (a : A) : M A := fun w => (Ok a, w).

Definition raise {A} (e : exn) : M A := fun w => (Raise e, w).

Definition lift {A} (r : result A) : M A := fun w => (r, w).

Definition bind {A B} (m : M A) (k : A -> M B) : M B :=
  fun w =>
    match m w with
    | (Ok a, w') => k a w'
    | (Raise e, w') => (Raise e, w')
    end.

Definition gets {A} (f : world -> A) : M A := fun w => (Ok (f w), w).

Definition modify (f : world -> world) : M unit := fun w => (Ok tt, f w).

Declare Scope handler_scope.
Delimit Scope handler_scope with handler.
Notation "x <- m ;; k" := (bind m (fun x => k))
  (at level 61, m at next level, right associativity) : handler_scope.
Notation "m ;; k" := (bind m (fun _ => k))
  (at level 61, right associativity) : handler_scope.
Local Open Scope handler_scope.

(** What a view function hands back to Flask. *)
Inductive response : Type :=
| Plain (body : string) (status : Z)         (* return body, status *)
| Html (body : string)                       (* Response(body, mimetype='text/html') *)
| Redirect (endpoint : string)               (* redirect(url_for(endpoint)) *)
| Render (template : string) (context : dict).  (* render_template_string *)

(** HTTP status of a handled request; an uncaught exception is a 500. *)
Definition status_of (r : result response) : Z :=
  match r with
  | Ok (Plain _ status) => status
  | Ok (Html _) => 200
  | Ok (Redirect _) => 302
  | Ok (Render _ _) => 200
  | Raise _ => 500
  end.

Inductive http_method : Type := GET | POST.

Record request : Type := mkRequest {
  method : http_method;
  form : list (string * string)       (* request.form *)
}.

Fixpoint form_lookup (f : list (string * string)) (k : string) : option string :=
  match f with
  | [] => None
  | (k', v) :: t => if String.eqb k' k then Some v else form_lookup t k
  end.

(** [request.form.get(k, default)]; a submitted value is a [str]. *)
Definition form_get (r : request) (k : string) (default : json) : json :=
  match form_lookup (form r) k with
  | Some v => JStr v
  | None => default
  end.

(** [request.form.get(k, default)] where the default is a [str] too. *)
Definition form_str (r : request) (k : string) (default : string) : string :=
  match form_lookup (form r) k with
  | Some v => v
  | None => default
  end.

(** [action == 'literal'] where [action] may be [None]. *)
Definition option_eqb (o : option string) (s : string) : bool :=
  match o with
  | Some v => String.eqb v s
  | None => false
  end.

Definition is_post (r : request) : bool :=
  match method r with POST => true | GET => false end.

(* ===================================================================== *)
(** * admin_panel.py: the credentials store                               *)
(* ===================================================================== *)

Definition default_config : dict :=
  [("admin_enabled", JBool false);
   ("admin_username", JStr "admin");
   ("admin_password_hash", JStr "");
   ("2fa_enabled", JBool false);
   ("2fa_secret", JStr "")].

(** [save_admin_config(config)] *)
Definition save_admin_config (config : dict) : M unit :=
  modify (set_admin_file (Some (Document config))).

(** [load_admin_config()] *)
Definition load_admin_config : M dict :=
  f <- gets admin_file ;;
  match f with
  | None =>
      save_admin_config default_config ;;
      ret default_config
  | Some (Document d) => ret d
  | Some (Unparseable _) => ret default_config
  end.

(** [hash_password(password)] *)
Definition hash_password (password : string) : string :=
  hex (Sha256.digest (encode password)).

(** [verify_password(password, password_hash)] *)
Definition verify_password (password : string) (password_hash : json) : bool :=
  str_eq (hash_password password) password_hash.

(** [pyotp.TOTP(secret).verify(totp_code, valid_window=1)] for a stored
    secret of any JSON type: only a [str] can be decoded. *)
Definition totp_verify (secret : json) (totp_code : string) (now : Z)
  : result bool :=
  match secret with
  | JStr s => pyotp.verify s totp_code now
  | _ =>
      if pyotp.timecode now + -1 <? 0
      then Raise (ValueError "input must be positive integer")
      else Raise (TypeError "the secret is not a str")
  end.

Definition logged_in (w : world) : bool :=
  match admin_logged_in (session w) with
  | Some true => true
  | _ => false
  end.

Definition disabled_response : response :=
  Plain "Admin panel is disabled. Enable it using setup_wol.py" 403.

(** [@login_required] *)
Definition login_required (f : M response) : M response :=
  admin_config <- load_admin_config ;;
  if negb (truthy (dict_get admin_config "admin_enabled" (JBool false))) then
    ret disabled_response
  else
    ok <- gets logged_in ;;
    if negb ok then ret (Redirect "admin.login")
    else f.

(** The tail of [login] once every check has passed. *)
Definition login_success : M response :=
  modify (set_session (mkSession (Some true) true)) ;;
  ret (Redirect "admin.dashboard").

(** [login()] *)
Definition login (req : request) : M response :=
  admin_config <- load_admin_config ;;
  if negb (truthy (dict_get admin_config "admin_enabled" (JBool false))) then
    ret disabled_response
  else if is_post req then
    let username := form_str req "username" "" in
    let password := form_str req "password" "" in
    let totp_code := form_str req "totp_code" "" in
    stored_user <- lift (dict_item admin_config "admin_username") ;;
    credentials_ok <-
      (if str_eq username stored_user then
         stored_hash <- lift (dict_item admin_config "admin_password_hash") ;;
         ret (verify_password password stored_hash)
       else ret false) ;;
    if (credentials_ok : bool) then
      if truthy (dict_get admin_config "2fa_enabled" (JBool false)) then
        secret <- lift (dict_item admin_config "2fa_secret") ;;
        now <- gets clock ;;
        accepted <- lift (totp_verify secret totp_code now) ;;
        if negb accepted then
          ret (Render "LOGIN_TEMPLATE"
                 [("error", JStr "Invalid 2FA code");
                  ("require_2fa", JBool true)])
        else login_success
      else login_success
    else
      ret (Render "LOGIN_TEMPLATE"
             [("error", JStr "Invalid username or password");
              ("require_2fa", dict_get admin_config "2fa_enabled" (JBool false))])
  else
    ret (Render "LOGIN_TEMPLATE"
           [("error", JNull);
            ("require_2fa", dict_get admin_config "2fa_enabled" (JBool false))]).

(** [logout()] *)
Definition logout : M response :=
  s <- gets session ;;
  modify (set_session (mkSession None (permanent s))) ;;
  ret (Redirect "admin.login").

(* ===================================================================== *)
(** * admin_panel.py: the roster                                          *)
(* ===================================================================== *)

(** [with open(CONFIG_FILE, 'r') as f: config = json.load(f)] *)
Definition read_config : M dict :=
  f <- gets config_file ;;
  match f with
  | None =>
      raise (FileNotFoundError
               "[Errno 2] No such file or directory: 'WOL_Brige.config'")
  | Some (Unparseable why) => raise (ValueError why)
  | Some (Document d) => ret d
  end.

(** [with open(CONFIG_FILE, 'w') as f: json.dump(config, f, indent=4)] *)
Definition write_config (config : dict) : M unit :=
  modify (set_config_file (Some (Document config))).

(** [len(v)] *)
Definition py_len (v : json) : result Z :=
  match v with
  | JList l => Ok (Z.of_nat (List.length l))
  | JStr s => Ok (Z.of_nat (String.length s))
  | JDict d => Ok (Z.of_nat (List.length d))
  | _ => Raise (TypeError "object has no len()")
  end.

(** [v[i]] for an index already known to lie in [0, len(v)). *)
Definition get_item (v : json) (i : Z) : result json :=
  match v with
  | JList l =>
      match nth_error l (Z.to_nat i) with
      | Some x => Ok x
      | None => Raise (IndexError "list index out of range")
      end
  | JStr s =>
      match String.get (Z.to_nat i) s with
      | Some c => Ok (JStr (String c EmptyString))
      | None => Raise (IndexError "string index out of range")
      end
  | JDict _ => Raise (KeyError (str_of_int i))
  | _ => Raise (TypeError "object is not subscriptable")
  end.

(** [v[i] = x] for an index in [0, len(v)).  An [int] key put into a dict
    is written by [json.dump] as its decimal text. *)
Definition set_item (v : json) (i : Z) (x : json) : result json :=
  match v with
  | JList l =>
      Ok (JList (firstn (Z.to_nat i) l ++ x :: skipn (S (Z.to_nat i)) l))
  | JDict d => Ok (JDict (dict_set d (str_of_int i) x))
  | _ => Raise (TypeError "object does not support item assignment")
  end.

(** [v.append(x)] *)
Definition list_append (v : json) (x : json) : result json :=
  match v with
  | JList l => Ok (JList (l ++ [x]))
  | _ => Raise (AttributeError "object has no attribute 'append'")
  end.

(** [v.pop(i)] for an index in [0, len(v)); the list that remains. *)
Definition list_pop (v : json) (i : Z) : result json :=
  match v with
  | JList l => Ok (JList (firstn (Z.to_nat i) l ++ skipn (S (Z.to_nat i)) l))
  | JDict _ => Raise (KeyError (str_of_int i))
  | _ => Raise (AttributeError "object has no attribute 'pop'")
  end.

(** [v[k]] for a [str] key. *)
Definition subscript (v : json) (k : string) : result json :=
  match v with
  | JDict d => dict_item d k
  | _ => Raise (TypeError "indices must be integers")
  end.

(** The entry that [add_server] and [edit_server] build from the form. *)
Definition server_from_form (req : request) : result json :=
  let name := strip (form_str req "name" "") in
  let mac := strip (form_str req "mac" "") in
  let broadcast := strip (form_str req "broadcast" "255.255.255.255") in
  let url := strip (form_str req "url" "") in
  rbind (py_int (form_get req "wait_time" (JInt 60))) (fun wait =>
    Ok (JDict [("NAME", JStr name);
               ("WOL_MAC_ADDRESS", JStr mac);
               ("BROADCAST_ADDRESS", JStr broadcast);
               ("SITE_URL", JStr url);
               ("WAIT_TIME_SECONDS", JInt wait)])).

Definition restart_note : string :=
  " Restart the application for changes to take effect.".

(** [dashboard()], below its decorator. *)
Definition dashboard_body : M response :=
  f <- gets config_file ;;
  match f with
  | None => ret (Plain "Configuration file not found. Run setup_wol.py first." 500)
  | Some (Unparseable _) => ret (Plain "Error loading configuration file." 500)
  | Some (Document config) =>
      ret (Render "DASHBOARD_TEMPLATE"
             [("servers", dict_get config "SERVERS" (JList []));
              ("port", dict_get config "PORT" (JInt 5000))])
  end.

(** [add_server()], below its decorator. *)
Definition add_server_body (req : request) : M response :=
  if is_post req then
    config <- read_config ;;
    new_server <- lift (server_from_form req) ;;
    servers <- lift (dict_item config "SERVERS") ;;
    servers' <- lift (list_append servers new_server) ;;
    write_config (dict_set config "SERVERS" servers') ;;
    modify (add_flash ("Server added successfully!" ++ restart_note) "success") ;;
    ret (Redirect "admin.dashboard")
  else
    ret (Render "SERVER_FORM_TEMPLATE" [("server", JNull); ("action", JStr "Add")]).

(** [edit_server(server_id)], below its decorator.  [servers] is the object
    stored under ['SERVERS'] whenever an index is in range, so the item
    assignment is seen through [config]. *)
Definition edit_server_body (server_id : Z) (req : request) : M response :=
  config <- read_config ;;
  let servers := dict_get config "SERVERS" (JList []) in
  n <- lift (py_len servers) ;;
  if (server_id <? 0) || (server_id >=? n) then
    ret (Plain "Invalid server ID" 404)
  else if is_post req then
    entry <- lift (server_from_form req) ;;
    servers' <- lift (set_item servers server_id entry) ;;
    write_config (dict_set config "SERVERS" servers') ;;
    modify (add_flash ("Server updated successfully!" ++ restart_note) "success") ;;
    ret (Redirect "admin.dashboard")
  else
    server <- lift (get_item servers server_id) ;;
    ret (Render "SERVER_FORM_TEMPLATE"
           [("server", server); ("action", JStr "Edit");
            ("server_id", JInt server_id)]).

Definition dq : string := String "034"%char EmptyString.

(** [delete_server(server_id)], below its decorator. *)
Definition delete_server_body (server_id : Z) : M response :=
  config <- read_config ;;
  let servers := dict_get config "SERVERS" (JList []) in
  n <- lift (py_len servers) ;;
  if (server_id <? 0) || (server_id >=? n) then
    ret (Plain "Invalid server ID" 404)
  else
    entry <- lift (get_item servers server_id) ;;
    deleted_name <- lift (subscript entry "NAME") ;;
    servers' <- lift (list_pop servers server_id) ;;
    write_config (dict_set config "SERVERS" servers') ;;
    modify (add_flash ("Server " ++ dq ++ py_str deleted_name ++ dq
                         ++ " deleted successfully!" ++ restart_note)%string
                      "success") ;;
    ret (Redirect "admin.dashboard").

Definition dashboard : M response := login_required dashboard_body.

Definition add_server (req : request) : M response :=
  login_required (add_server_body req).

Definition edit_server (server_id : Z) (req : request) : M response :=
  login_required (edit_server_body server_id req).

Definition delete_server (server_id : Z) : M response :=
  login_required (delete_server_body server_id).

(* ===================================================================== *)
(** * admin_panel.py: security settings                                   *)
(* ===================================================================== *)

(** What the libraries hand to one request: the secret that
    [pyotp.random_base32()] draws, the provisioning URI that pyotp formats
    and the picture that qrcode and PIL make of it. *)
Record libraries : Type := mkLibraries {
  random_base32 : string;
  provisioning_uri : string -> json -> string -> string;
  qr_png_base64 : string -> string
}.

Section SecuritySettings.

(** What reading the global name [TOTP_AVAILABLE] gives. *)
Variable totp_available : result json.

Variable lib : libraries.

(** [generate_qr_code(provisioning_uri)] *)
Definition generate_qr_code_with (uri : string) : result string :=
  rbind totp_available (fun flag =>
    if negb (truthy flag) then Ok "" else Ok (qr_png_base64 lib uri)).

Definition back_to_settings : M response :=
  ret (Redirect "admin.security_settings").

(** [security_settings()], below its decorator. *)
Definition security_settings_with (req : request) : M response :=
  admin_config <- load_admin_config ;;
  if is_post req then
    let action := form_lookup (form req) "action" in
    if option_eqb action "change_password" then
      let current_password := form_str req "current_password" "" in
      let new_password := form_str req "new_password" "" in
      let confirm_password := form_str req "confirm_password" "" in
      stored_hash <- lift (dict_item admin_config "admin_password_hash") ;;
      (if negb (verify_password current_password stored_hash) then
         modify (add_flash "Current password is incorrect" "error")
       else if negb (String.eqb new_password confirm_password) then
         modify (add_flash "New passwords do not match" "error")
       else if (str_len new_password <? 6)%nat then
         modify (add_flash "Password must be at least 6 characters" "error")
       else
         save_admin_config
           (dict_set admin_config "admin_password_hash"
                     (JStr (hash_password new_password))) ;;
         modify (add_flash "Password changed successfully" "success")) ;;
      back_to_settings
    else if option_eqb action "enable_2fa" then
      flag <- lift totp_available ;;
      if negb (truthy flag) then
        modify (add_flash "2FA requires pyotp and qrcode packages. Install with: pip3 install pyotp qrcode pillow" "error") ;;
        back_to_settings
      else
        let secret := random_base32 lib in
        let admin_config' :=
          dict_set (dict_set admin_config "2fa_secret" (JStr secret))
                   "2fa_enabled" (JBool false) in
        save_admin_config admin_config' ;;
        name <- lift (dict_item admin_config' "admin_username") ;;
        let uri := provisioning_uri lib secret name "WOL Gateway" in
        qr_code <- lift (generate_qr_code_with uri) ;;
        ret (Render "SETUP_2FA_TEMPLATE"
               [("secret", JStr secret); ("qr_code", JStr qr_code)])
    else if option_eqb action "verify_2fa" then
      let totp_code := form_str req "totp_code" "" in
      secret <- lift (dict_item admin_config "2fa_secret") ;;
      now <- gets clock ;;
      accepted <- lift (totp_verify secret totp_code now) ;;
      if (accepted : bool) then
        save_admin_config (dict_set admin_config "2fa_enabled" (JBool true)) ;;
        modify (add_flash "2FA enabled successfully" "success") ;;
        back_to_settings
      else
        modify (add_flash "Invalid 2FA code. Please try again." "error") ;;
        back_to_settings
    else if option_eqb action "disable_2fa" then
      let password := form_str req "password" "" in
      stored_hash <- lift (dict_item admin_config "admin_password_hash") ;;
      (if verify_password password stored_hash then
         save_admin_config
           (dict_set (dict_set admin_config "2fa_enabled" (JBool false))
                     "2fa_secret" (JStr "")) ;;
         modify (add_flash "2FA disabled successfully" "success")
       else
         modify (add_flash "Incorrect password" "error")) ;;
      back_to_settings
    else back_to_settings
  else
    ret (Render "SECURITY_TEMPLATE"
           [("two_fa_enabled", dict_get admin_config "2fa_enabled" (JBool false))]).

End SecuritySettings.

(** admin_panel.py reads [TOTP_AVAILABLE] (in [security_settings] and in
    [generate_qr_code]) and binds it nowhere: no assignment, no import, no
    builtin of that name.  Reading it raises. *)
Definition TOTP_AVAILABLE : result json := Raise (NameError "TOTP_AVAILABLE").

Definition generate_qr_code : libraries -> string -> result string :=
  generate_qr_code_with TOTP_AVAILABLE.

Definition security_settings (lib : libraries) (req : request) : M response :=
  login_required (security_settings_with TOTP_AVAILABLE lib req).

(* ===================================================================== *)
(** * setup_wol.py: writing the configuration                             *)
(* ===================================================================== *)

(** The end of [main]: the five collected values are written as one JSON
    object.  [mac], [broadcast] and [url] are what the prompts left in these
    variables: typed text, or the value found in an earlier file. *)
Definition main_save_config (mac broadcast url : json) (wait port : Z)
  : M unit :=
  let new_config :=
    [("WOL_MAC_ADDRESS", mac);
     ("BROADCAST_ADDRESS", broadcast);
     ("SITE_URL", url);
     ("WAIT_TIME_SECONDS", JInt wait);
     ("PORT", JInt port)] in
  modify (set_config_file (Some (Document new_config))).

(* ===================================================================== *)
(** * wol_gatway.py: loading the configuration                            *)
(* ===================================================================== *)

Record gateway_config : Type := mkGatewayConfig {
  WOL_MAC_ADDRESS : string;
  BROADCAST_ADDRESS : string;
  SITE_URL : string;
  WAIT_TIME_SECONDS : Z;
  PORT : Z
}.

Definition required_keys : list string :=
  ["WOL_MAC_ADDRESS"; "BROADCAST_ADDRESS"; "SITE_URL"; "WAIT_TIME_SECONDS";
   "PORT"].

(** [try: int(v) except (TypeError, ValueError): raise ValueError(msg)] *)
Definition int_or_malformed (v : json) (msg : string) : result Z :=
  match py_int v with
  | Ok n => Ok n
  | Raise (TypeError _) | Raise (ValueError _) | Raise (UnicodeDecodeError _) =>
      Raise (ValueError msg)
  | Raise e => Raise e
  end.

Definition is_empty (s : string) : bool := String.eqb s "".

(** What the gateway finds in a configuration file that exists: a file
    that cannot be opened or read as text ([OSError], [UnicodeDecodeError])
    or on which the parser gives up with something else than a
    [JSONDecodeError] ([RecursionError] on deep nesting, the [ValueError] of
    [int] on a literal beyond its digit limit); text that [json.load] rejects
    with [JSONDecodeError]; or the value that [json.load] returns, which need
    not be an object. *)
Inductive json_file : Type :=
| Unreadable (e : exn)
| NotJson (why : string)
| Json (v : json).

(** [key in container] for a [str] key: a key of a dict, an element of a
    list, a piece of a text; other values are no containers. *)
Definition py_in (key : string) (container : json) : result bool :=
  match container with
  | JDict d => Ok (dict_has d key)
  | JList l => Ok (existsb (str_eq key) l)
  | JStr s => Ok (contains key s)
  | _ => Raise (TypeError "argument is not iterable")
  end.

(** [[key for key in keys if key not in user_config]] *)
Fixpoint missing_keys (user_config : json) (keys : list string)
  : result (list string) :=
  match keys with
  | [] => Ok []
  | key :: rest =>
      rbind (py_in key user_config) (fun present =>
      rbind (missing_keys user_config rest) (fun others =>
        Ok (if present then others else key :: others)))
  end.

(** [load_config()] on what the configuration file holds (the line it
    prints to the log is left out). *)
Definition load_config_file (file : option json_file) : result gateway_config :=
  match file with
  | None =>
      Raise (FileNotFoundError
               "Config file WOL_Brige.config is required. Run setup_wol.py to create it.")
  | Some (Unreadable e) => Raise e
  | Some (NotJson why) =>
      Raise (ValueError ("Error parsing WOL_Brige.config: " ++ why))
  | Some (Json user_config) =>
      rbind (missing_keys user_config required_keys) (fun missing =>
      match missing with
      | _ :: _ =>
          Raise (ValueError ("Missing required config keys: " ++ join ", " missing))
      | [] =>
          rbind (subscript user_config "WOL_MAC_ADDRESS") (fun mac_raw =>
          rbind (subscript user_config "BROADCAST_ADDRESS") (fun broadcast_raw =>
          rbind (subscript user_config "SITE_URL") (fun site_raw =>
          rbind (subscript user_config "WAIT_TIME_SECONDS") (fun wait_raw =>
            let mac := strip (py_str mac_raw) in
            let broadcast := strip (py_str broadcast_raw) in
            let site := strip (py_str site_raw) in
            if is_empty mac then
              Raise (ValueError "WOL_MAC_ADDRESS must be set in the config file.")
            else if is_empty broadcast then
              Raise (ValueError "BROADCAST_ADDRESS must be set in the config file.")
            else if is_empty site then
              Raise (ValueError "SITE_URL must be set in the config file.")
            else
              rbind (int_or_malformed wait_raw "WAIT_TIME_SECONDS must be an integer.")
                (fun wait =>
              if wait <=? 0 then
                Raise (ValueError "WAIT_TIME_SECONDS must be greater than zero.")
              else
                rbind (subscript user_config "PORT") (fun port_raw =>
                rbind (int_or_malformed port_raw "PORT must be an integer.")
                  (fun port =>
                if (port <=? 0) || (port >? 65535) then
                  Raise (ValueError "PORT must be between 1 and 65535.")
                else
                  Ok (mkGatewayConfig mac broadcast site wait port))))))))
      end)
  end.

(** A file of the world, which holds an object whenever it parses, as the
    gateway finds it. *)
Definition file_of (c : content) : json_file :=
  match c with
  | Unparseable why => NotJson why
  | Document d => Json (JDict d)
  end.

(** [load_config()] in a world. *)
Definition load_config_from (file : option content) : result gateway_config :=
  load_config_file (option_map file_of file).

Definition load_config : M gateway_config :=
  f <- gets config_file ;;
  lift (load_config_from f).

(* ===================================================================== *)
(** * wol_gatway.py: the waiting page and the wake route                  *)
(* ===================================================================== *)

(** Text outside ASCII is kept as its UTF-8 bytes. *)
Definition utf8 (bs : list Z) : string :=
  string_of_list_ascii (map ascii_of_byte bs).

(** The tag that sends the browser on after the wait. *)
Definition refresh_tag (cfg : gateway_config) : string :=
  "<meta http-equiv=" ++ dq ++ "refresh" ++ dq ++ " content=" ++ dq
   ++ str_of_int (WAIT_TIME_SECONDS cfg) ++ ";url=" ++ SITE_URL cfg ++ dq ++ ">".

Definition page_head : string :=
"
<!DOCTYPE html>
<html>
<head>
    <title>Server Starting...</title>
    ".

Definition page_style_and_body : string :=
"
    <style>
        body { font-family: sans-serif; text-align: center; margin-top: 50px; background-color: #f0f0f0; }
        .container { background: white; padding: 30px; border-radius: 10px; box-shadow: 0 4px 8px rgba(0,0,0,0.1); display: inline-block; }
        h1 { color: #333; }
        .loader { border: 8px solid #f3f3f3; border-top: 8px solid #3498db; border-radius: 50%; width: 50px; height: 50px; animation: spin 2s linear infinite; margin: 20px auto; }
        @keyframes spin { 0% { transform: rotate(0deg); } 100% { transform: rotate(360deg); } }
    </style>
</head>
<body>
    <div class=" ++ dq ++ "container" ++ dq ++ ">
        <h1>" ++ utf8 [239; 163; 191; 195; 188; 195; 182; 195; 132]
   ++ " Starting Server...</h1>
        <div class=" ++ dq ++ "loader" ++ dq ++ "></div>
        <p>Sending Wake-on-LAN signal. Please wait approximately <strong>".

Definition page_tail : string :=
" seconds</strong>.</p>
        <p>You will be automatically redirected to your domain.</p>
        <p>If the page fails to load, the server may still be booting. Please try refreshing.</p>
    </div>
</body>
</html>
".

(** [WAITING_PAGE_HTML], the f-string filled in from the loaded
    configuration. *)
Definition WAITING_PAGE_HTML (cfg : gateway_config) : string :=
  page_head ++ refresh_tag cfg ++ page_style_and_body
    ++ str_of_int (WAIT_TIME_SECONDS cfg) ++ page_tail.

(** [bytes.decode()]: strict UTF-8.  A sequence is well formed when it is a
    byte below 0x80, or a lead byte 0xC2-0xF4 followed by the continuation
    bytes of its length, without over-long forms, surrogates or code points
    above U+10FFFF. *)
Definition between (lo hi b : Z) : bool := (lo <=? b) && (b <=? hi).

Definition continuation (b : Z) : bool := between 128 191 b.

Definition second_of_three (b0 b1 : Z) : bool :=
  if b0 =? 224 then between 160 191 b1
  else if b0 =? 237 then between 128 159 b1
  else between 225 239 b0 && continuation b1.

Definition second_of_four (b0 b1 : Z) : bool :=
  if b0 =? 240 then between 144 191 b1
  else if b0 =? 244 then between 128 143 b1
  else between 241 243 b0 && continuation b1.

(** The index of the first byte that starts no well-formed sequence. *)
Fixpoint ill_formed_at (bs : list Z) (pos : Z) : option Z :=
  match bs with
  | [] => None
  | b0 :: t0 =>
      if between 0 127 b0 then ill_formed_at t0 (pos + 1)
      else
        match t0 with
        | b1 :: t1 =>
            if between 194 223 b0 && continuation b1 then ill_formed_at t1 (pos + 2)
            else
              match t1 with
              | b2 :: t2 =>
                  if second_of_three b0 b1 && continuation b2
                  then ill_formed_at t2 (pos + 3)
                  else
                    match t2 with
                    | b3 :: t3 =>
                        if second_of_four b0 b1 && continuation b2 && continuation b3
                        then ill_formed_at t3 (pos + 4)
                        else Some pos
                    | [] => Some pos
                    end
              | [] => Some pos
              end
        | [] => Some pos
        end
  end.

Definition decode (bs : list Z) : result string :=
  match ill_formed_at bs 0 with
  | None => Ok (utf8 bs)
  | Some start => Raise (UnicodeDecodeError start)
  end.

(** How [subprocess.run(..., check=True, capture_output=True)] ends:
    without exception, with [CalledProcessError] (the captured [e.stderr] is
    a [bytes]), or with another exception [e] (of text [str(e)]). *)
Inductive run_outcome : Type :=
| Completed
| CalledProcessError (stderr : list Z)
| OtherError (str_e : string).

(** The operating system as the wake route sees it. *)
Record os_env : Type := mkOsEnv {
  SUDO_USER : option string;             (* os.environ *)
  user_home : string;                    (* os.path.expanduser('~') *)
  which : string -> option bool;         (* exit status 0 of [which]; None: the call raises *)
  is_executable_file : string -> bool;   (* os.path.isfile(p) and os.access(p, os.X_OK) *)
  run_process : list string -> run_outcome
}.

Definition starts_with_slash (s : string) : bool :=
  match s with
  | String c _ => Ascii.eqb c "/"%char
  | EmptyString => false
  end.

Definition ends_with_slash (s : string) : bool :=
  match rev (list_ascii_of_string s) with
  | c :: _ => Ascii.eqb c "/"%char
  | [] => false
  end.

(** [os.path.join(a, *p)] (posixpath) *)
Definition path_join (a : string) (p : list string) : string :=
  fold_left (fun path b =>
               if starts_with_slash b then b
               else if is_empty path || ends_with_slash path then (path ++ b)%string
               else (path ++ "/" ++ b)%string) p a.

(** ['/' in s] *)
Definition has_slash (s : string) : bool :=
  existsb (Ascii.eqb "/"%char) (list_ascii_of_string s).

(** The loop of [find_wakeonlan_command]. *)
Fixpoint first_usable (env : os_env) (paths : list string) : option string :=
  match paths with
  | [] => None
  | cmd_path :: rest =>
      if negb (has_slash cmd_path) then
        match which env cmd_path with
        | Some true => Some cmd_path
        | _ => first_usable env rest
        end
      else if is_executable_file env cmd_path then Some cmd_path
      else first_usable env rest
  end.

(** [find_wakeonlan_command()] *)
Definition find_wakeonlan_command (env : os_env) : option string :=
  let user_local_bin :=
    match SUDO_USER env with
    | Some sudo_user => ("/home/" ++ sudo_user ++ "/.local/bin/wakeonlan")%string
    | None => path_join (user_home env) [".local"; "bin"; "wakeonlan"]
    end in
  first_usable env
    ["wakeonlan"; user_local_bin; "/usr/bin/wakeonlan";
     "/usr/local/bin/wakeonlan"; "/bin/wakeonlan"].

Definition not_found_message : string :=
  "WOL Error: 'wakeonlan' command not found. Please install it:" ++ String newline
  "  Debian/Ubuntu: sudo apt-get install wakeonlan" ++ String newline
  "  Fedora/RHEL: sudo dnf install wol" ++ String newline
  "  Or via pip: pip3 install --user wakeonlan".

(** [wake_server_and_redirect()] with the module constants taken from the
    configuration loaded at start-up (the [print] lines are left out).  An
    exception raised inside the [except CalledProcessError] clause is not
    caught by the [except Exception] clause next to it: it leaves the
    function. *)
Definition wake_server_and_redirect (cfg : gateway_config) (env : os_env)
  : result response :=
  match find_wakeonlan_command env with
  | None | Some EmptyString => Ok (Plain not_found_message 500)
  | Some wakeonlan_cmd =>
      match run_process env
              [wakeonlan_cmd; "-i"; BROADCAST_ADDRESS cfg; WOL_MAC_ADDRESS cfg]
      with
      | Completed => Ok (Html (WAITING_PAGE_HTML cfg))
      | CalledProcessError stderr =>
          rbind (decode stderr) (fun text =>
          Ok (Plain ("WOL Error: Could not send packet. Check MAC address: "
                     ++ text) 500))
      | OtherError str_e =>
          Ok (Plain ("WOL Error: Unexpected error: " ++ str_e) 500)
      end
  end.

(* ===================================================================== *)
(** * Vocabulary of the specification                                   *)
(* ===================================================================== *)

(** The two states of the Auth Guard, read off the session. *)
Inductive auth_state : Type := LoggedOut | LoggedIn.

Definition auth_state_of (w : world) : auth_state :=
  if logged_in w then LoggedIn else LoggedOut.

(** The record [load_admin_config] answers with in world [w]. *)
Definition stored_credentials (w : world) : dict :=
  match admin_file w with
  | Some (Document d) => d
  | _ => default_config
  end.

(** The world [load_admin_config] leaves behind. *)
Definition after_load (w : world) : world :=
  match admin_file w with
  | None => set_admin_file (Some (Document default_config)) w
  | _ => w
  end.

Definition panel_enabled (w : world) : bool :=
  truthy (dict_get (stored_credentials w) "admin_enabled" (JBool false)).

(** [code] is the one-time code of [secret] for the current 30-second step
    or for one of its two neighbours. *)
Definition code_in_window (secret code : string) (now : Z) : Prop :=
  exists step,
    pyotp.timecode now - 1 <= step <= pyotp.timecode now + 1 /\
    pyotp.generate_otp secret step = Ok code.

(** The four conditions of a successful login. *)
Definition login_conditions (w : world) (req : request) : Prop :=
  let cfg := stored_credentials w in
  truthy (dict_get cfg "admin_enabled" (JBool false)) = true /\
  dict_lookup cfg "admin_username" = Some (JStr (form_str req "username" "")) /\
  dict_lookup cfg "admin_password_hash" =
    Some (JStr (hash_password (form_str req "password" ""))) /\
  (truthy (dict_get cfg "2fa_enabled" (JBool false)) = false \/
   exists secret,
     dict_lookup cfg "2fa_secret" = Some (JStr secret) /\
     code_in_window secret (form_str req "totp_code" "") (clock w)).

(** The error text a rendered page carries, if any. *)
Definition error_of (r : result response) : option json :=
  match r with
  | Ok (Render _ context) => dict_lookup context "error"
  | _ => None
  end.

(** "Every refused login shows the same error": two submissions refused in
    one world cannot be told apart by their error text. *)
Definition uniform_login_errors : Prop :=
  forall w req1 req2,
    method req1 = POST -> method req2 = POST ->
    panel_enabled w = true ->
    auth_state_of w = LoggedOut ->
    auth_state_of (snd (login req1 w)) = LoggedOut ->
    auth_state_of (snd (login req2 w)) = LoggedOut ->
    error_of (fst (login req1 w)) = error_of (fst (login req2 w)).

(** The textual form of a hardware address.  [mac_groups false] asks for six
    pairs of hexadecimal digits with a [:] or a [-] after each of the first
    five; [mac_groups true] asks in addition for one and the same
    separator throughout. *)
Definition mac_groups (uniform : bool) (s : string) : bool :=
  match list_ascii_of_string s with
  | [a1; a2; s1; b1; b2; s2; c1; c2; s3; d1; d2; s4; e1; e2; s5; f1; f2] =>
      forallb hex_class [a1; a2; b1; b2; c1; c2; d1; d2; e1; e2; f1; f2]
      && forallb sep_class [s1; s2; s3; s4; s5]
      && (negb uniform || forallb (Ascii.eqb s1) [s2; s3; s4; s5])
  | _ => false
  end.

(** The data model's [macAddress]: "separated uniformly by [:] or [-]". *)
Definition mac_uniform (s : string) : bool := mac_groups true s.

Definition ends_with_newline (s : string) : bool :=
  match rev (list_ascii_of_string s) with
  | c :: _ => Ascii.eqb c newline
  | [] => false
  end.

(** The roster the configuration file holds. *)
Definition roster_of (w : world) : list json :=
  match config_file w with
  | Some (Document config) =>
      match dict_get config "SERVERS" (JList []) with
      | JList l => l
      | _ => []
      end
  | _ => []
  end.

(** The data-model constraints on a roster entry that C9 names: a hardware
    address of the stated form and a positive wait. *)
Definition valid_entry (e : json) : bool :=
  match subscript e "WOL_MAC_ADDRESS", subscript e "WAIT_TIME_SECONDS" with
  | Ok (JStr mac), Ok (JInt wait) => mac_uniform mac && (0 <? wait)
  | _, _ => false
  end.

(** The second-factor fields of the stored record. *)
Definition totp_enabled (w : world) : bool :=
  truthy (dict_get (stored_credentials w) "2fa_enabled" (JBool false)).

Definition totp_secret (w : world) : option json :=
  dict_lookup (stored_credentials w) "2fa_secret".

(** What a document must offer for [load_config] to answer with [cfg]: the
    five keys, texts that are not blank once trimmed, a wait that converts
    to a positive integer and a port that converts to one in 1..65535. *)
Definition loadable (d : dict) (cfg : gateway_config) : Prop :=
  exists mac_raw broadcast_raw site_raw wait_raw port_raw,
    dict_lookup d "WOL_MAC_ADDRESS" = Some mac_raw /\
    dict_lookup d "BROADCAST_ADDRESS" = Some broadcast_raw /\
    dict_lookup d "SITE_URL" = Some site_raw /\
    dict_lookup d "WAIT_TIME_SECONDS" = Some wait_raw /\
    dict_lookup d "PORT" = Some port_raw /\
    WOL_MAC_ADDRESS cfg = strip (py_str mac_raw) /\
    BROADCAST_ADDRESS cfg = strip (py_str broadcast_raw) /\
    SITE_URL cfg = strip (py_str site_raw) /\
    WOL_MAC_ADDRESS cfg <> "" /\
    BROADCAST_ADDRESS cfg <> "" /\
    SITE_URL cfg <> "" /\
    py_int wait_raw = Ok (WAIT_TIME_SECONDS cfg) /\
    0 < WAIT_TIME_SECONDS cfg /\
    py_int port_raw = Ok (PORT cfg) /\
    1 <= PORT cfg <= 65535.

(** A number that is an infinity, as [json.load] returns for [Infinity],
    [-Infinity] and for literals such as [1e400]. *)
Definition infinite (v : json) : Prop :=
  exists negative, v = JFloat (Infinite negative).



(** The pieces of a text between the occurrences of [sep]. *)
Fixpoint split_on (sep : ascii) (cs : list ascii) : list (list ascii) :=
  match cs with
  | [] => [[]]
  | c :: t =>
      if Ascii.eqb c sep then [] :: split_on sep t
      else match split_on sep t with
           | p :: ps => (c :: p) :: ps
           | [] => [[c]]
           end
  end.

Definition decimal_value (p : list ascii) : Z :=
  fold_left (fun acc c => 10 * acc + (byte_of_ascii c - 48)) p 0.

(** One to three digits that read as a number up to 255. *)
Definition octet (p : list ascii) : bool :=
  negb (Nat.eqb (List.length p) 0) && (List.length p <=? 3)%nat
  && forallb is_digit p && (decimal_value p <=? 255).

(** The data model's [broadcastAddress]: an IPv4 dotted quad. *)
Definition dotted_quad (s : string) : bool :=
  match split_on "."%char (list_ascii_of_string s) with
  | [a; b; c; d] => octet a && octet b && octet c && octet d
  | _ => false
  end.

Definition is_alpha (c : ascii) : bool := in_range 65 90 c || in_range 97 122 c.

Definition scheme_char (c : ascii) : bool :=
  is_alpha c || is_digit c || Ascii.eqb c "+"%char || Ascii.eqb c "-"%char
  || Ascii.eqb c "."%char.

(** Printable ASCII other than the space. *)
Definition visible (c : ascii) : bool := in_range 33 126 c.

Fixpoint scheme_then_colon (cs : list ascii) : bool :=
  match cs with
  | [] => false
  | c :: t => Ascii.eqb c ":"%char || (scheme_char c && scheme_then_colon t)
  end.

(** The data model's [targetUrl]: an absolute URL, that is a scheme, a colon
    and the rest, written in visible characters. *)
Definition absolute_url (s : string) : bool :=
  match list_ascii_of_string s with
  | c :: t => is_alpha c && scheme_then_colon t && forallb visible (c :: t)
  | [] => false
  end.

(** A valid [GatewayConfig] in the sense of the data model. *)
Definition valid_gateway_config (cfg : gateway_config) : Prop :=
  mac_uniform (WOL_MAC_ADDRESS cfg) = true /\
  dotted_quad (BROADCAST_ADDRESS cfg) = true /\
  absolute_url (SITE_URL cfg) = true /\
  0 < WAIT_TIME_SECONDS cfg /\
  1 <= PORT cfg <= 65535.

(** Saving a [GatewayConfig] as the set-up tool does. *)
Definition save_config (cfg : gateway_config) : M unit :=
  main_save_config (JStr (WOL_MAC_ADDRESS cfg)) (JStr (BROADCAST_ADDRESS cfg))
                   (JStr (SITE_URL cfg)) (WAIT_TIME_SECONDS cfg) (PORT cfg).

(** A text that [strip] leaves alone and that is not empty. *)
Definition trimmed (s : string) : Prop := strip s = s /\ s <> "".

Definition no_space (s : string) : bool :=
  forallb (fun c => negb (is_space c)) (list_ascii_of_string s).

(** The magic packet went out: the tool was found and ran to a zero exit
    status. *)
Definition packet_sent (cfg : gateway_config) (env : os_env) : Prop :=
  exists cmd,
    find_wakeonlan_command env = Some cmd /\ cmd <> "" /\
    run_process env [cmd; "-i"; BROADCAST_ADDRESS cfg; WOL_MAC_ADDRESS cfg]
      = Completed.

(* ===================================================================== *)
(** * Sample worlds and requests                                        *)
(* ===================================================================== *)

Definition logged_out : session_t := mkSession None false.

Definition signed_in : session_t := mkSession (Some true) true.

(** Administrator "admin" with password "hunter2" and an enrolled second
    factor. *)
Definition sample_credentials : dict :=
  [("admin_enabled", JBool true);
   ("admin_username", JStr "admin");
   ("admin_password_hash",
    JStr "f52fbd32b2b3b86ff88ef6c490628285f482af15ddcb29541f94bcf526a3f6c7");
   ("2fa_enabled", JBool true);
   ("2fa_secret", JStr "JBSWY3DPEHPK3PXP")].

Definition sample_roster_file : dict :=
  [("PORT", JInt 5000);
   ("SERVERS",
    JList [JDict [("NAME", JStr "NAS");
                  ("WOL_MAC_ADDRESS", JStr "00:11:22:33:44:55");
                  ("BROADCAST_ADDRESS", JStr "255.255.255.255");
                  ("SITE_URL", JStr "http://nas.local");
                  ("WAIT_TIME_SECONDS", JInt 30)]])].

(** A visitor at 2023-11-14 22:13:20 UTC; the codes of the sample secret
    around that time are 822542, 324550 and 367665. *)
Definition sample_world : world :=
  mkWorld (Some (Document sample_roster_file))
          (Some (Document sample_credentials))
          logged_out [] 1700000000.

(** The same world seen by the administrator after a login. *)
Definition sample_admin_world : world := set_session signed_in sample_world.

Definition post (f : list (string * string)) : request := mkRequest POST f.

Definition good_login : request :=
  post [("username", "admin"); ("password", "hunter2"); ("totp_code", "324550")].

Definition wrong_password_login : request :=
  post [("username", "admin"); ("password", "hunter3"); ("totp_code", "324550")].

Definition wrong_username_login : request :=
  post [("username", "root"); ("password", "hunter2"); ("totp_code", "324550")].

Definition stale_code_login : request :=
  post [("username", "admin"); ("password", "hunter2"); ("totp_code", "968785")].

(** A credentials file that [json.load] rejects, in front of a signed-in
    browser. *)
Definition corrupted_world : world :=
  set_admin_file (Some (Unparseable "Expecting value: line 1 column 1 (char 0)"))
                 sample_admin_world.

Definition nas_entry : json :=
  JDict [("NAME", JStr "NAS");
         ("WOL_MAC_ADDRESS", JStr "00:11:22:33:44:55");
         ("BROADCAST_ADDRESS", JStr "255.255.255.255");
         ("SITE_URL", JStr "http://nas.local");
         ("WAIT_TIME_SECONDS", JInt 30)].

(** A submission sent past the browser's form checks. *)
Definition careless_form : request :=
  post [("name", "lab"); ("mac", "zz"); ("url", "http://lab.local");
        ("wait_time", "0")].

Definition careless_entry : json :=
  JDict [("NAME", JStr "lab");
         ("WOL_MAC_ADDRESS", JStr "zz");
         ("BROADCAST_ADDRESS", JStr "255.255.255.255");
         ("SITE_URL", JStr "http://lab.local");
         ("WAIT_TIME_SECONDS", JInt 0)].

(** Stand-ins for what the libraries compute in the sample requests. *)
Definition sample_libraries : libraries :=
  mkLibraries "MFRGGZDFMZTWQ2LKNNWG23TPOBYXE43U"
              (fun secret _ _ => ("otpauth://totp/WOL%20Gateway:admin?secret=" ++ secret)%string)
              (fun uri => uri).

Definition enable_2fa_request : request := post [("action", "enable_2fa")].

Definition verify_2fa_request (code : string) : request :=
  post [("action", "verify_2fa"); ("totp_code", code)].

(** The administrator of the samples before any enrolment. *)
Definition plain_credentials : dict :=
  [("admin_enabled", JBool true);
   ("admin_username", JStr "admin");
   ("admin_password_hash",
    JStr "f52fbd32b2b3b86ff88ef6c490628285f482af15ddcb29541f94bcf526a3f6c7");
   ("2fa_enabled", JBool false);
   ("2fa_secret", JStr "")].

Definition plain_admin_world : world :=
  set_admin_file (Some (Document plain_credentials)) sample_admin_world.

(** A single-server configuration whose hardware address is no address. *)
Definition odd_mac_document : dict :=
  [("WOL_MAC_ADDRESS", JStr "zz");
   ("BROADCAST_ADDRESS", JStr "255.255.255.255");
   ("SITE_URL", JStr "http://nas.local");
   ("WAIT_TIME_SECONDS", JInt 30);
   ("PORT", JInt 5000)].

Definition nas_config : gateway_config :=
  mkGatewayConfig "00:11:22:33:44:55" "255.255.255.255" "http://nas.local"
                  30 5000.

(** A host with [wakeonlan] on the PATH, whose runs end as [outcome]. *)
Definition host_with_tool (outcome : run_outcome) : os_env :=
  mkOsEnv None "/root" (fun _ => Some true) (fun _ => false) (fun _ => outcome).

(** A host without the tool. *)
Definition host_without_tool : os_env :=
  mkOsEnv None "/root" (fun _ => Some false) (fun _ => false)
          (fun _ => Completed).

(* ===================================================================== *)
(** * Further vocabulary: the administration panel                        *)
(* ===================================================================== *)

(** The three checks of the password form, in the order the handler makes
    them: the current password, the confirmation, the length. *)
Definition password_change_accepted (w : world) (req : request) : bool :=
  verify_password (form_str req "current_password" "")
                  (dict_get (stored_credentials w) "admin_password_hash" JNull)
  && String.eqb (form_str req "new_password" "")
                (form_str req "confirm_password" "")
  && (6 <=? str_len (form_str req "new_password" ""))%nat.

(** The password check of the form that switches the second factor off. *)
Definition disable_2fa_accepted (w : world) (req : request) : bool :=
  verify_password (form_str req "password" "")
                  (dict_get (stored_credentials w) "admin_password_hash" JNull).

(** A world as another browser, not logged in, sees it. *)
Definition as_visitor (w : world) : world := set_session logged_out w.

(** A request of the administrator passes the guard. *)
Definition admin_request (w : world) : Prop :=
  panel_enabled w = true /\ logged_in w = true.

Definition change_password_request (current new confirm : string) : request :=
  post [("action", "change_password"); ("current_password", current);
        ("new_password", new); ("confirm_password", confirm)].

Definition disable_2fa_request (password : string) : request :=
  post [("action", "disable_2fa"); ("password", password)].

Definition login_request (username password code : string) : request :=
  post [("username", username); ("password", password); ("totp_code", code)].

(** The administrator of the samples with a secret stored and the second
    factor not yet on. *)
Definition pending_world : world :=
  set_admin_file
    (Some (Document (dict_set plain_credentials "2fa_secret"
                              (JStr "JBSWY3DPEHPK3PXP"))))
    sample_admin_world.

(** The value the configuration file holds under key [k], if any. *)
Definition config_value (w : world) (k : string) : option json :=
  match config_file w with
  | Some (Document d) => dict_lookup d k
  | _ => None
  end.

(** The answer of a roster handler that went through. *)
Definition roster_saved (r : result response) : Prop :=
  r = Ok (Redirect "admin.dashboard").

(** The four texts of a submitted roster form are ASCII: [strip] then
    removes what [str.strip] removes. *)
Definition ascii_fields (req : request) : Prop :=
  is_ascii (form_str req "name" "") = true /\
  is_ascii (form_str req "mac" "") = true /\
  is_ascii (form_str req "broadcast" "255.255.255.255") = true /\
  is_ascii (form_str req "url" "") = true.

(** A roster whose only entry has no name. *)
Definition nameless_world : world :=
  set_config_file
    (Some (Document [("PORT", JInt 5000);
                     ("SERVERS",
                      JList [JDict [("WOL_MAC_ADDRESS", JStr "00:11:22:33:44:55")]])]))
    sample_admin_world.

(* ===================================================================== *)
(** * setup_wol.py: the configuration dialogue                            *)
(* ===================================================================== *)

(** [load_current_config()] *)
Definition load_current_config : M dict :=
  f <- gets config_file ;;
  match f with
  | Some (Document d) => ret d
  | _ => ret []
  end.

(** The dialogue reads the terminal line by line.  [lines] are the lines
    still to come, each as [input()] returns it; a prompt answers with its
    value and the lines left, or with [None] when the input ends first (the
    [EOFError] that ends the script).  What the prompts print is left out. *)

(** The loop that asks for the hardware address. *)
Fixpoint prompt_mac (default_mac : json) (lines : list string)
  : option (json * list string) :=
  match lines with
  | [] => None
  | line :: rest =>
      let mac := strip line in
      if is_empty mac && truthy default_mac then Some (default_mac, rest)
      else if validate_mac mac then Some (JStr mac, rest)
      else prompt_mac default_mac rest
  end.

(** The loop that asks for the broadcast address; every branch leaves it. *)
Definition prompt_broadcast (default_broadcast : json) (lines : list string)
  : option (json * list string) :=
  match lines with
  | [] => None
  | line :: rest =>
      let broadcast_input := strip line in
      if is_empty broadcast_input && truthy default_broadcast
      then Some (default_broadcast, rest)
      else if negb (is_empty broadcast_input) then Some (JStr broadcast_input, rest)
      else Some (JStr "255.255.255.255", rest)
  end.

(** The loop that asks for the site URL. *)
Fixpoint prompt_url (default_url : json) (lines : list string)
  : option (json * list string) :=
  match lines with
  | [] => None
  | line :: rest =>
      let url_input := strip line in
      if is_empty url_input && truthy default_url then Some (default_url, rest)
      else if negb (is_empty url_input) then Some (JStr url_input, rest)
      else prompt_url default_url rest
  end.

(** The number one pass of a numeric loop arrives at, if any: the stored
    value when the line is blank (none when it is [None] or [int] raises),
    the typed literal otherwise (none when [int] raises [ValueError]). *)
Definition typed_or_default (default : json) (input : string) : option Z :=
  if is_empty input then
    match default with
    | JNull => None
    | _ => match py_int default with Ok n => Some n | Raise _ => None end
    end
  else
    match int_of_str input with Ok n => Some n | Raise _ => None end.

(** The loop that asks for the wait. *)
Fixpoint prompt_wait (default_wait : json) (lines : list string)
  : option (Z * list string) :=
  match lines with
  | [] => None
  | line :: rest =>
      match typed_or_default default_wait (strip line) with
      | Some wait =>
          if wait <=? 0 then prompt_wait default_wait rest
          else Some (wait, rest)
      | None => prompt_wait default_wait rest
      end
  end.

(** The loop that asks for the port. *)
Fixpoint prompt_port (default_port : json) (lines : list string)
  : option (Z * list string) :=
  match lines with
  | [] => None
  | line :: rest =>
      match typed_or_default default_port (strip line) with
      | Some port =>
          if (port <=? 0) || (port >? 65535) then prompt_port default_port rest
          else Some (port, rest)
      | None => prompt_port default_port rest
      end
  end.

Definition and_then {A B} (o : option (A * list string))
           (k : A -> list string -> M (option B)) : M (option B) :=
  match o with
  | Some (a, rest) => k a rest
  | None => ret None
  end.

(** The configuration part of [main]: the stored values become the defaults,
    the five prompts run in turn and the answers are written out.  The
    answer is the input left over, or [None] when the input ended early. *)
Definition main_configure (lines : list string) : M (option (list string)) :=
  current_config <- load_current_config ;;
  let default_mac := dict_get current_config "WOL_MAC_ADDRESS" (JStr "") in
  let default_url := dict_get current_config "SITE_URL" (JStr "") in
  let default_wait := dict_get current_config "WAIT_TIME_SECONDS" JNull in
  let default_port := dict_get current_config "PORT" (JInt 5000) in
  and_then (prompt_mac default_mac lines) (fun mac lines =>
  let default_broadcast :=
    dict_get current_config "BROADCAST_ADDRESS" (JStr "255.255.255.255") in
  and_then (prompt_broadcast default_broadcast lines) (fun broadcast lines =>
  and_then (prompt_url default_url lines) (fun url lines =>
  and_then (prompt_wait default_wait lines) (fun wait lines =>
  and_then (prompt_port default_port lines) (fun port lines =>
    main_save_config mac broadcast url wait port ;;
    ret (Some lines)))))).

(* ===================================================================== *)
(** * setup_wol.py: finding the package manager                           *)
(* ===================================================================== *)

(** The host as [detect_linux_distro] sees it. *)
Record platform_env : Type := mkPlatform {
  platform_system : string;               (* platform.system() *)
  os_release : option string;             (* /etc/os-release; None: no such file *)
  which_status : string -> option bool    (* exit status 0 of [which]; None: the call raises FileNotFoundError *)
}.

(** [s.lower()] on ASCII text. *)
Definition lower_char (c : ascii) : ascii :=
  if in_range 65 90 c then ascii_of_byte (byte_of_ascii c + 32) else c.

Definition lower (s : string) : string :=
  string_of_list_ascii (map lower_char (list_ascii_of_string s)).

(** The distribution named by the text of /etc/os-release; [None] when no
    branch returns (no known name, or [which] missing in the RHEL branch). *)
Definition distro_of_release (env : platform_env) (text : string)
  : option (string * option string) :=
  let os_release := lower text in
  if contains "ubuntu" os_release || contains "debian" os_release
     || contains "mint" os_release
  then Some ("Debian/Ubuntu", Some "apt")
  else if contains "fedora" os_release then Some ("Fedora", Some "dnf")
  else if contains "rhel" os_release || contains "red hat" os_release
          || contains "centos" os_release
  then match which_status env "dnf" with
       | Some true => Some ("RHEL/CentOS", Some "dnf")
       | Some false => Some ("RHEL/CentOS", Some "yum")
       | None => None
       end
  else if contains "arch" os_release || contains "manjaro" os_release
  then Some ("Arch Linux", Some "pacman")
  else if contains "opensuse" os_release || contains "suse" os_release
  then Some ("openSUSE", Some "zypper")
  else if contains "alpine" os_release then Some ("Alpine", Some "apk")
  else if contains "termux" os_release then Some ("Termux", Some "pkg")
  else None.

Definition package_managers : list (string * string) :=
  [("apt-get", "apt"); ("dnf", "dnf"); ("yum", "yum"); ("pacman", "pacman");
   ("zypper", "zypper"); ("apk", "apk"); ("pkg", "pkg")].

(** The fallback loop over the package managers. *)
Fixpoint first_package_manager (env : platform_env)
         (candidates : list (string * string))
  : result (string * option string) :=
  match candidates with
  | [] => Ok ("Unknown", None)
  | (cmd, pm) :: rest =>
      match which_status env cmd with
      | Some true => Ok ("Unknown Linux", Some pm)
      | Some false => first_package_manager env rest
      | None =>
          Raise (FileNotFoundError "[Errno 2] No such file or directory: 'which'")
      end
  end.

(** [detect_linux_distro()] *)
Definition detect_linux_distro (env : platform_env)
  : result (string * option string) :=
  if negb (String.eqb (platform_system env) "Linux") then
    Ok (platform_system env, None)
  else
    match
      match os_release env with
      | Some text => distro_of_release env text
      | None => None
      end
    with
    | Some found => Ok found
    | None => first_package_manager env package_managers
    end.

(** The commands that [detect_linux_distro] hands to [which], in the order
    of the calls: [dnf] in the RHEL branch, then the candidates of the
    fall-back loop up to the first that is found or cannot be looked up. *)
Definition release_lookups (text : string) : list string :=
  let os_release := lower text in
  if contains "ubuntu" os_release || contains "debian" os_release
     || contains "mint" os_release
  then []
  else if contains "fedora" os_release then []
  else if contains "rhel" os_release || contains "red hat" os_release
          || contains "centos" os_release
  then ["dnf"]
  else [].

Fixpoint first_package_manager_lookups (env : platform_env)
         (candidates : list (string * string)) : list string :=
  match candidates with
  | [] => []
  | (cmd, pm) :: rest =>
      cmd :: match which_status env cmd with
             | Some false => first_package_manager_lookups env rest
             | _ => []
             end
  end.

Definition detect_lookups (env : platform_env) : list string :=
  if negb (String.eqb (platform_system env) "Linux") then []
  else
    match os_release env with
    | Some text =>
        release_lookups text ++
        match distro_of_release env text with
        | Some _ => []
        | None => first_package_manager_lookups env package_managers
        end
    | None => first_package_manager_lookups env package_managers
    end.


(** The keys of the table [install_commands] of [install_dependencies]. *)
Definition install_commands_keys : list string :=
  ["apt"; "dnf"; "yum"; "pacman"; "zypper"; "apk"; "pkg"].

(** A text whose first character, if any, is not one that [p] trims. *)
Definition starts_clean (p : ascii -> bool) (cs : list ascii) : Prop :=
  match cs with
  | [] => True
  | c :: _ => p c = false
  end.

(** The document [load_current_config] answers with in world [w]. *)
Definition current_config_of (w : world) : dict :=
  match config_file w with
  | Some (Document d) => d
  | _ => []
  end.

(** What an earlier file offers as defaults is ASCII, and the three texts
    can be loaded again: none of them is a text of white space only. *)
Definition defaults_usable (w : world) : Prop :=
  (forall k v,
     In k required_keys ->
     dict_lookup (current_config_of w) k = Some v -> ascii_json v = true) /\
  (forall k v,
     In k ["WOL_MAC_ADDRESS"; "BROADCAST_ADDRESS"; "SITE_URL"] ->
     dict_lookup (current_config_of w) k = Some v ->
     truthy v = true -> strip (py_str v) <> "").

(** The file the dialogue writes. *)
Definition written_config (mac broadcast url : json) (wait port : Z) : dict :=
  [("WOL_MAC_ADDRESS", mac);
   ("BROADCAST_ADDRESS", broadcast);
   ("SITE_URL", url);
   ("WAIT_TIME_SECONDS", JInt wait);
   ("PORT", JInt port)].

(** A first installation: no configuration file yet. *)
Definition fresh_world : world :=
  mkWorld None None logged_out [] 1700000000.

(** What an operator types on a first installation: a slip, then the
    address; Enter for the default broadcast address; the URL; a wait of
    zero, then 30; Enter for the default port. *)
Definition sample_dialogue : list string :=
  ["00:11:22:33:44"; " 00:11:22:33:44:55 "; ""; "http://nas.local"; "0"; "30";
   ""].

(** [v] is what the earlier file offers under [k] as a default the operator
    can take with Enter. *)
Definition kept_from (w : world) (k : string) (v : json) : Prop :=
  dict_lookup (current_config_of w) k = Some v /\ truthy v = true.

(** A text the operator typed, as a prompt keeps it: trimmed and not empty. *)
Definition typed_text (v : json) : Prop :=
  exists s, v = JStr s /\ s <> "" /\ strip s = s.

(** The list [possible_paths] of [find_wakeonlan_command], once the
    candidate below the home directory has been inserted. *)
Definition possible_paths (env : os_env) : list string :=
  ["wakeonlan";
   match SUDO_USER env with
   | Some sudo_user => ("/home/" ++ sudo_user ++ "/.local/bin/wakeonlan")%string
   | None => path_join (user_home env) [".local"; "bin"; "wakeonlan"]
   end;
   "/usr/bin/wakeonlan"; "/usr/local/bin/wakeonlan"; "/bin/wakeonlan"].

(** A candidate that passes the test of the loop: a bare name that [which]
    finds, or a path to an executable file. *)
Definition usable (env : os_env) (cmd_path : string) : bool :=
  if has_slash cmd_path then is_executable_file env cmd_path
  else match which env cmd_path with
       | Some true => true
       | _ => false
       end.

(** A host where only the copy below the home directory of the user who
    called sudo exists. *)
Definition host_with_local_tool : os_env :=
  mkOsEnv (Some "ada") "/root" (fun _ => Some false)
          (String.eqb "/home/ada/.local/bin/wakeonlan") (fun _ => Completed).

(** A CentOS host that has [yum] and no [dnf]. *)
Definition centos_host : platform_env :=
  mkPlatform "Linux" (Some "NAME=CentOS Linux")
             (fun cmd => Some (String.eqb cmd "yum")).

(** A Linux host without /etc/os-release where only [zypper] is found. *)
Definition bare_host : platform_env :=
  mkPlatform "Linux" None (fun cmd => Some (String.eqb cmd "zypper")).


(* ===================================================================== *)
(** * setup_wol.py: installing the dependencies                           *)
(* ===================================================================== *)

(** The machine the installer runs on.  Looking at it ([which], an import,
    the user id) leaves it as it is; running any other command may change
    it. *)
Record host_api (host : Type) : Type := mkHostApi {
  system_of : host -> string;                  (* platform.system() *)
  os_release_of : host -> option string;       (* /etc/os-release *)
  geteuid : host -> Z;                         (* os.geteuid() *)
  importable : host -> string -> bool;         (* __import__(name) succeeds *)
  which_of : host -> string -> option bool;    (* exit status 0 of [which]; None: the call raises *)
  run_command : list string -> host -> option Z * host;
                                               (* return code; None: the call raises *)
  sys_executable : string
}.

Arguments system_of {host}.
Arguments os_release_of {host}.
Arguments geteuid {host}.
Arguments importable {host}.
Arguments which_of {host}.
Arguments run_command {host}.
Arguments sys_executable {host}.

(** One command run through [subprocess.run]: the command line and how it
    ended (the return code, or none when the call raised). *)
Definition event : Type := (list string * option Z)%type.

(** The table [install_commands]. *)
Definition install_commands : list (string * list (string * list string)) :=
  [("apt", [("wakeonlan", ["apt-get"; "install"; "-y"; "wakeonlan"])]);
   ("dnf", [("wakeonlan", ["dnf"; "install"; "-y"; "wakeonlan"]);
            ("wol", ["dnf"; "install"; "-y"; "wol"])]);
   ("yum", [("wakeonlan", ["yum"; "install"; "-y"; "wakeonlan"]);
            ("wol", ["yum"; "install"; "-y"; "wol"])]);
   ("pacman", [("wakeonlan", ["pacman"; "-S"; "--noconfirm"; "wakeonlan"])]);
   ("zypper", [("wakeonlan", ["zypper"; "--non-interactive"; "install"; "wakeonlan"])]);
   ("apk", [("wakeonlan", ["apk"; "add"; "wakeonlan"])]);
   ("pkg", [("wakeonlan", ["pkg"; "install"; "-y"; "wakeonlan"])])].

(** [table[key]] when [key in table]. *)
Fixpoint table_lookup {A} (table : list (string * A)) (key : string) : option A :=
  match table with
  | [] => None
  | (k, v) :: rest => if String.eqb k key then Some v else table_lookup rest key
  end.

Section InstallDependencies.

Context {host : Type} (api : host_api host).

(** The host as [detect_linux_distro] sees it. *)
Definition platform_at (h : host) : platform_env :=
  mkPlatform (system_of api h) (os_release_of api h) (which_of api h).

(** The run of [which] on [command], as the log notes it: status 0 when the
    command is found, 1 when it is not, none when [which] cannot be run. *)
Definition which_event (h : host) (command : string) : event :=
  (["which"; command],
   match which_of api h command with
   | Some true => Some 0
   | Some false => Some 1
   | None => None
   end).

(** [subprocess.run(cmd, capture_output=True, text=True)], noted in the log. *)
Definition subprocess_run (cmd : list string) (s : host * list event)
  : option Z * (host * list event) :=
  let (rc, h') := run_command api cmd (fst s) in
  (rc, (h', snd s ++ [(cmd, rc)])).

(** [check_command_exists(command)] *)
Definition check_command_exists (command : string) (s : host * list event)
  : result bool * (host * list event) :=
  (match which_of api (fst s) command with
   | Some found => Ok found
   | None => Raise (FileNotFoundError "[Errno 2] No such file or directory: 'which'")
   end,
   (fst s, snd s ++ [which_event (fst s) command])).

(** [check_python_package(package_name)] *)
Definition check_python_package (package_name : string) (h : host) : bool :=
  importable api h package_name.

Definition pip_install (package : string) : list string :=
  [sys_executable api; "-m"; "pip"; "install"; "--user"; package].

(** The command line of one package option. *)
Definition full_cmd (needs_sudo : bool) (pkg_manager : string)
           (cmd : list string) : list string :=
  if needs_sudo && negb (String.eqb pkg_manager "pkg") then "sudo" :: cmd
  else cmd.

(** The loop over the package options of one package manager; the answer is
    the flag [installed]. *)
Fixpoint try_packages (needs_sudo : bool) (pkg_manager : string)
         (options : list (string * list string)) (s : host * list event)
  : bool * (host * list event) :=
  match options with
  | [] => (false, s)
  | (pkg_name, cmd) :: rest =>
      match subprocess_run (full_cmd needs_sudo pkg_manager cmd) s with
      | (Some returncode, s') =>
          if returncode =? 0 then
            match check_command_exists "wakeonlan" s' with
            | (Ok true, s'') => (true, s'')
            | (_, s'') => try_packages needs_sudo pkg_manager rest s''
            end
          else try_packages needs_sudo pkg_manager rest s'
      | (None, s') => try_packages needs_sudo pkg_manager rest s'
      end
  end.

(** The fall-back through pip once no system package worked. *)
Definition pip_fallback (s : host * list event) : bool * (host * list event) :=
  match subprocess_run (pip_install "wakeonlan") s with
  | (Some returncode, s') =>
      if returncode =? 0 then
        match check_command_exists "wakeonlan" s' with
        | (Ok _, s'') => (true, s'')
        | (Raise _, s'') => (false, s'')
        end
      else (false, s')
  | (None, s') => (false, s')
  end.

(** The first half: Flask.  The answer tells whether to go on. *)
Definition ensure_flask (s : host * list event) : bool * (host * list event) :=
  if check_python_package "flask" (fst s) then (true, s)
  else
    match subprocess_run (pip_install "flask") s with
    | (Some returncode, s') => (returncode =? 0, s')
    | (None, s') => (false, s')
    end.

(** [install_dependencies()]: what it returns, the host it leaves and the
    commands it ran through [subprocess.run], in order, those of
    [detect_linux_distro] first.  What it prints is left out. *)
Definition install_dependencies (h : host)
  : result bool * (host * list event) :=
  let s := (h, map (which_event h) (detect_lookups (platform_at h))) in
  match detect_linux_distro (platform_at h) with
  | Raise e => (Raise e, s)
  | Ok (distro, pkg_manager) =>
      let needs_sudo := negb (geteuid api h =? 0) in
      let (flask_ok, s) := ensure_flask s in
      if negb flask_ok then (Ok false, s)
      else
        match check_command_exists "wakeonlan" s with
        | (Raise e, s) => (Raise e, s)
        | (Ok true, s) => (Ok true, s)
        | (Ok false, s) =>
            match pkg_manager with
            | None => (Ok false, s)
            | Some pkg_manager =>
                if is_empty pkg_manager then (Ok false, s)
                else
                  match table_lookup install_commands pkg_manager with
                  | None => (Ok false, s)
                  | Some options =>
                      let (installed, s) :=
                        try_packages needs_sudo pkg_manager options s in
                      let (installed, s) :=
                        if negb installed then pip_fallback s
                        else (installed, s) in
                      (Ok installed, s)
                  end
            end
        end
  end.

(** A command line the installer may run on host [h]: a look-up with
    [which] of [wakeonlan] or of a package manager; pip for one of the two
    packages; or an entry of the table for the package manager detected,
    under sudo exactly when the user is not root and the manager is not
    [pkg]. *)
Definition expected_command (h : host) (cmd : list string) : Prop :=
  cmd = ["which"; "wakeonlan"] \/
  (exists name pm, In (name, pm) package_managers /\ cmd = ["which"; name]) \/
  cmd = pip_install "flask" \/ cmd = pip_install "wakeonlan" \/
  exists distro pkg_manager options pkg_name base,
    detect_linux_distro (platform_at h) = Ok (distro, Some pkg_manager) /\
    table_lookup install_commands pkg_manager = Some options /\
    In (pkg_name, base) options /\
    cmd = if negb (geteuid api h =? 0) && negb (String.eqb pkg_manager "pkg")
          then "sudo" :: base else base.

(** The log of a run that only looked: no command but [which]. *)
Definition only_lookups (log : list event) : Prop :=
  forall cmd rc, In (cmd, rc) log -> exists name, cmd = ["which"; name].

End InstallDependencies.

(** A toy Fedora machine: the host is the list of the names that [which]
    and [import] find; pip always works and puts the package's name on the
    list, and [dnf] knows the tool as [wol] only. *)
Definition toy_api : host_api (list string) :=
  mkHostApi (list string)
    (fun _ => "Linux")
    (fun _ => Some "ID=fedora")
    (fun _ => 1000)
    (fun h name => existsb (String.eqb name) h)
    (fun h name => Some (existsb (String.eqb name) h))
    (fun cmd h =>
       match cmd with
       | ["sudo"; "dnf"; "install"; "-y"; "wol"] => (Some 0, "wakeonlan" :: h)
       | [_; "-m"; "pip"; "install"; "--user"; package] => (Some 0, package :: h)
       | _ => (Some 1, h)
       end)
    "/usr/bin/python3".

(** The same machine where pip installs a module without a command on the
    PATH, and [dnf] has no package. *)
Definition toy_api_without_command : host_api (list string) :=
  mkHostApi (list string)
    (fun _ => "Linux")
    (fun _ => Some "ID=fedora")
    (fun _ => 1000)
    (fun h name => existsb (String.eqb name) h)
    (fun h name => Some (existsb (String.eqb name) h))
    (fun cmd h =>
       match cmd with
       | [_; "-m"; "pip"; "install"; "--user"; "flask"] => (Some 0, "flask" :: h)
       | [_; "-m"; "pip"; "install"; "--user"; _] => (Some 0, h)
       | _ => (Some 1, h)
       end)
    "/usr/bin/python3".

(** The panel switched on by hand in the record of defaults: user "admin",
    no password hash yet. *)
Definition enabled_defaults_world : world :=
  mkWorld None (Some (Document (dict_set default_config "admin_enabled" (JBool true))))
          logged_out [] 1700000000.

(* ===================================================================== *)
(** * Properties                                                         *)
(* ===================================================================== *)

(** ** The library models agree with the published test vectors *)

Example sha256_abc :
  hex (Sha256.digest (encode "abc")) =
  "ba7816bf8f01cfea414140de5dae2223b00361a396177a9cb410ff61f20015ad"%string.
Proof. vm_compute. reflexivity. Qed.

Example sha256_empty :
  hex (Sha256.digest []) =
  "e3b0c44298fc1c149afbf4c8996fb92427ae41e4649b934ca495991b7852b855"%string.
Proof. vm_compute. reflexivity. Qed.

Example sha256_two_blocks :
  hex (Sha256.digest
         (encode "abcdbcdecdefdefgefghfghighijhijkijkljklmklmnlmnomnopnopq")) =
  "248d6a61d20638b8e5c026930c3e6039a33ce45964ff2167f6ecedd419db06c1"%string.
Proof. vm_compute. reflexivity. Qed.

Example sha1_abc :
  hex (Sha1.digest (encode "abc")) =
  "a9993e364706816aba3e25717850c26c9cd0d89d"%string.
Proof. vm_compute. reflexivity. Qed.

Example hmac_sha1_rfc2202_2 :
  hex (hmac_sha1 (encode "Jefe") (encode "what do ya want for nothing?")) =
  "effcdf6ae5eb2fa2d27416d5f184df9c259a7c79"%string.
Proof. vm_compute. reflexivity. Qed.

(** ** The credentials store *)

Lemma load_admin_config_document w d :
  admin_file w = Some (Document d) -> load_admin_config w = (Ok d, w).
Proof. intros H. unfold load_admin_config, bind, gets. rewrite H. reflexivity. Qed.

Lemma load_admin_config_unparseable w why :
  admin_file w = Some (Unparseable why) ->
  load_admin_config w = (Ok default_config, w).
Proof. intros H. unfold load_admin_config, bind, gets. rewrite H. reflexivity. Qed.

Lemma load_admin_config_missing w :
  admin_file w = None ->
  load_admin_config w =
  (Ok default_config, set_admin_file (Some (Document default_config)) w).
Proof. intros H. unfold load_admin_config, bind, gets. rewrite H. reflexivity. Qed.

Lemma load_admin_config_value w :
  fst (load_admin_config w) = Ok (stored_credentials w).
Proof.
  unfold stored_credentials.
  destruct (admin_file w) as [[why|d]|] eqn:E.
  - now rewrite (load_admin_config_unparseable _ _ E).
  - now rewrite (load_admin_config_document _ _ E).
  - now rewrite (load_admin_config_missing _ E).
Qed.

Lemma load_admin_config_keeps w :
  let w' := snd (load_admin_config w) in
  config_file w' = config_file w /\ session w' = session w /\
  clock w' = clock w /\ flashes w' = flashes w.
Proof.
  destruct (admin_file w) as [[why|d]|] eqn:E.
  - now rewrite (load_admin_config_unparseable _ _ E).
  - now rewrite (load_admin_config_document _ _ E).
  - now rewrite (load_admin_config_missing _ E).
Qed.

Lemma generate_otp_cases secret i :
  0 <= i ->
  (exists e, pyotp.byte_secret secret = Raise e /\
             pyotp.generate_otp secret i = Raise e) \/
  (exists key code, pyotp.byte_secret secret = Ok key /\
                    pyotp.generate_otp secret i = Ok code).
Proof.
  intros Hi. unfold pyotp.generate_otp.
  destruct (Z.ltb_spec i 0) as [Hn|_]; [lia|].
  destruct (pyotp.byte_secret secret) as [key|e].
  - right. cbn [rbind]. eauto.
  - left. cbn [rbind]. eauto.
Qed.

Lemma verify_window secret code now :
  30 <= now ->
  pyotp.verify secret code now = Ok true <-> code_in_window secret code now.
Proof.
  intros Hnow.
  assert (Htc : 1 <= pyotp.timecode now).
  { unfold pyotp.timecode. apply Z.quot_le_lower_bound; lia. }
  unfold pyotp.verify, code_in_window, pyotp.verify_loop, pyotp.at_.
  set (tc := pyotp.timecode now) in *.
  destruct (generate_otp_cases secret (tc + -1)) as [(e & Hk & H1)|(k1 & c1 & Hk & H1)]; [lia| |].
  - rewrite H1. cbn [rbind]. split; [discriminate|].
    intros (step & Hs & Hg).
    destruct (generate_otp_cases secret step) as [(e' & Hk' & H')|(k' & c' & Hk' & _)]; [lia| |]; congruence.
  - destruct (generate_otp_cases secret (tc + 0)) as [(e & Hk2 & H2)|(k2 & c2 & _ & H2)]; [lia|congruence|].
    destruct (generate_otp_cases secret (tc + 1)) as [(e & Hk3 & H3)|(k3 & c3 & _ & H3)]; [lia|congruence|].
    rewrite H1, H2, H3. cbn [rbind]. unfold pyotp.strings_equal.
    destruct (String.eqb_spec code c1) as [->|N1].
    { split; [|reflexivity]. intros _. exists (tc + -1). split; [lia|assumption]. }
    destruct (String.eqb_spec code c2) as [->|N2].
    { split; [|reflexivity]. intros _. exists (tc + 0). split; [lia|assumption]. }
    destruct (String.eqb_spec code c3) as [->|N3].
    { split; [|reflexivity]. intros _. exists (tc + 1). split; [lia|assumption]. }
    split; [discriminate|].
    intros (step & Hs & Hg).
    assert (Hc : step = tc + -1 \/ step = tc + 0 \/ step = tc + 1) by lia.
    destruct Hc as [Hc|[Hc|Hc]]; subst step; congruence.
Qed.

Lemma load_admin_config_eq w :
  load_admin_config w = (Ok (stored_credentials w), after_load w).
Proof.
  unfold stored_credentials, after_load.
  destruct (admin_file w) as [[why|d]|] eqn:E.
  - now rewrite (load_admin_config_unparseable _ _ E).
  - now rewrite (load_admin_config_document _ _ E).
  - now rewrite (load_admin_config_missing _ E).
Qed.

Lemma after_load_logged_in w : logged_in (after_load w) = logged_in w.
Proof. unfold after_load. now destruct (admin_file w). Qed.

Lemma after_load_clock w : clock (after_load w) = clock w.
Proof. unfold after_load. now destruct (admin_file w). Qed.

Lemma str_eq_true a b : str_eq a b = true <-> b = JStr a.
Proof.
  destruct b; cbn; try (split; [discriminate|congruence]).
  rewrite String.eqb_eq. split; congruence.
Qed.

Lemma totp_verify_window secret code now :
  30 <= now ->
  totp_verify secret code now = Ok true <->
  exists s, secret = JStr s /\ code_in_window s code now.
Proof.
  intros Hnow. destruct secret; cbn [totp_verify];
    try (split; [destruct (_ <? _); discriminate | intros (s0 & Hs & _); discriminate]).
  rewrite (verify_window s code now Hnow).
  split.
  - intros H. eauto.
  - intros (s0 & Hs & H). now inversion Hs; subst.
Qed.

(** C1.  A submitted login moves the session from LoggedOut to LoggedIn if
    and only if the panel is enabled, the user name is the stored one, the
    SHA-256 of the password is the stored hash, and the second factor is off
    or the code is the one of the stored secret for the current 30-second
    step or a neighbouring one; otherwise the session stays LoggedOut.  The
    submitted code is taken as ASCII text: pyotp compares codes after NFKC
    normalisation, so that a code typed in, say, fullwidth digits counts as
    the ASCII code it normalises to. *)
Theorem login_transition w req :
  method req = POST ->
  auth_state_of w = LoggedOut ->
  30 <= clock w ->
  is_ascii (form_str req "totp_code" "") = true ->
  (auth_state_of (snd (login req w)) = LoggedIn <-> login_conditions w req) /\
  (~ login_conditions w req -> auth_state_of (snd (login req w)) = LoggedOut).
Proof.
  intros Hpost Hout Hclock _.
  assert (Hiff : auth_state_of (snd (login req w)) = LoggedIn <-> login_conditions w req).
  2:{ split; [exact Hiff|]. intros Hn.
      destruct (auth_state_of (snd (login req w))) eqn:E; [reflexivity|].
      exfalso. apply Hn, Hiff. reflexivity. }
  assert (Hout' : auth_state_of (after_load w) = LoggedOut).
  { unfold auth_state_of in *. now rewrite after_load_logged_in. }
  unfold login_conditions, login, bind.
  rewrite load_admin_config_eq.
  set (cfg := stored_credentials w).
  unfold is_post. rewrite Hpost.
  destruct (truthy (dict_get cfg "admin_enabled" (JBool false))) eqn:En; cbn [negb].
  2:{ cbn. rewrite Hout'. split; [discriminate|]. intros (H & _). discriminate. }
  unfold lift, dict_item, ret.
  destruct (dict_lookup cfg "admin_username") as [u|] eqn:Eu.
  2:{ cbn. rewrite Hout'. split; [discriminate|]. intros (_ & H & _). discriminate. }
  destruct (str_eq (form_str req "username" "") u) eqn:Euser.
  2:{ cbn. rewrite Hout'. split; [discriminate|]. intros (_ & H & _).
      inversion H; subst u. cbn in Euser. rewrite String.eqb_refl in Euser. discriminate. }
  apply str_eq_true in Euser. subst u.
  destruct (dict_lookup cfg "admin_password_hash") as [h|] eqn:Eh.
  2:{ cbn. rewrite Hout'. split; [discriminate|]. intros (_ & _ & H & _). discriminate. }
  unfold verify_password.
  destruct (str_eq (hash_password (form_str req "password" "")) h) eqn:Epw.
  2:{ cbn. rewrite Hout'. split; [discriminate|]. intros (_ & _ & H & _).
      inversion H; subst h. cbn in Epw. rewrite String.eqb_refl in Epw. discriminate. }
  apply str_eq_true in Epw. subst h.
  destruct (truthy (dict_get cfg "2fa_enabled" (JBool false))) eqn:E2.
  2:{ cbn. split; [|reflexivity]. intros _. repeat split; auto. }
  destruct (dict_lookup cfg "2fa_secret") as [sec|] eqn:Es.
  2:{ cbn. rewrite Hout'. split; [discriminate|].
      intros (_ & _ & _ & [H|(s0 & H & _)]); discriminate. }
  unfold gets. rewrite after_load_clock.
  pose proof (totp_verify_window sec (form_str req "totp_code" "") (clock w) Hclock) as Hw.
  destruct (totp_verify sec (form_str req "totp_code" "") (clock w)) as [[|]|e] eqn:Ev.
  - cbn. split; [|reflexivity]. intros _. repeat split; auto. right.
    destruct (proj1 Hw eq_refl) as (s0 & -> & Hin). eauto.
  - cbn. rewrite Hout'. split; [discriminate|].
    intros (_ & _ & _ & [H|(s0 & H & Hin)]); [discriminate|].
    inversion H; subst sec.
    assert (Ok false = Ok true) by (apply Hw; eauto). discriminate.
  - cbn. rewrite Hout'. split; [discriminate|].
    intros (_ & _ & _ & [H|(s0 & H & Hin)]); [discriminate|].
    inversion H; subst sec.
    assert (@Raise bool e = Ok true) by (apply Hw; eauto). discriminate.
Qed.

Example good_login_passes :
  login good_login sample_world =
  (Ok (Redirect "admin.dashboard"), sample_admin_world).
Proof. vm_compute. reflexivity. Qed.

Lemma login_transition_witness :
  method good_login = POST /\
  auth_state_of sample_world = LoggedOut /\
  30 <= clock sample_world /\
  is_ascii (form_str good_login "totp_code" "") = true /\
  (auth_state_of (snd (login good_login sample_world)) = LoggedIn <->
   login_conditions sample_world good_login).
Proof.
  split; [reflexivity|]. split; [reflexivity|]. split; [cbn; lia|].
  split; [reflexivity|].
  apply (login_transition sample_world good_login);
    [reflexivity | reflexivity | cbn; lia | reflexivity].
Defined.

Lemma login_required_disabled w f :
  panel_enabled w = false ->
  login_required f w = (Ok disabled_response, after_load w).
Proof.
  intros H. unfold login_required, bind. rewrite load_admin_config_eq.
  unfold panel_enabled in H. rewrite H. reflexivity.
Qed.

Lemma login_disabled w req :
  panel_enabled w = false ->
  login req w = (Ok disabled_response, after_load w).
Proof.
  intros H. unfold login, bind. rewrite load_admin_config_eq.
  unfold panel_enabled in H. rewrite H. reflexivity.
Qed.

Lemma login_required_logged_out w f :
  panel_enabled w = true -> logged_in w = false ->
  login_required f w = (Ok (Redirect "admin.login"), after_load w).
Proof.
  intros H L. unfold login_required, bind, gets. rewrite load_admin_config_eq.
  unfold panel_enabled in H. rewrite H. cbv beta iota delta [negb].
  rewrite after_load_logged_in, L. reflexivity.
Qed.

Lemma login_required_passes w f :
  panel_enabled w = true -> logged_in w = true ->
  login_required f w = f (after_load w).
Proof.
  intros H L. unfold login_required, bind, gets. rewrite load_admin_config_eq.
  unfold panel_enabled in H. rewrite H. cbv beta iota delta [negb].
  rewrite after_load_logged_in, L. reflexivity.
Qed.

(** C10.  A credentials file that exists but is not JSON makes
    [load_admin_config] answer with the default disabled record (panel off,
    user "admin", empty hash, second factor off) without writing anything,
    whereas a missing file is also created with that record; so every guarded
    operation, and the login page, answer 403 "disabled" instead of failing. *)
Theorem corrupted_credentials_disable_panel w why :
  admin_file w = Some (Unparseable why) ->
  load_admin_config w = (Ok default_config, w) /\
  load_admin_config (set_admin_file None w) =
    (Ok default_config, set_admin_file (Some (Document default_config)) w) /\
  (forall f, login_required f w = (Ok disabled_response, w)) /\
  (forall req, login req w = (Ok disabled_response, w)) /\
  status_of (Ok disabled_response) = 403.
Proof.
  intros H.
  assert (Hdis : panel_enabled w = false).
  { unfold panel_enabled, stored_credentials. rewrite H. reflexivity. }
  assert (Hsame : after_load w = w).
  { unfold after_load. rewrite H. reflexivity. }
  split; [apply (load_admin_config_unparseable w why H)|].
  split; [reflexivity|].
  split; [intros f; rewrite (login_required_disabled w f Hdis); now rewrite Hsame|].
  split; [intros req; rewrite (login_disabled w req Hdis); now rewrite Hsame|].
  reflexivity.
Qed.

(** The guarded operations, by name. *)
Corollary corrupted_credentials_every_operation w why lib server_id req :
  admin_file w = Some (Unparseable why) ->
  dashboard w = (Ok disabled_response, w) /\
  add_server req w = (Ok disabled_response, w) /\
  edit_server server_id req w = (Ok disabled_response, w) /\
  delete_server server_id w = (Ok disabled_response, w) /\
  security_settings lib req w = (Ok disabled_response, w).
Proof.
  intros H.
  assert (Hdis : panel_enabled w = false).
  { unfold panel_enabled, stored_credentials. rewrite H. reflexivity. }
  assert (Hsame : after_load w = w).
  { unfold after_load. rewrite H. reflexivity. }
  unfold dashboard, add_server, edit_server, delete_server, security_settings.
  rewrite !(login_required_disabled w _ Hdis), Hsame. repeat split.
Qed.

Lemma corrupted_credentials_witness :
  admin_file corrupted_world =
    Some (Unparseable "Expecting value: line 1 column 1 (char 0)") /\
  (forall f, login_required f corrupted_world = (Ok disabled_response, corrupted_world)).
Proof.
  split; [reflexivity|].
  apply (corrupted_credentials_disable_panel corrupted_world
           "Expecting value: line 1 column 1 (char 0)" eq_refl).
Defined.

Example login_error_depends_on_field :
  auth_state_of (snd (login wrong_password_login sample_world)) = LoggedOut /\
  auth_state_of (snd (login stale_code_login sample_world)) = LoggedOut /\
  error_of (fst (login wrong_password_login sample_world)) =
    Some (JStr "Invalid username or password") /\
  error_of (fst (login stale_code_login sample_world)) =
    Some (JStr "Invalid 2FA code") /\
  error_of (fst (login wrong_password_login sample_world)) <>
  error_of (fst (login stale_code_login sample_world)).
Proof. vm_compute. repeat split; discriminate. Qed.

(** C2, the claim as written, fails: a wrong password and a stale code are
    both refused, with different error texts. *)
Lemma login_errors_not_uniform : ~ uniform_login_errors.
Proof.
  intros H.
  specialize (H sample_world wrong_password_login stale_code_login
                eq_refl eq_refl eq_refl eq_refl).
  assert (H1 : auth_state_of (snd (login wrong_password_login sample_world)) = LoggedOut)
    by (vm_compute; reflexivity).
  assert (H2 : auth_state_of (snd (login stale_code_login sample_world)) = LoggedOut)
    by (vm_compute; reflexivity).
  specialize (H H1 H2). clear H1 H2. vm_compute in H. discriminate H.
Qed.

(** C2, amended.  A submission whose user name or password is wrong is answered
    with the one text "Invalid username or password", whichever of the two
    failed; a submission with the right user name and password whose
    second-factor code is refused is answered with "Invalid 2FA code". *)
Theorem login_failure_messages w req u :
  method req = POST ->
  panel_enabled w = true ->
  dict_lookup (stored_credentials w) "admin_username" = Some u ->
  let cfg := stored_credentials w in
  let require_2fa := dict_get cfg "2fa_enabled" (JBool false) in
  let name_ok := str_eq (form_str req "username" "") u in
  let password_ok :=
    str_eq (hash_password (form_str req "password" ""))
           (dict_get cfg "admin_password_hash" JNull) in
  (* wrong user name, or wrong password, or both: one message *)
  ((name_ok = false \/
    (dict_has cfg "admin_password_hash" = true /\ password_ok = false)) ->
   login req w =
   (Ok (Render "LOGIN_TEMPLATE"
          [("error", JStr "Invalid username or password");
           ("require_2fa", require_2fa)]), after_load w)) /\
  (* right user name and password, code refused: another message *)
  (forall secret,
     name_ok = true -> password_ok = true -> truthy require_2fa = true ->
     dict_lookup cfg "2fa_secret" = Some secret ->
     totp_verify secret (form_str req "totp_code" "") (clock w) = Ok false ->
     login req w =
     (Ok (Render "LOGIN_TEMPLATE"
            [("error", JStr "Invalid 2FA code"); ("require_2fa", JBool true)]),
      after_load w)).
Proof.
  intros Hpost Hen Hu cfg require_2fa name_ok password_ok.
  unfold panel_enabled in Hen. fold cfg in Hen, Hu.
  split.
  - intros Hbad. unfold login, bind. rewrite load_admin_config_eq. fold cfg.
    rewrite Hen. unfold is_post. rewrite Hpost. cbn [negb].
    unfold lift, dict_item, ret. rewrite Hu. fold name_ok.
    destruct name_ok eqn:En.
    + destruct Hbad as [Hbad|[Hh Hp]]; [discriminate|].
      unfold dict_has in Hh. unfold password_ok, dict_get in Hp.
      destruct (dict_lookup cfg "admin_password_hash") as [h|]; [|discriminate].
      unfold verify_password. rewrite Hp. reflexivity.
    + reflexivity.
  - intros secret Hn Hp H2 Hs Hv.
    unfold login, bind. rewrite load_admin_config_eq. fold cfg.
    rewrite Hen. unfold is_post. rewrite Hpost. cbn [negb].
    unfold lift, dict_item, ret. rewrite Hu. fold name_ok. rewrite Hn.
    unfold password_ok, dict_get in Hp.
    destruct (dict_lookup cfg "admin_password_hash") as [h|]; [|discriminate].
    unfold verify_password. rewrite Hp. fold require_2fa. rewrite H2, Hs.
    unfold gets. rewrite after_load_clock, Hv. reflexivity.
Qed.

Lemma login_failure_messages_witness :
  login wrong_password_login sample_world =
  (Ok (Render "LOGIN_TEMPLATE"
         [("error", JStr "Invalid username or password");
          ("require_2fa", JBool true)]), sample_world).
Proof.
  apply (login_failure_messages sample_world wrong_password_login (JStr "admin")
           eq_refl eq_refl eq_refl).
  right. split; vm_compute; reflexivity.
Defined.

(** ** The roster: indices out of range *)

Lemma enabled_panel_has_file w :
  panel_enabled w = true -> after_load w = w.
Proof.
  unfold panel_enabled, stored_credentials, after_load.
  destruct (admin_file w) as [[why|d]|]; cbn; congruence.
Qed.

Lemma after_load_config_file w : config_file (after_load w) = config_file w.
Proof. unfold after_load. now destruct (admin_file w). Qed.

(** A guarded handler that leaves the configuration file alone in every
    world does so behind the guard too. *)
Lemma login_required_keeps_config f w :
  (forall w0, config_file (snd (f w0)) = config_file w0) ->
  config_file (snd (login_required f w)) = config_file w.
Proof.
  intros Hf.
  destruct (panel_enabled w) eqn:En.
  - destruct (logged_in w) eqn:L.
    + rewrite (login_required_passes w f En L), Hf. apply after_load_config_file.
    + rewrite (login_required_logged_out w f En L). apply after_load_config_file.
  - rewrite (login_required_disabled w f En). apply after_load_config_file.
Qed.

Lemma out_of_range_test (servers : list json) server_id :
  server_id < 0 \/ Z.of_nat (List.length servers) <= server_id ->
  (server_id <? 0) || (server_id >=? Z.of_nat (List.length servers)) = true.
Proof.
  intros [H|H].
  - apply orb_true_iff. left. now apply Z.ltb_lt.
  - apply orb_true_iff. right. apply Z.geb_le. lia.
Qed.

Lemma edit_server_body_out_of_range w config servers server_id req :
  config_file w = Some (Document config) ->
  dict_get config "SERVERS" (JList []) = JList servers ->
  server_id < 0 \/ Z.of_nat (List.length servers) <= server_id ->
  edit_server_body server_id req w = (Ok (Plain "Invalid server ID" 404), w).
Proof.
  intros Hc Hs Hr. unfold edit_server_body, read_config, bind, gets.
  rewrite Hc. unfold ret. rewrite Hs. cbn [lift py_len].
  now rewrite (out_of_range_test servers server_id Hr).
Qed.

Lemma delete_server_body_out_of_range w config servers server_id :
  config_file w = Some (Document config) ->
  dict_get config "SERVERS" (JList []) = JList servers ->
  server_id < 0 \/ Z.of_nat (List.length servers) <= server_id ->
  delete_server_body server_id w = (Ok (Plain "Invalid server ID" 404), w).
Proof.
  intros Hc Hs Hr. unfold delete_server_body, read_config, bind, gets.
  rewrite Hc. unfold ret. rewrite Hs. cbn [lift py_len].
  now rewrite (out_of_range_test servers server_id Hr).
Qed.

Lemma guarded_out_of_range f w :
  f (after_load w) = (Ok (Plain "Invalid server ID" 404), after_load w) ->
  config_file (snd (login_required f w)) = config_file w /\
  (panel_enabled w = true -> logged_in w = true ->
   login_required f w = (Ok (Plain "Invalid server ID" 404), w)) /\
  (panel_enabled w = false -> fst (login_required f w) = Ok disabled_response).
Proof.
  intros Hf. split; [|split].
  - destruct (panel_enabled w) eqn:En.
    + destruct (logged_in w) eqn:L.
      * rewrite (login_required_passes w f En L), Hf. apply after_load_config_file.
      * rewrite (login_required_logged_out w f En L). apply after_load_config_file.
    + rewrite (login_required_disabled w f En). apply after_load_config_file.
  - intros En L. rewrite (login_required_passes w f En L), Hf.
    now rewrite (enabled_panel_has_file w En).
  - intros En. now rewrite (login_required_disabled w f En).
Qed.

(** C5.  For every roster and every index outside [0, length), [edit_server]
    and [delete_server] answer 404 "Invalid server ID" to an administrator
    (403 when the panel is disabled) and the configuration file is left as
    it was: no entry added, removed or changed, nothing written. *)
Theorem out_of_range_index_rejected w config servers server_id req :
  config_file w = Some (Document config) ->
  dict_get config "SERVERS" (JList []) = JList servers ->
  server_id < 0 \/ Z.of_nat (List.length servers) <= server_id ->
  (* the configuration file is not written, whoever asks *)
  config_file (snd (edit_server server_id req w)) = config_file w /\
  config_file (snd (delete_server server_id w)) = config_file w /\
  (* an administrator is answered 404 and nothing at all changes *)
  (panel_enabled w = true -> logged_in w = true ->
   edit_server server_id req w = (Ok (Plain "Invalid server ID" 404), w) /\
   delete_server server_id w = (Ok (Plain "Invalid server ID" 404), w)) /\
  (* with the panel disabled the answer is 403 *)
  (panel_enabled w = false ->
   fst (edit_server server_id req w) = Ok disabled_response /\
   fst (delete_server server_id w) = Ok disabled_response).
Proof.
  intros Hc Hs Hr.
  assert (Hc' : config_file (after_load w) = Some (Document config))
    by now rewrite after_load_config_file.
  pose proof (guarded_out_of_range (edit_server_body server_id req) w
    (edit_server_body_out_of_range _ _ _ _ req Hc' Hs Hr)) as (E1 & E2 & E3).
  pose proof (guarded_out_of_range (delete_server_body server_id) w
    (delete_server_body_out_of_range _ _ _ _ Hc' Hs Hr)) as (D1 & D2 & D3).
  unfold edit_server, delete_server. repeat split; auto.
Qed.

Lemma out_of_range_index_witness :
  edit_server 1 (post [("mac", "00:11:22:33:44:66")]) sample_admin_world =
    (Ok (Plain "Invalid server ID" 404), sample_admin_world) /\
  delete_server 1 sample_admin_world =
    (Ok (Plain "Invalid server ID" 404), sample_admin_world).
Proof.
  apply (out_of_range_index_rejected sample_admin_world sample_roster_file
           [JDict [("NAME", JStr "NAS");
                   ("WOL_MAC_ADDRESS", JStr "00:11:22:33:44:55");
                   ("BROADCAST_ADDRESS", JStr "255.255.255.255");
                   ("SITE_URL", JStr "http://nas.local");
                   ("WAIT_TIME_SECONDS", JInt 30)]]
           1 (post [("mac", "00:11:22:33:44:66")]) eq_refl eq_refl);
    [right; cbn; lia | reflexivity | reflexivity].
Defined.

(** ** The roster: what add and edit store *)

(** An administrator's submission is stored as it came: trimmed, the wait
    converted to an integer, nothing checked. *)
Lemma add_server_stores_form w config servers req entry :
  panel_enabled w = true -> logged_in w = true -> method req = POST ->
  config_file w = Some (Document config) ->
  dict_lookup config "SERVERS" = Some (JList servers) ->
  server_from_form req = Ok entry ->
  config_file (snd (add_server req w)) =
  Some (Document (dict_set config "SERVERS" (JList (servers ++ [entry])))).
Proof.
  intros En L Hp Hc Hs He. unfold add_server.
  rewrite (login_required_passes w _ En L), (enabled_panel_has_file w En).
  unfold add_server_body, is_post. rewrite Hp.
  unfold read_config, bind, gets. rewrite Hc. unfold ret, lift. rewrite He.
  unfold dict_item. rewrite Hs. reflexivity.
Qed.

Lemma edit_server_stores_form w config servers server_id req entry :
  panel_enabled w = true -> logged_in w = true -> method req = POST ->
  config_file w = Some (Document config) ->
  dict_lookup config "SERVERS" = Some (JList servers) ->
  0 <= server_id < Z.of_nat (List.length servers) ->
  server_from_form req = Ok entry ->
  config_file (snd (edit_server server_id req w)) =
  Some (Document (dict_set config "SERVERS"
          (JList (firstn (Z.to_nat server_id) servers ++ entry ::
                  skipn (S (Z.to_nat server_id)) servers)))).
Proof.
  intros En L Hp Hc Hs Hr He. unfold edit_server.
  rewrite (login_required_passes w _ En L), (enabled_panel_has_file w En).
  unfold edit_server_body, is_post. rewrite Hp.
  unfold read_config, bind, gets. rewrite Hc. unfold ret, lift, dict_get.
  rewrite Hs. cbn [py_len].
  replace ((server_id <? 0) || (server_id >=? Z.of_nat (List.length servers)))
    with false.
  2:{ symmetry. apply orb_false_iff. split; [apply Z.ltb_ge; lia|].
      rewrite Z.geb_leb. apply Z.leb_gt. lia. }
  rewrite He. reflexivity.
Qed.

(** C9 does not hold of the code.  A POST carrying the hardware address
    "zz" and the wait "0" is appended by [add_server], and put in place of
    entry 0 by [edit_server], although it breaks both constraints of the data
    model; only the browser form asks for them (its [pattern] and [min]
    attributes), the handlers check nothing. *)
Lemma add_and_edit_store_invalid_entries :
  roster_of (snd (add_server careless_form sample_admin_world)) =
    [nas_entry; careless_entry] /\
  roster_of (snd (edit_server 0 careless_form sample_admin_world)) =
    [careless_entry] /\
  valid_entry careless_entry = false /\
  validate_mac "zz" = false.
Proof. vm_compute. repeat split. Qed.

(** ** Second-factor enrolment *)

Lemma enable_2fa_raises lib w req :
  panel_enabled w = true -> logged_in w = true -> method req = POST ->
  form_lookup (form req) "action" = Some "enable_2fa" ->
  security_settings lib req w = (Raise (NameError "TOTP_AVAILABLE"), w).
Proof.
  intros En L Hp Ha. unfold security_settings.
  rewrite (login_required_passes w _ En L), (enabled_panel_has_file w En).
  unfold security_settings_with, bind. rewrite load_admin_config_eq.
  rewrite (enabled_panel_has_file w En).
  unfold is_post. rewrite Hp, Ha. reflexivity.
Qed.

(** C6 does not hold of the code.  The first step of the enrolment reads the
    unbound name [TOTP_AVAILABLE] and raises; no secret is drawn, nothing is
    written, the stored secret stays empty and the request ends as a 500. *)
Lemma enrolment_never_starts :
  security_settings sample_libraries enable_2fa_request plain_admin_world =
    (Raise (NameError "TOTP_AVAILABLE"), plain_admin_world) /\
  status_of (fst (security_settings sample_libraries enable_2fa_request
                    plain_admin_world)) = 500 /\
  totp_secret (snd (security_settings sample_libraries enable_2fa_request
                      plain_admin_world)) = Some (JStr "").
Proof. vm_compute. repeat split. Qed.

Lemma dict_lookup_set_same d k v : dict_lookup (dict_set d k v) k = Some v.
Proof.
  induction d as [|[k' v'] t IH]; cbn.
  - now rewrite String.eqb_refl.
  - destruct (String.eqb k' k) eqn:E; cbn; rewrite E; auto.
Qed.

Lemma dict_lookup_set_other d k v k' :
  k <> k' -> dict_lookup (dict_set d k v) k' = dict_lookup d k'.
Proof.
  intros N. induction d as [|[k0 v0] t IH]; cbn.
  - destruct (String.eqb_spec k k'); [contradiction|reflexivity].
  - destruct (String.eqb_spec k0 k) as [->|N0]; cbn.
    + destruct (String.eqb_spec k k'); [contradiction|reflexivity].
    + destruct (String.eqb k0 k'); auto.
Qed.

(** Had the module bound [TOTP_AVAILABLE] to a true value, the first step
    would store the fresh secret with the second factor still off. *)
Lemma enable_2fa_when_available flag lib w req :
  truthy flag = true ->
  panel_enabled w = true -> method req = POST ->
  form_lookup (form req) "action" = Some "enable_2fa" ->
  let w' := snd (security_settings_with (Ok flag) lib req w) in
  totp_secret w' = Some (JStr (random_base32 lib)) /\ totp_enabled w' = false.
Proof.
  intros Hf En Hp Ha. cbv zeta.
  unfold security_settings_with, bind. rewrite load_admin_config_eq.
  rewrite (enabled_panel_has_file w En).
  unfold is_post. rewrite Hp, Ha. cbn [option_eqb String.eqb Ascii.eqb Bool.eqb].
  cbn [lift]. rewrite Hf. cbn [negb].
  unfold save_admin_config, modify.
  set (cfg' := dict_set (dict_set (stored_credentials w) "2fa_secret" _) _ _).
  assert (Hsec : dict_lookup cfg' "2fa_secret" = Some (JStr (random_base32 lib))).
  { unfold cfg'. rewrite dict_lookup_set_other by discriminate.
    apply dict_lookup_set_same. }
  assert (Hfl : dict_lookup cfg' "2fa_enabled" = Some (JBool false))
    by apply dict_lookup_set_same.
  assert (Hw : forall w0, admin_file w0 = Some (Document cfg') ->
               totp_secret w0 = Some (JStr (random_base32 lib)) /\
               totp_enabled w0 = false).
  { intros w0 H0. unfold totp_secret, totp_enabled, stored_credentials, dict_get.
    rewrite H0, Hsec, Hfl. auto. }
  unfold lift, dict_item.
  destruct (dict_lookup cfg' "admin_username");
    [destruct (generate_qr_code_with _ _ _)|]; apply Hw; reflexivity.
Qed.

(** The second step turns the second factor on exactly when the code is
    accepted for the stored secret; a refused code writes nothing. *)
Lemma verify_2fa_outcome flag lib w req secret :
  panel_enabled w = true -> method req = POST ->
  form_lookup (form req) "action" = Some "verify_2fa" ->
  totp_secret w = Some secret ->
  let w' := snd (security_settings_with flag lib req w) in
  (totp_verify secret (form_str req "totp_code" "") (clock w) = Ok true ->
   totp_enabled w' = true /\ totp_secret w' = Some secret) /\
  (totp_verify secret (form_str req "totp_code" "") (clock w) <> Ok true ->
   admin_file w' = admin_file w).
Proof.
  intros En Hp Ha Hs. cbv zeta.
  unfold security_settings_with, bind. rewrite load_admin_config_eq.
  rewrite (enabled_panel_has_file w En).
  unfold is_post. rewrite Hp, Ha. cbn [option_eqb String.eqb Ascii.eqb Bool.eqb].
  unfold totp_secret in Hs. unfold lift, dict_item, gets. rewrite Hs.
  destruct (totp_verify secret (form_str req "totp_code" "") (clock w))
    as [[|]|e]; cbn.
  - split; [intros _|congruence].
    unfold totp_enabled, totp_secret, stored_credentials, dict_get. cbn.
    rewrite dict_lookup_set_same, dict_lookup_set_other by discriminate. auto.
  - split; [discriminate|reflexivity].
  - split; [discriminate|reflexivity].
Qed.

(** In terms of the time window: after a verification request the second
    factor is on if and only if it was on before or the code (ASCII text) is
    the one of the pending secret for the current step or a neighbour. *)
Lemma verify_2fa_window flag lib w req secret :
  panel_enabled w = true -> method req = POST ->
  form_lookup (form req) "action" = Some "verify_2fa" ->
  totp_secret w = Some (JStr secret) ->
  30 <= clock w ->
  is_ascii (form_str req "totp_code" "") = true ->
  totp_enabled (snd (security_settings_with flag lib req w)) = true <->
  totp_enabled w = true \/
  code_in_window secret (form_str req "totp_code" "") (clock w).
Proof.
  intros En Hp Ha Hs Hc _.
  destruct (verify_2fa_outcome flag lib w req (JStr secret) En Hp Ha Hs) as [Hy Hn].
  pose proof (totp_verify_window (JStr secret) (form_str req "totp_code" "")
                (clock w) Hc) as Hw.
  destruct (totp_verify (JStr secret) (form_str req "totp_code" "") (clock w))
    as [[|]|e] eqn:Ev.
  - split; [intros _|intros _; now apply Hy].
    right. destruct (proj1 Hw eq_refl) as (s0 & Hs0 & Hin). now inversion Hs0; subst.
  - assert (Hf : admin_file (snd (security_settings_with flag lib req w)) = admin_file w)
      by (apply Hn; discriminate).
    unfold totp_enabled, stored_credentials. rewrite Hf.
    split; [auto|]. intros [H|H]; [exact H|].
    assert (Ok false = Ok true) by (apply Hw; eauto). discriminate.
  - assert (Hf : admin_file (snd (security_settings_with flag lib req w)) = admin_file w)
      by (apply Hn; discriminate).
    unfold totp_enabled, stored_credentials. rewrite Hf.
    split; [auto|]. intros [H|H]; [exact H|].
    assert (@Raise bool e = Ok true) by (apply Hw; eauto). discriminate.
Qed.

(** ** Hardware addresses *)

Lemma validate_mac_run s :
  validate_mac s = run mac_pattern 0 (list_ascii_of_string s) (fun _ _ => true).
Proof. unfold validate_mac, re_match. now destruct (run _ _ _ _). Qed.

Ltac use_true_atoms :=
  repeat match goal with
         | H : _ && _ = true |- _ => apply andb_true_iff in H; destruct H
         | H : ?b = true |- context [?b] => rewrite H
         end.

(** Six groups, whatever the separators, are accepted. *)
Lemma groups_accepted s : mac_groups false s = true -> validate_mac s = true.
Proof.
  rewrite validate_mac_run. unfold mac_groups.
  generalize (list_ascii_of_string s) as cs. intros cs H.
  do 17 (destruct cs as [|? cs]; [discriminate H|]).
  destruct cs; [|discriminate H].
  cbn in H. use_true_atoms. cbn. use_true_atoms. reflexivity.
Qed.

(** What is accepted and does not end in a line feed is six groups. *)
Lemma accepted_groups s :
  validate_mac s = true -> ends_with_newline s = false ->
  mac_groups false s = true.
Proof.
  rewrite validate_mac_run. unfold mac_groups, ends_with_newline.
  generalize (list_ascii_of_string s) as cs. intros cs H N.
  do 17 (destruct cs as [|? cs];
         [cbn in H; use_true_atoms; discriminate|]).
  destruct cs as [|c18 cs].
  - cbn in H. use_true_atoms. cbn. use_true_atoms. reflexivity.
  - destruct cs as [|c19 cs].
    + cbn in H, N. use_true_atoms. congruence.
    + cbn in H. use_true_atoms. discriminate.
Qed.

Lemma uniform_groups s : mac_uniform s = true -> mac_groups false s = true.
Proof.
  unfold mac_uniform, mac_groups.
  generalize (list_ascii_of_string s) as cs. intros cs H.
  do 17 (destruct cs as [|? cs]; [discriminate H|]).
  destruct cs; [|discriminate H].
  cbn in H. use_true_atoms. cbn. use_true_atoms. reflexivity.
Qed.

Example mixed_separators_accepted :
  validate_mac "00:11-22:33-44:55" = true /\
  mac_uniform "00:11-22:33-44:55" = false.
Proof. split; reflexivity. Qed.

Example trailing_line_feed_accepted :
  validate_mac (String.append "00:11:22:33:44:55" (String newline EmptyString)) = true.
Proof. reflexivity. Qed.

(** C4, the claim as written, fails: acceptance is not the same as "six
    groups with one and the same separator"; the pattern takes [[:-]] anew
    after each group, so mixed separators pass. *)
Lemma validate_mac_not_uniform_only :
  ~ (forall s, validate_mac s = mac_uniform s).
Proof. intros H. specialize (H "00:11-22:33-44:55"). discriminate H. Qed.

(** C4, amended.  Every text made of six pairs of hexadecimal digits (either
    case) with a [:] or a [-] after each of the first five pairs is
    accepted, whether or not the separators are all the same; in particular
    the uniformly separated ones are.  Every text that is not of this form
    and does not end in a line feed is rejected. *)
Theorem validate_mac_accepts_six_groups s :
  (mac_uniform s = true -> validate_mac s = true) /\
  (mac_groups false s = true -> validate_mac s = true) /\
  (ends_with_newline s = false ->
   mac_groups false s = false -> validate_mac s = false).
Proof.
  split; [|split].
  - intros H. apply groups_accepted, uniform_groups, H.
  - apply groups_accepted.
  - intros N G. destruct (validate_mac s) eqn:V; [|reflexivity].
    rewrite (accepted_groups s V N) in G. discriminate G.
Qed.

Lemma validate_mac_witness :
  validate_mac "00-11-22-33-44-55" = true /\
  validate_mac "AA:BB-CC:DD-EE:FF" = true /\
  validate_mac "00:11:22:33:44" = false.
Proof.
  split; [|split].
  - apply (proj1 (validate_mac_accepts_six_groups "00-11-22-33-44-55")).
    reflexivity.
  - apply (proj1 (proj2 (validate_mac_accepts_six_groups "AA:BB-CC:DD-EE:FF"))).
    reflexivity.
  - apply (proj2 (proj2 (validate_mac_accepts_six_groups "00:11:22:33:44")));
      reflexivity.
Defined.

(** ** Loading the configuration *)

Lemma is_empty_false s : is_empty s = false <-> s <> "".
Proof.
  unfold is_empty. destruct (String.eqb_spec s ""); split; congruence.
Qed.

Lemma int_or_malformed_ok v msg n :
  int_or_malformed v msg = Ok n <-> py_int v = Ok n.
Proof.
  unfold int_or_malformed. destruct (py_int v) as [k|e]; [|destruct e];
    split; congruence.
Qed.

Lemma dict_has_lookup d k :
  dict_has d k = true <-> exists v, dict_lookup d k = Some v.
Proof.
  unfold dict_has. destruct (dict_lookup d k).
  - split; eauto.
  - split; [discriminate|]. intros (v & H). discriminate.
Qed.

Lemma no_missing_keys d :
  filter (fun key => negb (dict_has d key)) required_keys = [] <->
  forall k, In k required_keys -> dict_has d k = true.
Proof.
  split.
  - intros H k Hk.
    destruct (dict_has d k) eqn:E; [reflexivity|].
    assert (In k (filter (fun key => negb (dict_has d key)) required_keys)).
    { apply filter_In. split; [assumption|]. now rewrite E. }
    rewrite H in H0. contradiction.
  - intros H. unfold required_keys. cbn [filter].
    rewrite !H by (cbn; tauto). reflexivity.
Qed.

Lemma missing_keys_dict d keys :
  missing_keys (JDict d) keys =
  Ok (filter (fun key => negb (dict_has d key)) keys).
Proof.
  induction keys as [|key rest IH]; cbn [missing_keys filter py_in rbind];
    [reflexivity|].
  rewrite IH. cbn [rbind]. now destruct (dict_has d key).
Qed.

(** On an object, in the terms of [dict]. *)
Lemma load_config_from_document d :
  load_config_from (Some (Document d)) =
  let missing :=
    filter (fun key => negb (dict_has d key)) required_keys in
  match missing with
  | _ :: _ =>
      Raise (ValueError ("Missing required config keys: " ++ join ", " missing))
  | [] =>
      rbind (dict_item d "WOL_MAC_ADDRESS") (fun mac_raw =>
      rbind (dict_item d "BROADCAST_ADDRESS") (fun broadcast_raw =>
      rbind (dict_item d "SITE_URL") (fun site_raw =>
      rbind (dict_item d "WAIT_TIME_SECONDS") (fun wait_raw =>
        let mac := strip (py_str mac_raw) in
        let broadcast := strip (py_str broadcast_raw) in
        let site := strip (py_str site_raw) in
        if is_empty mac then
          Raise (ValueError "WOL_MAC_ADDRESS must be set in the config file.")
        else if is_empty broadcast then
          Raise (ValueError "BROADCAST_ADDRESS must be set in the config file.")
        else if is_empty site then
          Raise (ValueError "SITE_URL must be set in the config file.")
        else
          rbind (int_or_malformed wait_raw "WAIT_TIME_SECONDS must be an integer.")
            (fun wait =>
          if wait <=? 0 then
            Raise (ValueError "WAIT_TIME_SECONDS must be greater than zero.")
          else
            rbind (dict_item d "PORT") (fun port_raw =>
            rbind (int_or_malformed port_raw "PORT must be an integer.")
              (fun port =>
            if (port <=? 0) || (port >? 65535) then
              Raise (ValueError "PORT must be between 1 and 65535.")
            else
              Ok (mkGatewayConfig mac broadcast site wait port))))))))
  end.
Proof.
  unfold load_config_from, load_config_file. cbn [option_map file_of].
  rewrite missing_keys_dict. cbn [rbind subscript]. reflexivity.
Qed.

Lemma load_config_sound d cfg :
  load_config_from (Some (Document d)) = Ok cfg -> loadable d cfg.
Proof.
  rewrite load_config_from_document.
  destruct (filter _ required_keys) eqn:Ef; [|discriminate].
  unfold dict_item.
  destruct (dict_lookup d "WOL_MAC_ADDRESS") as [mac_raw|] eqn:E1; [|discriminate].
  destruct (dict_lookup d "BROADCAST_ADDRESS") as [b_raw|] eqn:E2; [|discriminate].
  destruct (dict_lookup d "SITE_URL") as [s_raw|] eqn:E3; [|discriminate].
  destruct (dict_lookup d "WAIT_TIME_SECONDS") as [w_raw|] eqn:E4; [|discriminate].
  cbn [rbind].
  destruct (is_empty (strip (py_str mac_raw))) eqn:M1; [discriminate|].
  destruct (is_empty (strip (py_str b_raw))) eqn:M2; [discriminate|].
  destruct (is_empty (strip (py_str s_raw))) eqn:M3; [discriminate|].
  destruct (int_or_malformed w_raw _) as [wait|] eqn:Ew; [|discriminate].
  cbn [rbind].
  destruct (Z.leb_spec wait 0) as [|Hw]; [discriminate|].
  destruct (dict_lookup d "PORT") as [p_raw|] eqn:E5; [|discriminate].
  cbn [rbind].
  destruct (int_or_malformed p_raw _) as [port|] eqn:Ep; [|discriminate].
  cbn [rbind].
  destruct ((port <=? 0) || (port >? 65535)) eqn:Er; [discriminate|].
  intros H. inversion H; subst cfg; clear H.
  apply orb_false_iff in Er. destruct Er as [Er1 Er2].
  apply Z.leb_gt in Er1. rewrite Z.gtb_ltb in Er2. apply Z.ltb_ge in Er2.
  exists mac_raw, b_raw, s_raw, w_raw, p_raw. cbn.
  repeat split; try assumption; try lia;
    try (now apply is_empty_false);
    try (now apply int_or_malformed_ok in Ew);
    try (now apply int_or_malformed_ok in Ep).
Qed.

Lemma load_config_complete d cfg :
  loadable d cfg -> load_config_from (Some (Document d)) = Ok cfg.
Proof.
  intros (mac_raw & b_raw & s_raw & w_raw & p_raw & E1 & E2 & E3 & E4 & E5 &
          Hm & Hb & Hs & Nm & Nb & Ns & Hw & Pw & Hp & Pp).
  rewrite load_config_from_document.
  assert (Hk : filter (fun key => negb (dict_has d key)) required_keys = []).
  { apply no_missing_keys. intros k Hk. apply dict_has_lookup.
    cbn in Hk. destruct Hk as [<-|[<-|[<-|[<-|[<-|[]]]]]]; eauto. }
  rewrite Hk. unfold dict_item. rewrite E1, E2, E3, E4, E5. cbn [rbind].
  rewrite <- Hm, <- Hb, <- Hs.
  rewrite (proj2 (is_empty_false _) Nm), (proj2 (is_empty_false _) Nb),
          (proj2 (is_empty_false _) Ns).
  rewrite (proj2 (int_or_malformed_ok _ _ _) Hw). cbn [rbind].
  destruct (Z.leb_spec (WAIT_TIME_SECONDS cfg) 0); [lia|].
  rewrite (proj2 (int_or_malformed_ok _ _ _) Hp). cbn [rbind].
  replace ((PORT cfg <=? 0) || (PORT cfg >? 65535)) with false.
  - now destruct cfg.
  - symmetry. apply orb_false_iff. split; [apply Z.leb_gt; lia|].
    rewrite Z.gtb_ltb. apply Z.ltb_ge. lia.
Qed.

Lemma int_of_str_errors s e :
  int_of_str s = Raise e -> exists msg, e = ValueError msg.
Proof.
  unfold int_of_str, int_of_digits.
  destruct (list_ascii_of_string (strip_with is_c_space s)) as [|c t].
  - destruct (_ <? _)%nat; [|destruct (parse_digits _ _ _)];
      intros H; inversion H; eauto.
  - destruct c as [[|] [|] [|] [|] [|] [|] [|] [|]];
      repeat match goal with
             | |- context [if ?b then _ else _] => destruct b
             | |- context [match parse_digits ?a ?b ?c with _ => _ end] =>
                 destruct (parse_digits a b c)
             end; cbn [rbind]; intros H; inversion H; eauto.
Qed.

Lemma py_int_errors v e :
  py_int v = Raise e ->
  (exists msg, e = TypeError msg) \/ (exists msg, e = ValueError msg) \/
  ((exists msg, e = OverflowError msg) /\ infinite v).
Proof.
  destruct v as [|b|n|x|s|l|d]; cbn [py_int]; try discriminate;
    try (intros H; inversion H; left; eauto; fail).
  - destruct x as [neg m ex|neg|]; cbn [float_trunc]; [discriminate| |];
      intros H; inversion H.
    + right. right. split; [eauto|]. now exists neg.
    + right. left. eauto.
  - intros H. right. left. exact (int_of_str_errors s e H).
Qed.

Lemma int_or_malformed_errors v msg e :
  int_or_malformed v msg = Raise e ->
  (exists msg', e = ValueError msg') \/
  ((exists msg', e = OverflowError msg') /\ infinite v).
Proof.
  unfold int_or_malformed.
  destruct (py_int v) as [n|e0] eqn:E; [discriminate|].
  destruct (py_int_errors v e0 E) as [(m & ->)|[(m & ->)|[(m & ->) Hi]]];
    intros H; inversion H; [left; eauto..|right].
  split; [eauto|exact Hi].
Qed.

(** What goes wrong with an object is reported as a [ValueError], but for an
    infinite wait or port: [int] raises [OverflowError] on it, which
    [load_config] does not catch. *)
Lemma load_config_errors d e :
  load_config_from (Some (Document d)) = Raise e ->
  (exists msg, e = ValueError msg) \/
  ((exists msg, e = OverflowError msg) /\
   exists x, infinite x /\
     (dict_lookup d "WAIT_TIME_SECONDS" = Some x \/
      dict_lookup d "PORT" = Some x)).
Proof.
  rewrite load_config_from_document.
  destruct (filter _ required_keys) eqn:Ef; [|intros H; inversion H; eauto].
  pose proof (proj1 (no_missing_keys d) Ef) as Hk.
  assert (Hl : forall k, In k required_keys -> exists v, dict_lookup d k = Some v).
  { intros k Hin. apply dict_has_lookup, Hk, Hin. }
  unfold dict_item.
  destruct (Hl "WOL_MAC_ADDRESS") as (v1 & ->); [cbn; tauto|].
  destruct (Hl "BROADCAST_ADDRESS") as (v2 & ->); [cbn; tauto|].
  destruct (Hl "SITE_URL") as (v3 & ->); [cbn; tauto|].
  destruct (Hl "WAIT_TIME_SECONDS") as (v4 & E4); [cbn; tauto|]. rewrite E4.
  destruct (Hl "PORT") as (v5 & E5); [cbn; tauto|]. rewrite E5.
  cbn [rbind].
  destruct (is_empty _); [intros H; inversion H; eauto|].
  destruct (is_empty _); [intros H; inversion H; eauto|].
  destruct (is_empty _); [intros H; inversion H; eauto|].
  destruct (int_or_malformed v4 _) as [wait|e4] eqn:Ew; cbn [rbind].
  2:{ intros H. inversion H; subst e4.
      destruct (int_or_malformed_errors _ _ _ Ew) as [Hv|[Ho Hi]];
        [now left|right]. split; [exact Ho|]. exists v4. auto. }
  destruct (_ <=? 0); [intros H; inversion H; eauto|].
  destruct (int_or_malformed v5 _) as [port|e5] eqn:Ep; cbn [rbind].
  2:{ intros H. inversion H; subst e5.
      destruct (int_or_malformed_errors _ _ _ Ep) as [Hv|[Ho Hi]];
        [now left|right]. split; [exact Ho|]. exists v5. auto. }
  destruct (_ || _); [intros H; inversion H; eauto|discriminate].
Qed.

Lemma not_loadable_raises d :
  (forall cfg, ~ loadable d cfg) ->
  exists e, load_config_from (Some (Document d)) = Raise e.
Proof.
  intros Hn.
  destruct (load_config_from (Some (Document d))) as [cfg|e] eqn:E; [|eauto].
  exfalso. apply (Hn cfg), load_config_sound, E.
Qed.

(** A document that does not load and has no infinite wait or port is
    refused with a [ValueError]. *)
Lemma not_loadable_is_malformed d :
  (forall cfg, ~ loadable d cfg) ->
  (forall x, infinite x ->
     dict_lookup d "WAIT_TIME_SECONDS" <> Some x /\
     dict_lookup d "PORT" <> Some x) ->
  exists msg, load_config_from (Some (Document d)) = Raise (ValueError msg).
Proof.
  intros Hn Hf.
  destruct (not_loadable_raises d Hn) as (e & E).
  destruct (load_config_errors _ _ E) as [(msg & ->)|[_ (x & Hi & Hx)]];
    [eauto|].
  exfalso. destruct (Hf x Hi) as [H1 H2]. destruct Hx; contradiction.
Qed.

(** The refusals the specification lists, one by one. *)
Corollary load_config_rejects d :
  (forall x, infinite x ->
     dict_lookup d "WAIT_TIME_SECONDS" <> Some x /\
     dict_lookup d "PORT" <> Some x) ->
  (exists k, In k required_keys /\ dict_has d k = false) \/
  (exists v, dict_lookup d "WAIT_TIME_SECONDS" = Some v /\
             forall n, py_int v = Ok n -> n <= 0) \/
  (exists v, dict_lookup d "PORT" = Some v /\
             forall n, py_int v = Ok n -> n < 1 \/ 65535 < n) ->
  exists msg, load_config_from (Some (Document d)) = Raise (ValueError msg).
Proof.
  intros Hf H. apply not_loadable_is_malformed; [|exact Hf].
  intros cfg (m & b & s & v & p & E1 & E2 & E3 & E4 & E5 &
              _ & _ & _ & _ & _ & _ & Hw & Pw & Hp & Pp).
  destruct H as [(k & Hk & Hn)|[(v' & Hv & Hbad)|(v' & Hv & Hbad)]].
  - unfold dict_has in Hn. cbn in Hk.
    destruct Hk as [<-|[<-|[<-|[<-|[<-|[]]]]]];
      match type of Hn with context [dict_lookup d ?key] =>
        destruct (dict_lookup d key); discriminate end.
  - rewrite E4 in Hv. inversion Hv; subst v'. specialize (Hbad _ Hw). lia.
  - rewrite E5 in Hv. inversion Hv; subst v'. specialize (Hbad _ Hp). lia.
Qed.



Example odd_mac_loads :
  load_config_from (Some (Document odd_mac_document)) =
  Ok (mkGatewayConfig "zz" "255.255.255.255" "http://nas.local" 30 5000).
Proof. reflexivity. Qed.





(** Numbers with a fraction, infinities and documents that are no objects. *)
Example load_config_on_odd_numbers :
  let with_wait v :=
    Json (JDict [("WOL_MAC_ADDRESS", JStr "00:11:22:33:44:55");
                 ("BROADCAST_ADDRESS", JStr "255.255.255.255");
                 ("SITE_URL", JStr "http://nas.local");
                 ("WAIT_TIME_SECONDS", v);
                 ("PORT", JInt 5000)]) in
  (* 30.7 *)
  load_config_file (Some (with_wait (JFloat (Finite false 8641281785017139 (-48)))))
    = Ok nas_config /\
  (* 1e400 *)
  load_config_file (Some (with_wait (JFloat (Infinite false))))
    = Raise (OverflowError "cannot convert float infinity to integer") /\
  (* NaN *)
  load_config_file (Some (with_wait (JFloat NaN)))
    = Raise (ValueError "WAIT_TIME_SECONDS must be an integer.") /\
  (exists msg, load_config_file (Some (Json JNull)) = Raise (TypeError msg)) /\
  (exists msg,
     load_config_file (Some (Json (JList (map JStr required_keys))))
       = Raise (TypeError msg)) /\
  (* nested too deep for the parser *)
  load_config_file
    (Some (Unreadable
             (RecursionError "maximum recursion depth exceeded while decoding a JSON array from a unicode string")))
    = Raise (RecursionError "maximum recursion depth exceeded while decoding a JSON array from a unicode string") /\
  load_config_file (Some (Json (JStr "PORT")))
    = Raise (ValueError "Missing required config keys: WOL_MAC_ADDRESS, BROADCAST_ADDRESS, SITE_URL, WAIT_TIME_SECONDS").
Proof. vm_compute. repeat split; eexists; reflexivity. Qed.

(** ** Saving and loading again *)

Lemma lstrip_no_space cs :
  forallb (fun c => negb (is_space c)) cs = true ->
  lstrip_with is_space cs = cs.
Proof.
  destruct cs as [|c t]; [reflexivity|]. cbn. intros H.
  apply andb_true_iff in H. destruct H as [H _].
  destruct (is_space c); [discriminate|reflexivity].
Qed.

Lemma strip_no_space s : no_space s = true -> strip s = s.
Proof.
  unfold no_space, strip, strip_with, rstrip_with. intros H.
  rewrite (lstrip_no_space _ H).
  rewrite lstrip_no_space.
  - now rewrite rev_involutive, string_of_list_ascii_of_string.
  - rewrite forallb_forall in *. intros c Hc. apply H. now apply in_rev.
Qed.

(** Character classes that exclude white space; checked on all 256
    characters. *)
Lemma class_not_space c :
  hex_class c || sep_class c || is_digit c || Ascii.eqb c "."%char || visible c
    = true ->
  negb (is_space c) = true.
Proof.
  destruct c as [[] [] [] [] [] [] [] []]; vm_compute; intros H;
    first [reflexivity | discriminate H].
Qed.

Lemma forallb_impl {A} (p q : A -> bool) l :
  (forall x, p x = true -> q x = true) ->
  forallb p l = true -> forallb q l = true.
Proof.
  intros Hpq. rewrite !forallb_forall. auto.
Qed.

Lemma mac_uniform_no_space s : mac_uniform s = true -> no_space s = true /\ s <> "".
Proof.
  unfold mac_uniform, mac_groups, no_space.
  intros H. split.
  - revert H. generalize (list_ascii_of_string s) as cs. intros cs H.
    do 17 (destruct cs as [|? cs]; [discriminate H|]).
    destruct cs; [|discriminate H].
    cbn in H. use_true_atoms.
    cbn [forallb].
    repeat match goal with
           | H : hex_class ?c = true |- context [negb (is_space ?c)] =>
               rewrite (class_not_space c) by (rewrite H; reflexivity)
           | H : sep_class ?c = true |- context [negb (is_space ?c)] =>
               rewrite (class_not_space c)
                 by (rewrite H; now rewrite orb_true_r)
           end.
    reflexivity.
  - intros ->. discriminate H.
Qed.

Lemma split_on_chars sep cs c :
  In c cs -> c = sep \/ exists p, In p (split_on sep cs) /\ In c p.
Proof.
  induction cs as [|x t IH]; [contradiction|].
  intros [->|Hin]; cbn [split_on].
  - destruct (Ascii.eqb_spec c sep) as [->|N]; [now left|right].
    destruct (split_on sep t) as [|p ps];
      [exists [c] | exists (c :: p)]; split; now left.
  - destruct (IH Hin) as [->|(p & Hp & Hc)]; [now left|right].
    destruct (Ascii.eqb x sep).
    + exists p. split; [now right|assumption].
    + destruct (split_on sep t) as [|p0 ps]; [contradiction|].
      destruct Hp as [<-|Hp].
      * exists (x :: p0). split; [now left|now right].
      * exists p. split; [now right|assumption].
Qed.

Lemma octet_digits p c : octet p = true -> In c p -> is_digit c = true.
Proof.
  unfold octet. intros H Hc. use_true_atoms.
  match goal with H : forallb is_digit p = true |- _ =>
    rewrite forallb_forall in H; now apply H end.
Qed.

Lemma dotted_quad_no_space s :
  dotted_quad s = true -> no_space s = true /\ s <> "".
Proof.
  unfold dotted_quad, no_space. intros H. split.
  - apply forallb_forall. intros c Hc. apply class_not_space.
    destruct (split_on_chars "."%char _ c Hc) as [->|(p & Hp & Hin)];
      [reflexivity|].
    destruct (split_on "."%char (list_ascii_of_string s))
      as [|a [|b [|c0 [|d [|? ?]]]]]; try discriminate H.
    use_true_atoms.
    assert (Hd : is_digit c = true).
    { cbn in Hp. destruct Hp as [E|[E|[E|[E|[]]]]];
        (apply (octet_digits p c); [rewrite <- E; assumption | exact Hin]). }
    rewrite Hd. now rewrite !orb_true_r.
  - intros ->. discriminate H.
Qed.

Lemma absolute_url_no_space s :
  absolute_url s = true -> no_space s = true /\ s <> "".
Proof.
  unfold absolute_url, no_space. intros H. split.
  - destruct (list_ascii_of_string s) as [|c t]; [discriminate H|].
    use_true_atoms.
    match goal with H : forallb visible _ = true |- _ =>
      revert H; apply forallb_impl end.
    intros x Hx. apply class_not_space. rewrite Hx. now rewrite !orb_true_r.
  - intros ->. discriminate H.
Qed.

(** Saving and loading gives back exactly what was saved if and only if the
    three texts are trimmed and the two numbers are in range: [load_config]
    trims, and refuses the rest. *)
Lemma save_load_exact cfg w :
  fst (bind (save_config cfg) (fun _ => load_config) w) = Ok cfg <->
  trimmed (WOL_MAC_ADDRESS cfg) /\ trimmed (BROADCAST_ADDRESS cfg) /\
  trimmed (SITE_URL cfg) /\ 0 < WAIT_TIME_SECONDS cfg /\
  1 <= PORT cfg <= 65535.
Proof.
  unfold save_config, main_save_config, load_config.
  unfold bind, modify, gets, lift.
  cbn [config_file set_config_file snd fst].
  split.
  - intros H. apply load_config_sound in H.
    destruct H as (m & b & s & v & p & E1 & E2 & E3 & E4 & E5 &
                   Hm & Hb & Hs & Nm & Nb & Ns & Hw & Pw & Hp & Pp).
    cbn in E1, E2, E3, E4, E5.
    inversion E1; inversion E2; inversion E3; inversion E4; inversion E5.
    subst m b s v p. cbn [py_str] in Hm, Hb, Hs.
    unfold trimmed. repeat split; auto; lia.
  - intros ((Sm & Nm) & (Sb & Nb) & (Su & Nu) & Hw & Hp).
    apply load_config_complete.
    exists (JStr (WOL_MAC_ADDRESS cfg)), (JStr (BROADCAST_ADDRESS cfg)),
           (JStr (SITE_URL cfg)), (JInt (WAIT_TIME_SECONDS cfg)),
           (JInt (PORT cfg)).
    cbn [py_str py_int]. rewrite Sm, Sb, Su.
    repeat split; try reflexivity; try assumption; lia.
Qed.

(** C7.  For every valid [GatewayConfig] (a hardware address of the stated
    form, a dotted-quad broadcast address, an absolute URL, a positive wait
    and a port in 1..65535), saving it to the configuration file and loading
    the file gives back the same five values. *)
Theorem save_load_roundtrip cfg w :
  valid_gateway_config cfg ->
  bind (save_config cfg) (fun _ => load_config) w =
  (Ok cfg, snd (save_config cfg w)).
Proof.
  intros (Hm & Hb & Hu & Hw & Hp).
  destruct (mac_uniform_no_space _ Hm) as [Sm Nm].
  destruct (dotted_quad_no_space _ Hb) as [Sb Nb].
  destruct (absolute_url_no_space _ Hu) as [Su Nu].
  assert (E : fst (bind (save_config cfg) (fun _ => load_config) w) = Ok cfg).
  { apply save_load_exact. unfold trimmed.
    rewrite (strip_no_space _ Sm), (strip_no_space _ Sb), (strip_no_space _ Su).
    repeat split; auto; lia. }
  revert E. unfold save_config, main_save_config, load_config.
  unfold bind, modify, gets, lift. cbn [config_file set_config_file snd fst].
  now intros ->.
Qed.

Example untrimmed_url_is_trimmed_by_load :
  fst (bind (save_config (mkGatewayConfig "00:11:22:33:44:55" "255.255.255.255"
                                          " http://nas.local" 30 5000))
            (fun _ => load_config) sample_world) =
  Ok nas_config.
Proof. reflexivity. Qed.

Lemma save_load_roundtrip_witness :
  valid_gateway_config nas_config /\
  fst (bind (save_config nas_config) (fun _ => load_config) sample_world) =
  Ok nas_config.
Proof.
  assert (V : valid_gateway_config nas_config).
  { repeat split; try reflexivity; cbn; lia. }
  split; [exact V|].
  now rewrite (save_load_roundtrip nas_config sample_world V).
Defined.

(** ** The wake route *)

Lemma error_is_not_the_page cfg message :
  String.prefix "WOL Error: " message = true ->
  message <> WAITING_PAGE_HTML cfg.
Proof.
  intros P E. rewrite E in P. discriminate P.
Qed.

Lemma append_assoc (s1 s2 s3 : string) :
  ((s1 ++ s2) ++ s3 = s1 ++ s2 ++ s3)%string.
Proof.
  induction s1 as [|c s1 IH]; cbn; [reflexivity|]. now rewrite IH.
Qed.

Lemma waiting_page_parts cfg :
  exists before middle after,
    WAITING_PAGE_HTML cfg =
      (before
       ++ "<meta http-equiv=" ++ dq ++ "refresh" ++ dq ++ " content=" ++ dq
       ++ str_of_int (WAIT_TIME_SECONDS cfg) ++ ";url=" ++ SITE_URL cfg
       ++ dq ++ ">"
       ++ middle
       ++ "approximately <strong>" ++ str_of_int (WAIT_TIME_SECONDS cfg)
       ++ " seconds</strong>" ++ after)%string.
Proof.
  pose (middle := String.substring 0 (String.length page_style_and_body - 22)
                                   page_style_and_body).
  pose (after := String.substring 17 (String.length page_tail - 17) page_tail).
  assert (Hm : page_style_and_body = (middle ++ "approximately <strong>")%string)
    by (vm_compute; reflexivity).
  assert (Ha : page_tail = (" seconds</strong>" ++ after)%string)
    by (vm_compute; reflexivity).
  exists page_head, middle, after.
  unfold WAITING_PAGE_HTML, refresh_tag. rewrite Hm, Ha.
  generalize (str_of_int (WAIT_TIME_SECONDS cfg)) (SITE_URL cfg) middle after.
  intros wait url m a.
  now rewrite !append_assoc.
Qed.

Lemma decode_cases bs :
  (ill_formed_at bs 0 = None /\ decode bs = Ok (utf8 bs)) \/
  (exists start, ill_formed_at bs 0 = Some start /\
                 decode bs = Raise (UnicodeDecodeError start)).
Proof.
  unfold decode. destruct (ill_formed_at bs 0) as [start|]; eauto.
Qed.

(** C8.  For every request to [/wake]: when the magic packet was sent, the
    answer is the HTML waiting page with status 200, and the page carries the
    configured wait and target URL: its refresh tag reads
    [content="<wait>;url=<URL>"] and its text announces the same wait.  When
    sending failed, the request ends as a 500 and the waiting page is not
    returned; the body is a "WOL Error" diagnostic except in one case: the
    tool ended with a non-zero status and wrote bytes to its standard error
    that are not UTF-8.  Then [e.stderr.decode()] raises in the middle of
    building the diagnostic, the exception leaves the handler, and no
    diagnostic is returned.  That case occurs on some host for every
    configuration. *)
Theorem wake_response cfg env :
  (packet_sent cfg env ->
   wake_server_and_redirect cfg env = Ok (Html (WAITING_PAGE_HTML cfg)) /\
   status_of (wake_server_and_redirect cfg env) = 200 /\
   exists before middle after,
     WAITING_PAGE_HTML cfg =
       (before
        ++ "<meta http-equiv=" ++ dq ++ "refresh" ++ dq ++ " content=" ++ dq
        ++ str_of_int (WAIT_TIME_SECONDS cfg) ++ ";url=" ++ SITE_URL cfg
        ++ dq ++ ">"
        ++ middle
        ++ "approximately <strong>" ++ str_of_int (WAIT_TIME_SECONDS cfg)
        ++ " seconds</strong>" ++ after)%string) /\
  (~ packet_sent cfg env ->
   status_of (wake_server_and_redirect cfg env) = 500 /\
   (forall body, wake_server_and_redirect cfg env <> Ok (Html body)) /\
   ((exists message,
       wake_server_and_redirect cfg env = Ok (Plain message 500) /\
       String.prefix "WOL Error: " message = true /\
       message <> WAITING_PAGE_HTML cfg) \/
    (exists cmd stderr start,
       find_wakeonlan_command env = Some cmd /\
       run_process env [cmd; "-i"; BROADCAST_ADDRESS cfg; WOL_MAC_ADDRESS cfg]
         = CalledProcessError stderr /\
       ill_formed_at stderr 0 = Some start /\
       wake_server_and_redirect cfg env = Raise (UnicodeDecodeError start)))) /\
  (exists env',
     ~ packet_sent cfg env' /\
     wake_server_and_redirect cfg env' = Raise (UnicodeDecodeError 0)).
Proof.
  split; [|split].
  - unfold packet_sent, wake_server_and_redirect.
    intros (cmd & Hf & Hn & Hr). rewrite Hf.
    destruct cmd as [|c cmd]; [contradiction|]. rewrite Hr.
    split; [reflexivity|]. split; [reflexivity|].
    apply waiting_page_parts.
  - intros Hn.
    assert (Hmsg : forall message,
              String.prefix "WOL Error: " message = true ->
              status_of (Ok (Plain message 500)) = 500 /\
              (forall body, Ok (Plain message 500) <> Ok (Html body)) /\
              ((exists m, Ok (Plain message 500) = Ok (Plain m 500) /\
                          String.prefix "WOL Error: " m = true /\
                          m <> WAITING_PAGE_HTML cfg) \/
               (exists cmd stderr start,
                  find_wakeonlan_command env = Some cmd /\
                  run_process env
                    [cmd; "-i"; BROADCAST_ADDRESS cfg; WOL_MAC_ADDRESS cfg]
                    = CalledProcessError stderr /\
                  ill_formed_at stderr 0 = Some start /\
                  Ok (Plain message 500) = Raise (UnicodeDecodeError start)))).
    { intros message P. split; [reflexivity|]. split; [discriminate|].
      left. exists message. repeat split; auto.
      now apply error_is_not_the_page. }
    unfold wake_server_and_redirect.
    destruct (find_wakeonlan_command env) as [[|c cmd]|] eqn:Hf;
      try (apply Hmsg; reflexivity).
    destruct (run_process env _) as [|stderr|str_e] eqn:Hr.
    + exfalso. apply Hn. exists (String c cmd). repeat split; auto.
      discriminate.
    + destruct (decode_cases stderr) as [[_ ->]|(start & Hi & ->)];
        cbn [rbind].
      * apply Hmsg. reflexivity.
      * split; [reflexivity|]. split; [discriminate|].
        right. exists (String c cmd), stderr, start. auto.
    + apply Hmsg. reflexivity.
  - exists (host_with_tool (CalledProcessError [255])). split.
    + intros (cmd & _ & _ & Hr). discriminate Hr.
    + reflexivity.
Qed.

Lemma wake_response_witness :
  (wake_server_and_redirect nas_config (host_with_tool Completed) =
     Ok (Html (WAITING_PAGE_HTML nas_config)) /\
   status_of (wake_server_and_redirect nas_config (host_with_tool Completed))
     = 200) /\
  status_of (wake_server_and_redirect nas_config
               (host_with_tool (CalledProcessError (encode "bad address"))))
    = 500 /\
  status_of (wake_server_and_redirect nas_config host_without_tool) = 500.
Proof.
  split; [|split].
  - destruct (proj1 (wake_response nas_config (host_with_tool Completed)))
      as (H & Hs & _).
    + exists "wakeonlan". repeat split. discriminate.
    + split; [exact H|exact Hs].
  - apply (proj1 (proj2 (wake_response nas_config
             (host_with_tool (CalledProcessError (encode "bad address")))))).
    intros (cmd & _ & _ & Hr). discriminate Hr.
  - apply (proj1 (proj2 (wake_response nas_config host_without_tool))).
    intros (cmd & Hf & _). discriminate Hf.
Defined.

(** The three ways a failed send is answered, and the one that is not. *)
Example wake_failures :
  wake_server_and_redirect nas_config host_without_tool =
    Ok (Plain not_found_message 500) /\
  wake_server_and_redirect nas_config
    (host_with_tool (CalledProcessError (encode "bad address"))) =
    Ok (Plain "WOL Error: Could not send packet. Check MAC address: bad address"
              500) /\
  wake_server_and_redirect nas_config
    (host_with_tool (OtherError "[Errno 13] Permission denied: 'wakeonlan'")) =
    Ok (Plain "WOL Error: Unexpected error: [Errno 13] Permission denied: 'wakeonlan'"
              500) /\
  wake_server_and_redirect nas_config
    (host_with_tool (CalledProcessError [255])) =
    Raise (UnicodeDecodeError 0) /\
  wake_server_and_redirect nas_config
    (host_with_tool (CalledProcessError (encode "bad " ++ [195; 40]))) =
    Raise (UnicodeDecodeError 4).
Proof. vm_compute. repeat split. Qed.

(** [decode] on well-formed and ill-formed bytes. *)
Example decode_samples :
  decode [104; 195; 169] = Ok (utf8 [104; 195; 169]) /\
  decode [240; 159; 154; 128] = Ok (utf8 [240; 159; 154; 128]) /\
  decode [192; 128] = Raise (UnicodeDecodeError 0) /\
  decode [237; 160; 128] = Raise (UnicodeDecodeError 0) /\
  decode [97; 226; 130] = Raise (UnicodeDecodeError 1) /\
  decode [244; 144; 128; 128] = Raise (UnicodeDecodeError 0).
Proof. vm_compute. repeat split. Qed.

(** [repr] and [int] of some floats, as CPython prints and truncates them. *)
Example float_samples :
  map float_repr
      [Finite false 7205759403792794 (-56); Finite false 8641281785017139 (-48);
       Finite false 4768371582031250 21; Finite false 5666839779443574 (-75);
       Finite false 5497558138880000 (-40); Finite true 5629499534213120 (-51);
       Finite false 5000000000000000 1; Finite false 7716049313271605 4;
       Infinite true; NaN] =
    ["0.1"; "30.7"; "1e+22"; "1.5e-07"; "5000.0"; "-2.5"; "1e+16";
     "1.2345678901234568e+17"; "-inf"; "nan"] /\
  map float_trunc
      [Finite false 8641281785017139 (-48); Finite true 5629499534213120 (-51);
       Finite false 4768371582031250 21] =
    [Ok 30; Ok (-2); Ok 10000000000000000000000].
Proof. vm_compute. split; reflexivity. Qed.

Example nas_page_redirects :
  String.index 0 "30;url=http://nas.local" (WAITING_PAGE_HTML nas_config) <> None /\
  String.index 0 "approximately <strong>30 seconds</strong>"
               (WAITING_PAGE_HTML nas_config) <> None.
Proof. vm_compute. split; discriminate. Qed.

(** ** Further checks of the model *)

(** RFC 4226, appendix D: the first codes of the secret "12345678901234567890". *)
Example hotp_rfc4226 :
  map (pyotp.generate_otp "GEZDGNBVGY3TQOJQGEZDGNBVGY3TQOJQ") [0; 1; 2; 3; 4] =
  [Ok "755224"; Ok "287082"; Ok "359152"; Ok "969429"; Ok "338314"].
Proof. vm_compute. reflexivity. Qed.

(** RFC 6238, appendix B (SHA-1 rows, last six digits). *)
Example totp_rfc6238 :
  map (fun t => pyotp.at_ "GEZDGNBVGY3TQOJQGEZDGNBVGY3TQOJQ" t 0)
      [59; 1111111109; 1234567890; 2000000000] =
  [Ok "287082"; Ok "081804"; Ok "005924"; Ok "279037"].
Proof. vm_compute. reflexivity. Qed.

Example b32decode_samples :
  b32decode "MZXW6YTBOI======" = Ok (encode "foobar") /\
  b32decode "mzxw6ytb" = Ok (encode "fooba") /\
  b32decode "MZXW6===" = Ok (encode "foo") /\
  b32decode "M=======" = Raise (ValueError "Incorrect padding") /\
  b32decode "AB1DEFGH" = Raise (ValueError "Non-base32 digit found").
Proof. vm_compute. repeat split. Qed.

(** The codes of the sample secret around the sample clock. *)
Example sample_codes :
  map (pyotp.at_ "JBSWY3DPEHPK3PXP" 1700000000) [-2; -1; 0; 1; 2] =
  [Ok "968785"; Ok "822542"; Ok "324550"; Ok "367665"; Ok "870960"].
Proof. vm_compute. reflexivity. Qed.

Example sample_password_hash :
  hash_password "hunter2" =
  "f52fbd32b2b3b86ff88ef6c490628285f482af15ddcb29541f94bcf526a3f6c7".
Proof. vm_compute. reflexivity. Qed.

(** Logging out is unconditional. *)
Lemma logout_logs_out w :
  fst (logout w) = Ok (Redirect "admin.login") /\
  auth_state_of (snd (logout w)) = LoggedOut.
Proof. split; reflexivity. Qed.

(** Without a readable configuration document the roster handlers raise
    before they write. *)
Lemma roster_handlers_need_a_document w server_id req :
  (forall d, config_file w <> Some (Document d)) ->
  config_file (snd (edit_server server_id req w)) = config_file w /\
  config_file (snd (delete_server server_id w)) = config_file w.
Proof.
  intros Hn.
  assert (Hr : forall w0, config_file w0 = config_file w ->
                 exists e, read_config w0 = (Raise e, w0)).
  { intros w0 E. unfold read_config, bind, gets. rewrite E.
    destruct (config_file w) as [[why|d]|]; unfold raise; [eauto| |eauto].
    exfalso. now apply (Hn d). }
  split; unfold edit_server, delete_server.
  - destruct (panel_enabled w) eqn:En; [destruct (logged_in w) eqn:L|].
    + rewrite (login_required_passes w _ En L).
      unfold edit_server_body, bind.
      destruct (Hr (after_load w) (after_load_config_file w)) as (e & ->).
      apply after_load_config_file.
    + rewrite (login_required_logged_out w _ En L). apply after_load_config_file.
    + rewrite (login_required_disabled w _ En). apply after_load_config_file.
  - destruct (panel_enabled w) eqn:En; [destruct (logged_in w) eqn:L|].
    + rewrite (login_required_passes w _ En L).
      unfold delete_server_body, bind.
      destruct (Hr (after_load w) (after_load_config_file w)) as (e & ->).
      apply after_load_config_file.
    + rewrite (login_required_logged_out w _ En L). apply after_load_config_file.
    + rewrite (login_required_disabled w _ En). apply after_load_config_file.
Qed.

(** The end-to-end example of the specification: adding the NAS to an empty
    roster, then waking it. *)
Example add_then_wake :
  let empty := set_config_file
                 (Some (Document [("PORT", JInt 5000); ("SERVERS", JList [])]))
                 sample_admin_world in
  let submission :=
    post [("name", "NAS"); ("mac", "00:11:22:33:44:55");
          ("broadcast", "255.255.255.255"); ("url", "http://nas.local");
          ("wait_time", "30")] in
  roster_of (snd (add_server submission empty)) = [nas_entry] /\
  fst (add_server submission empty) = Ok (Redirect "admin.dashboard") /\
  wake_server_and_redirect nas_config (host_with_tool Completed) =
    Ok (Html (WAITING_PAGE_HTML nas_config)).
Proof. vm_compute. repeat split. Qed.

(** In-range edits and deletions do change the roster. *)
Example edit_and_delete_in_range :
  roster_of (snd (delete_server 0 sample_admin_world)) = [] /\
  roster_of (snd (edit_server 0
       (post [("name", "NAS"); ("mac", "00-11-22-33-44-55");
              ("url", "http://nas.local"); ("wait_time", "45")])
       sample_admin_world)) =
    [JDict [("NAME", JStr "NAS");
            ("WOL_MAC_ADDRESS", JStr "00-11-22-33-44-55");
            ("BROADCAST_ADDRESS", JStr "255.255.255.255");
            ("SITE_URL", JStr "http://nas.local");
            ("WAIT_TIME_SECONDS", JInt 45)]].
Proof. vm_compute. split; reflexivity. Qed.

(* ===================================================================== *)
(** * Further properties of the code                                     *)
(* ===================================================================== *)

(** ** The guard *)

(** X1.  Without a logged-in session, or with the panel disabled, a guarded
    route does not run its handler: the answer is the redirect to the login
    page (403 when the panel is disabled), and the configuration file, the
    record of credentials and the session stay as they were. *)
Theorem guard_keeps_outsiders_out f w :
  logged_in w = false \/ panel_enabled w = false ->
  login_required f w =
    (Ok (if panel_enabled w then Redirect "admin.login" else disabled_response),
     after_load w) /\
  config_file (after_load w) = config_file w /\
  stored_credentials (after_load w) = stored_credentials w /\
  session (after_load w) = session w.
Proof.
  intros H. split; [|split; [|split]].
  - destruct (panel_enabled w) eqn:En.
    + destruct H as [L|E]; [|discriminate].
      apply (login_required_logged_out w f En L).
    + apply (login_required_disabled w f En).
  - apply after_load_config_file.
  - unfold after_load, stored_credentials.
    destruct (admin_file w) as [[why|d]|] eqn:E; cbn; rewrite ?E; reflexivity.
  - unfold after_load. destruct (admin_file w); reflexivity.
Qed.

Lemma guard_keeps_outsiders_out_witness :
  delete_server 0 sample_world = (Ok (Redirect "admin.login"), sample_world) /\
  roster_of sample_world = [nas_entry].
Proof.
  split; [|reflexivity].
  apply (guard_keeps_outsiders_out (delete_server_body 0) sample_world).
  left. reflexivity.
Defined.

(** ** Login, logout and the guard together *)

Lemma login_accepts_without_code w req :
  panel_enabled w = true -> method req = POST ->
  dict_lookup (stored_credentials w) "admin_username" =
    Some (JStr (form_str req "username" "")) ->
  dict_lookup (stored_credentials w) "admin_password_hash" =
    Some (JStr (hash_password (form_str req "password" ""))) ->
  totp_enabled w = false ->
  login req w =
  (Ok (Redirect "admin.dashboard"), set_session (mkSession (Some true) true) w).
Proof.
  intros En Hp Hu Hh H2. unfold login, bind.
  rewrite load_admin_config_eq, (enabled_panel_has_file w En).
  unfold panel_enabled in En. rewrite En. unfold is_post. rewrite Hp.
  cbn [negb]. unfold lift, dict_item, ret. rewrite Hu.
  cbn [str_eq]. rewrite String.eqb_refl. rewrite Hh.
  unfold verify_password. cbn [str_eq]. rewrite String.eqb_refl.
  unfold totp_enabled in H2. rewrite H2. reflexivity.
Qed.

Lemma login_rejects_wrong_hash w req h :
  panel_enabled w = true -> method req = POST ->
  dict_lookup (stored_credentials w) "admin_username" =
    Some (JStr (form_str req "username" "")) ->
  dict_lookup (stored_credentials w) "admin_password_hash" = Some (JStr h) ->
  hash_password (form_str req "password" "") <> h ->
  snd (login req w) = w.
Proof.
  intros En Hp Hu Hh Hn. unfold login, bind.
  rewrite load_admin_config_eq, (enabled_panel_has_file w En).
  unfold panel_enabled in En. rewrite En. unfold is_post. rewrite Hp.
  cbn [negb]. unfold lift, dict_item, ret. rewrite Hu.
  cbn [str_eq]. rewrite String.eqb_refl. rewrite Hh.
  unfold verify_password. cbn [str_eq].
  destruct (String.eqb_spec (hash_password (form_str req "password" "")) h);
    [contradiction|reflexivity].
Qed.

(** X2.  Once [login] has answered with the redirect to the dashboard, the
    guard lets every guarded handler run in the resulting session; after
    [logout] the guard sends the same browser back to the login page. *)
Theorem session_life_cycle w req f :
  panel_enabled w = true ->
  fst (login req w) = Ok (Redirect "admin.dashboard") ->
  let w1 := snd (login req w) in
  login_required f w1 = f w1 /\
  login_required f (snd (logout w1)) =
    (Ok (Redirect "admin.login"), snd (logout w1)).
Proof.
  intros En Hl w1.
  assert (Hw1 : w1 = set_session (mkSession (Some true) true) w).
  { subst w1. revert Hl. unfold login, bind.
    rewrite load_admin_config_eq, (enabled_panel_has_file w En).
    pose proof En as En'. unfold panel_enabled in En'. rewrite En'. cbn [negb].
    unfold lift, dict_item, ret, gets, login_success, modify, bind.
    destruct (is_post req); [|discriminate].
    destruct (dict_lookup _ "admin_username") as [u|]; [|discriminate].
    destruct (str_eq _ u).
    - destruct (dict_lookup _ "admin_password_hash") as [h|]; [|discriminate].
      destruct (verify_password _ h); [|discriminate].
      destruct (truthy (dict_get _ "2fa_enabled" _)); [|reflexivity].
      destruct (dict_lookup _ "2fa_secret") as [s|]; [|discriminate].
      destruct (totp_verify _ _ _) as [[|]|e]; [reflexivity|discriminate|discriminate].
    - discriminate. }
  assert (En1 : panel_enabled w1 = true) by (rewrite Hw1; exact En).
  split.
  - rewrite (login_required_passes w1 f En1) by now rewrite Hw1.
    now rewrite (enabled_panel_has_file w1 En1).
  - rewrite (login_required_logged_out (snd (logout w1)) f).
    + f_equal. apply enabled_panel_has_file. rewrite Hw1. exact En.
    + rewrite Hw1. exact En.
    + reflexivity.
Qed.

Lemma session_life_cycle_witness :
  login_required dashboard_body (snd (login good_login sample_world)) =
    dashboard_body (snd (login good_login sample_world)) /\
  login_required dashboard_body
    (snd (logout (snd (login good_login sample_world)))) =
    (Ok (Redirect "admin.login"),
     snd (logout (snd (login good_login sample_world)))).
Proof.
  apply (session_life_cycle sample_world good_login dashboard_body eq_refl).
  vm_compute. reflexivity.
Defined.

(** ** Changing the password *)

Lemma security_settings_admin lib req w :
  admin_request w ->
  security_settings lib req w =
  security_settings_with TOTP_AVAILABLE lib req w.
Proof.
  intros [En L]. unfold security_settings.
  now rewrite (login_required_passes w _ En L), (enabled_panel_has_file w En).
Qed.

Lemma stored_after_save w cfg :
  stored_credentials (set_admin_file (Some (Document cfg)) w) = cfg.
Proof. reflexivity. Qed.

(** X3.  The password form changes the stored hash exactly when the current
    password verifies, the new password equals its confirmation and has at
    least six characters; then the hash of the new password is stored.
    Otherwise the credentials file is not written.  In either case every
    other field of the record, the configuration file and the login state of
    the session are untouched, and the answer is the redirect to the
    settings page. *)
Theorem change_password_policy lib w req h :
  admin_request w -> method req = POST ->
  form_lookup (form req) "action" = Some "change_password" ->
  dict_lookup (stored_credentials w) "admin_password_hash" = Some h ->
  let w' := snd (security_settings lib req w) in
  fst (security_settings lib req w) = Ok (Redirect "admin.security_settings") /\
  (password_change_accepted w req = true ->
   dict_lookup (stored_credentials w') "admin_password_hash" =
     Some (JStr (hash_password (form_str req "new_password" "")))) /\
  (password_change_accepted w req = false -> admin_file w' = admin_file w) /\
  (forall k, k <> "admin_password_hash" ->
     dict_lookup (stored_credentials w') k = dict_lookup (stored_credentials w) k) /\
  config_file w' = config_file w /\ session w' = session w.
Proof.
  intros Ha Hp Hact Hh. cbv zeta.
  rewrite (security_settings_admin lib req w Ha).
  destruct Ha as [En L].
  unfold password_change_accepted, dict_get. rewrite Hh.
  unfold security_settings_with, bind.
  rewrite load_admin_config_eq, (enabled_panel_has_file w En).
  unfold is_post. rewrite Hp, Hact.
  cbn [option_eqb String.eqb Ascii.eqb Bool.eqb].
  unfold lift, dict_item. rewrite Hh.
  destruct (verify_password (form_str req "current_password" "") h);
    cbn [negb andb]; [|cbn; repeat split; auto; discriminate].
  destruct (String.eqb (form_str req "new_password" "")
                       (form_str req "confirm_password" ""));
    cbn [negb andb]; [|cbn; repeat split; auto; discriminate].
  rewrite Nat.leb_antisym.
  destruct (str_len (form_str req "new_password" "") <? 6)%nat;
    cbn [negb]; [cbn; repeat split; auto; discriminate|].
  cbn. repeat split; try discriminate.
  - intros _. apply dict_lookup_set_same.
  - intros k Hk. apply dict_lookup_set_other. congruence.
Qed.

Lemma change_password_policy_witness :
  dict_lookup
    (stored_credentials
       (snd (security_settings sample_libraries
               (change_password_request "hunter2" "s3cret!" "s3cret!")
               plain_admin_world)))
    "admin_password_hash" = Some (JStr (hash_password "s3cret!")) /\
  admin_file
    (snd (security_settings sample_libraries
            (change_password_request "hunter2" "short" "short")
            plain_admin_world)) = admin_file plain_admin_world.
Proof.
  split.
  - apply (proj1 (proj2
      (change_password_policy sample_libraries plain_admin_world
         (change_password_request "hunter2" "s3cret!" "s3cret!")
         (JStr "f52fbd32b2b3b86ff88ef6c490628285f482af15ddcb29541f94bcf526a3f6c7")
         (conj eq_refl eq_refl) eq_refl eq_refl eq_refl))).
    vm_compute. reflexivity.
  - apply (proj1 (proj2 (proj2
      (change_password_policy sample_libraries plain_admin_world
         (change_password_request "hunter2" "short" "short")
         (JStr "f52fbd32b2b3b86ff88ef6c490628285f482af15ddcb29541f94bcf526a3f6c7")
         (conj eq_refl eq_refl) eq_refl eq_refl eq_refl)))).
    vm_compute. reflexivity.
Defined.

(** [len] counts characters, not bytes: three umlauts are too short a
    password, six of them are long enough. *)
Example password_length_counts_characters :
  let short := utf8 [195; 164; 195; 182; 195; 188] in
  let long := (short ++ short)%string in
  str_len short = 3%nat /\ String.length short = 6%nat /\
  password_change_accepted plain_admin_world
    (change_password_request "hunter2" short short) = false /\
  password_change_accepted plain_admin_world
    (change_password_request "hunter2" long long) = true.
Proof. vm_compute. repeat split. Qed.

Lemma accepted_change_record lib w req h :
  admin_request w -> method req = POST ->
  form_lookup (form req) "action" = Some "change_password" ->
  dict_lookup (stored_credentials w) "admin_password_hash" = Some h ->
  password_change_accepted w req = true ->
  stored_credentials (snd (security_settings lib req w)) =
  dict_set (stored_credentials w) "admin_password_hash"
           (JStr (hash_password (form_str req "new_password" ""))).
Proof.
  intros Ha Hp Hact Hh.
  rewrite (security_settings_admin lib req w Ha).
  destruct Ha as [En L].
  unfold password_change_accepted, dict_get. rewrite Hh.
  unfold security_settings_with, bind.
  rewrite load_admin_config_eq, (enabled_panel_has_file w En).
  unfold is_post. rewrite Hp, Hact.
  cbn [option_eqb String.eqb Ascii.eqb Bool.eqb].
  unfold lift, dict_item. rewrite Hh.
  destruct (verify_password (form_str req "current_password" "") h);
    cbn [negb andb]; [|discriminate].
  destruct (String.eqb (form_str req "new_password" "")
                       (form_str req "confirm_password" ""));
    cbn [negb andb]; [|discriminate].
  rewrite Nat.leb_antisym.
  destruct (str_len (form_str req "new_password" "") <? 6)%nat;
    cbn [negb]; [discriminate|].
  reflexivity.
Qed.

(** X4.  After an accepted change, with the second factor off, another
    browser logs in with the user name and the new password; the old
    password is refused as soon as its hash differs from the new one. *)
Theorem new_password_opens_the_panel lib w req username old :
  admin_request w -> method req = POST ->
  form_lookup (form req) "action" = Some "change_password" ->
  dict_lookup (stored_credentials w) "admin_password_hash" =
    Some (JStr (hash_password old)) ->
  dict_lookup (stored_credentials w) "admin_username" = Some (JStr username) ->
  totp_enabled w = false ->
  password_change_accepted w req = true ->
  let new := form_str req "new_password" "" in
  let w' := as_visitor (snd (security_settings lib req w)) in
  auth_state_of (snd (login (login_request username new "") w')) = LoggedIn /\
  (hash_password old <> hash_password new ->
   auth_state_of (snd (login (login_request username old "") w')) = LoggedOut).
Proof.
  intros Ha Hp Hact Hh Hu H2 Hacc. cbv zeta.
  pose proof (accepted_change_record lib w req _ Ha Hp Hact Hh Hacc) as Hrec.
  set (w1 := snd (security_settings lib req w)) in *.
  assert (Hnew : dict_lookup (stored_credentials w1) "admin_password_hash" =
                 Some (JStr (hash_password (form_str req "new_password" ""))))
    by (rewrite Hrec; apply dict_lookup_set_same).
  assert (Hother : forall k, k <> "admin_password_hash" ->
            dict_lookup (stored_credentials w1) k =
            dict_lookup (stored_credentials w) k)
    by (intros k Hk; rewrite Hrec; apply dict_lookup_set_other; congruence).
  assert (Hu1 : dict_lookup (stored_credentials (as_visitor w1)) "admin_username"
                = Some (JStr username)).
  { change (stored_credentials (as_visitor w1)) with (stored_credentials w1).
    rewrite Hother by discriminate. exact Hu. }
  assert (En1 : panel_enabled (as_visitor w1) = true).
  { unfold panel_enabled, dict_get.
    change (stored_credentials (as_visitor w1)) with (stored_credentials w1).
    rewrite Hother by discriminate. apply Ha. }
  assert (T1 : totp_enabled (as_visitor w1) = false).
  { unfold totp_enabled, dict_get.
    change (stored_credentials (as_visitor w1)) with (stored_credentials w1).
    rewrite Hother by discriminate. exact H2. }
  split.
  - rewrite (login_accepts_without_code (as_visitor w1)); auto.
  - intros Hn.
    rewrite (login_rejects_wrong_hash (as_visitor w1) _
               (hash_password (form_str req "new_password" ""))); auto.
Qed.

Lemma new_password_opens_the_panel_witness :
  let w' := as_visitor
              (snd (security_settings sample_libraries
                      (change_password_request "hunter2" "s3cret!" "s3cret!")
                      plain_admin_world)) in
  auth_state_of (snd (login (login_request "admin" "s3cret!" "") w')) = LoggedIn /\
  auth_state_of (snd (login (login_request "admin" "hunter2" "") w')) = LoggedOut.
Proof.
  cbv zeta.
  assert (Hacc : password_change_accepted plain_admin_world
                   (change_password_request "hunter2" "s3cret!" "s3cret!") = true)
    by (vm_compute; reflexivity).
  assert (Hh : dict_lookup (stored_credentials plain_admin_world)
                 "admin_password_hash" = Some (JStr (hash_password "hunter2")))
    by (vm_compute; reflexivity).
  destruct (new_password_opens_the_panel sample_libraries plain_admin_world
              (change_password_request "hunter2" "s3cret!" "s3cret!")
              "admin" "hunter2" (conj eq_refl eq_refl) eq_refl eq_refl Hh
              eq_refl eq_refl Hacc) as [H1 H2].
  split; [exact H1|]. apply H2. vm_compute. discriminate.
Defined.

(** ** Switching the second factor off and on *)

(** X5.  The form that switches the second factor off does so only when the
    submitted password verifies against the stored hash: then the flag is
    cleared and the secret is emptied.  With a wrong password the
    credentials file is not written.  No other field is ever changed. *)
Theorem disable_2fa_needs_password lib w req h :
  admin_request w -> method req = POST ->
  form_lookup (form req) "action" = Some "disable_2fa" ->
  dict_lookup (stored_credentials w) "admin_password_hash" = Some h ->
  let w' := snd (security_settings lib req w) in
  (disable_2fa_accepted w req = true ->
   totp_enabled w' = false /\ totp_secret w' = Some (JStr "")) /\
  (disable_2fa_accepted w req = false -> admin_file w' = admin_file w) /\
  (forall k, k <> "2fa_enabled" -> k <> "2fa_secret" ->
     dict_lookup (stored_credentials w') k = dict_lookup (stored_credentials w) k).
Proof.
  intros Ha Hp Hact Hh. cbv zeta.
  rewrite (security_settings_admin lib req w Ha).
  destruct Ha as [En L].
  unfold disable_2fa_accepted, dict_get. rewrite Hh.
  unfold security_settings_with, bind.
  rewrite load_admin_config_eq, (enabled_panel_has_file w En).
  unfold is_post. rewrite Hp, Hact.
  cbn [option_eqb String.eqb Ascii.eqb Bool.eqb].
  unfold lift, dict_item. rewrite Hh.
  destruct (verify_password (form_str req "password" "") h).
  - cbn. repeat split; try discriminate.
    + unfold totp_enabled, dict_get. cbn.
      rewrite dict_lookup_set_other by discriminate.
      now rewrite dict_lookup_set_same.
    + unfold totp_secret. cbn. apply dict_lookup_set_same.
    + intros k K1 K2.
      rewrite !dict_lookup_set_other by congruence. reflexivity.
  - cbn. repeat split; auto; discriminate.
Qed.

Lemma disable_2fa_needs_password_witness :
  totp_enabled (snd (security_settings sample_libraries
                       (disable_2fa_request "hunter2") sample_admin_world)) = false /\
  admin_file (snd (security_settings sample_libraries
                     (disable_2fa_request "hunter3") sample_admin_world)) =
    admin_file sample_admin_world.
Proof.
  split.
  - apply (proj1 (disable_2fa_needs_password sample_libraries sample_admin_world
             (disable_2fa_request "hunter2")
             (JStr "f52fbd32b2b3b86ff88ef6c490628285f482af15ddcb29541f94bcf526a3f6c7")
             (conj eq_refl eq_refl) eq_refl eq_refl eq_refl)).
    vm_compute. reflexivity.
  - apply (proj1 (proj2 (disable_2fa_needs_password sample_libraries
             sample_admin_world (disable_2fa_request "hunter3")
             (JStr "f52fbd32b2b3b86ff88ef6c490628285f482af15ddcb29541f94bcf526a3f6c7")
             (conj eq_refl eq_refl) eq_refl eq_refl eq_refl))).
    vm_compute. reflexivity.
Defined.

(** X6.  A verification request of the administrator leaves the second
    factor on if and only if it was on already or the submitted code is the
    one of the stored secret for the current 30-second step or a
    neighbouring one; the stored secret is never changed by it.  (Clock of
    at least 30 s, so that the previous step exists; the submitted code is
    ASCII text, on which the NFKC normalisation of pyotp's comparison is the
    identity.) *)
Theorem verify_2fa_turns_on_in_window lib w req secret :
  admin_request w -> method req = POST ->
  form_lookup (form req) "action" = Some "verify_2fa" ->
  totp_secret w = Some (JStr secret) ->
  30 <= clock w ->
  is_ascii (form_str req "totp_code" "") = true ->
  let w' := snd (security_settings lib req w) in
  (totp_enabled w' = true <->
   totp_enabled w = true \/
   code_in_window secret (form_str req "totp_code" "") (clock w)) /\
  totp_secret w' = Some (JStr secret).
Proof.
  intros Ha Hp Hact Hs Hc Hascii. cbv zeta.
  rewrite (security_settings_admin lib req w Ha).
  destruct Ha as [En L].
  split; [apply (verify_2fa_window _ lib w req secret En Hp Hact Hs Hc Hascii)|].
  destruct (verify_2fa_outcome TOTP_AVAILABLE lib w req (JStr secret) En Hp Hact Hs)
    as [Hy Hn].
  destruct (totp_verify (JStr secret) (form_str req "totp_code" "") (clock w))
    as [[|]|e] eqn:Ev.
  - now apply Hy.
  - unfold totp_secret, stored_credentials in *. rewrite Hn by discriminate. exact Hs.
  - unfold totp_secret, stored_credentials in *. rewrite Hn by discriminate. exact Hs.
Qed.

Lemma verify_2fa_turns_on_in_window_witness :
  totp_enabled (snd (security_settings sample_libraries
                       (verify_2fa_request "367665") pending_world)) = true /\
  ~ totp_enabled (snd (security_settings sample_libraries
                       (verify_2fa_request "968785") pending_world)) = true.
Proof.
  assert (Hc : 30 <= clock pending_world) by (cbn; lia).
  split.
  - apply (proj1 (verify_2fa_turns_on_in_window sample_libraries pending_world
             (verify_2fa_request "367665") "JBSWY3DPEHPK3PXP"
             (conj eq_refl eq_refl) eq_refl eq_refl eq_refl Hc eq_refl)).
    right. exists (pyotp.timecode 1700000000 + 1).
    split; [cbn; lia | vm_compute; reflexivity].
  - intros H.
    clear Hc. vm_compute in H. discriminate H.
Defined.

(** ** The roster: what the three operations do to it *)

Lemma guarded_config_file f w :
  (forall w0, config_file (snd (f w0)) = config_file w0 \/ roster_saved (fst (f w0))) ->
  config_file (snd (login_required f w)) = config_file w \/
  roster_saved (fst (login_required f w)).
Proof.
  intros Hf.
  destruct (panel_enabled w) eqn:En; [destruct (logged_in w) eqn:L|].
  - rewrite (login_required_passes w f En L).
    destruct (Hf (after_load w)) as [H|H]; [left|now right].
    now rewrite H, after_load_config_file.
  - left. rewrite (login_required_logged_out w f En L). apply after_load_config_file.
  - left. rewrite (login_required_disabled w f En). apply after_load_config_file.
Qed.

Ltac split_handler :=
  repeat match goal with
         | |- context [match ?x with _ => _ end] =>
             match type of x with
             | sumbool _ _ => fail 1
             | _ => destruct x eqn:?
             end
         end.

Lemma read_config_world w : exists r, read_config w = (r, w).
Proof.
  unfold read_config, bind, gets, ret, raise.
  destruct (config_file w) as [[why|d]|]; eauto.
Qed.

Lemma add_server_body_atomic req w :
  config_file (snd (add_server_body req w)) = config_file w \/
  roster_saved (fst (add_server_body req w)).
Proof.
  unfold add_server_body.
  destruct (is_post req); [|left; reflexivity].
  unfold bind.
  destruct (read_config_world w) as (r & ->).
  unfold write_config, gets, lift, ret, raise, modify, roster_saved.
  split_handler; cbn; auto.
Qed.

Lemma edit_server_body_atomic server_id req w :
  config_file (snd (edit_server_body server_id req w)) = config_file w \/
  roster_saved (fst (edit_server_body server_id req w)).
Proof.
  unfold edit_server_body, bind.
  destruct (read_config_world w) as (r & ->).
  unfold write_config, gets, lift, ret, raise, modify, roster_saved.
  split_handler; cbn; auto.
Qed.

Lemma delete_server_body_atomic server_id w :
  config_file (snd (delete_server_body server_id w)) = config_file w \/
  roster_saved (fst (delete_server_body server_id w)).
Proof.
  unfold delete_server_body, bind.
  destruct (read_config_world w) as (r & ->).
  unfold write_config, gets, lift, ret, raise, modify, roster_saved.
  split_handler; cbn; auto.
Qed.

(** X7.  The three roster routes write the configuration file only when
    they go through: whenever the answer is not the redirect to the
    dashboard (a refusal by the guard, a 404, a form page, or an exception
    such as a wait that is no integer, a missing file or a missing key), the
    file is exactly as before. *)
Theorem roster_written_only_on_success w server_id req :
  (~ roster_saved (fst (add_server req w)) ->
   config_file (snd (add_server req w)) = config_file w) /\
  (~ roster_saved (fst (edit_server server_id req w)) ->
   config_file (snd (edit_server server_id req w)) = config_file w) /\
  (~ roster_saved (fst (delete_server server_id w)) ->
   config_file (snd (delete_server server_id w)) = config_file w).
Proof.
  unfold add_server, edit_server, delete_server.
  split; [|split]; intros Hn.
  - destruct (guarded_config_file (add_server_body req) w
                (add_server_body_atomic req)); tauto.
  - destruct (guarded_config_file (edit_server_body server_id req) w
                (edit_server_body_atomic server_id req)); tauto.
  - destruct (guarded_config_file (delete_server_body server_id) w
                (delete_server_body_atomic server_id)); tauto.
Qed.

Lemma roster_written_only_on_success_witness :
  config_file (snd (add_server (post [("mac", "00:11:22:33:44:55");
                                      ("wait_time", "soon")])
                               sample_admin_world)) =
  config_file sample_admin_world.
Proof.
  apply (proj1 (roster_written_only_on_success sample_admin_world 0
                  (post [("mac", "00:11:22:33:44:55"); ("wait_time", "soon")]))).
  unfold roster_saved. vm_compute. discriminate.
Defined.

Lemma server_from_form_fields req entry :
  server_from_form req = Ok entry ->
  exists wait,
    py_int (form_get req "wait_time" (JInt 60)) = Ok wait /\
    entry = JDict [("NAME", JStr (strip (form_str req "name" "")));
                   ("WOL_MAC_ADDRESS", JStr (strip (form_str req "mac" "")));
                   ("BROADCAST_ADDRESS",
                    JStr (strip (form_str req "broadcast" "255.255.255.255")));
                   ("SITE_URL", JStr (strip (form_str req "url" "")));
                   ("WAIT_TIME_SECONDS", JInt wait)].
Proof.
  unfold server_from_form.
  destruct (py_int (form_get req "wait_time" (JInt 60))) as [n|e];
    cbn [rbind]; [|discriminate].
  intros H. inversion H. eauto.
Qed.

Lemma roster_of_set w config l :
  config_file w = Some (Document (dict_set config "SERVERS" (JList l))) ->
  roster_of w = l.
Proof.
  intros H. unfold roster_of, dict_get. rewrite H.
  now rewrite dict_lookup_set_same.
Qed.

Lemma config_value_set w w' config v k :
  config_file w = Some (Document config) ->
  config_file w' = Some (Document (dict_set config "SERVERS" v)) ->
  k <> "SERVERS" -> config_value w' k = config_value w k.
Proof.
  intros H H' N. unfold config_value. rewrite H, H'.
  apply dict_lookup_set_other. congruence.
Qed.

(** X8.  An accepted [add_server] puts the submitted entry (texts trimmed,
    wait converted by [int]) at the end of the roster; the entries already
    there, every other key of the configuration file and the credentials
    file stay as they were.  The submitted texts are ASCII. *)
Theorem add_server_appends w req wait servers :
  admin_request w -> method req = POST ->
  ascii_fields req ->
  config_value w "SERVERS" = Some (JList servers) ->
  py_int (form_get req "wait_time" (JInt 60)) = Ok wait ->
  let w' := snd (add_server req w) in
  let entry :=
    JDict [("NAME", JStr (strip (form_str req "name" "")));
           ("WOL_MAC_ADDRESS", JStr (strip (form_str req "mac" "")));
           ("BROADCAST_ADDRESS",
            JStr (strip (form_str req "broadcast" "255.255.255.255")));
           ("SITE_URL", JStr (strip (form_str req "url" "")));
           ("WAIT_TIME_SECONDS", JInt wait)] in
  fst (add_server req w) = Ok (Redirect "admin.dashboard") /\
  roster_of w' = servers ++ [entry] /\
  (forall k, k <> "SERVERS" -> config_value w' k = config_value w k) /\
  admin_file w' = admin_file w.
Proof.
  intros [En L] Hp _ Hs Hw. cbv zeta.
  unfold config_value in Hs.
  destruct (config_file w) as [[why|config]|] eqn:Hc; try discriminate.
  assert (He : server_from_form req = Ok
            (JDict [("NAME", JStr (strip (form_str req "name" "")));
                    ("WOL_MAC_ADDRESS", JStr (strip (form_str req "mac" "")));
                    ("BROADCAST_ADDRESS",
                     JStr (strip (form_str req "broadcast" "255.255.255.255")));
                    ("SITE_URL", JStr (strip (form_str req "url" "")));
                    ("WAIT_TIME_SECONDS", JInt wait)])).
  { unfold server_from_form. rewrite Hw. reflexivity. }
  pose proof (add_server_stores_form w config servers req _ En L Hp Hc Hs He) as Hf.
  split; [|split; [|split]].
  - unfold add_server.
    rewrite (login_required_passes w _ En L), (enabled_panel_has_file w En).
    unfold add_server_body, is_post. rewrite Hp.
    unfold read_config, bind, gets. rewrite Hc. unfold ret, lift. rewrite He.
    unfold dict_item. rewrite Hs. reflexivity.
  - apply (roster_of_set _ config). exact Hf.
  - intros k Hk. apply (config_value_set w _ config _ k Hc Hf Hk).
  - unfold add_server.
    rewrite (login_required_passes w _ En L), (enabled_panel_has_file w En).
    unfold add_server_body, is_post. rewrite Hp.
    unfold read_config, bind, gets. rewrite Hc. unfold ret, lift. rewrite He.
    unfold dict_item. rewrite Hs. reflexivity.
Qed.

Lemma add_server_appends_witness :
  roster_of (snd (add_server careless_form sample_admin_world)) =
  [nas_entry; careless_entry].
Proof.
  apply (proj1 (proj2 (add_server_appends sample_admin_world careless_form 0
                         [nas_entry] (conj eq_refl eq_refl) eq_refl
                         (conj eq_refl (conj eq_refl (conj eq_refl eq_refl)))
                         eq_refl eq_refl))).
Defined.

Lemma nth_error_replace {A} (l : list A) i x j :
  (i < List.length l)%nat ->
  nth_error (firstn i l ++ x :: skipn (S i) l) j =
  if Nat.eqb j i then Some x else nth_error l j.
Proof.
  revert i j. induction l as [|a l IH]; intros i j Hi; [cbn in Hi; lia|].
  destruct i as [|i]; destruct j as [|j]; cbn; try reflexivity.
  apply IH. cbn in Hi. lia.
Qed.

Lemma length_replace {A} (l : list A) i x :
  (i < List.length l)%nat ->
  List.length (firstn i l ++ x :: skipn (S i) l) = List.length l.
Proof.
  revert i. induction l as [|a l IH]; intros i Hi; [cbn in Hi; lia|].
  destruct i as [|i]; cbn; [reflexivity|]. f_equal. apply IH. cbn in Hi. lia.
Qed.

Lemma nth_error_remove {A} (l : list A) i j :
  nth_error (firstn i l ++ skipn (S i) l) j =
  if (j <? i)%nat then nth_error l j else nth_error l (S j).
Proof.
  revert i j. induction l as [|a l IH]; intros i j.
  - rewrite firstn_nil, skipn_nil. cbn [app].
    destruct (j <? i)%nat; destruct j; reflexivity.
  - destruct i as [|i]; destruct j as [|j]; cbn [firstn skipn app nth_error];
      try reflexivity.
    rewrite IH. reflexivity.
Qed.

Lemma length_remove {A} (l : list A) i :
  (i < List.length l)%nat ->
  S (List.length (firstn i l ++ skipn (S i) l)) = List.length l.
Proof.
  revert i. induction l as [|a l IH]; intros i Hi; [cbn in Hi; lia|].
  destruct i as [|i]; cbn; [reflexivity|]. f_equal. apply IH. cbn in Hi. lia.
Qed.

Lemma in_range_test (servers : list json) server_id :
  0 <= server_id < Z.of_nat (List.length servers) ->
  (server_id <? 0) || (server_id >=? Z.of_nat (List.length servers)) = false.
Proof.
  intros H. apply orb_false_iff. split; [apply Z.ltb_ge; lia|].
  rewrite Z.geb_leb. apply Z.leb_gt. lia.
Qed.

(** X9.  An accepted [edit_server] with an index in range replaces the entry
    at that index by the submitted one (texts trimmed, wait converted by
    [int]) and nothing else: the roster keeps its length, every other entry
    and every other key of the file.  The submitted texts are ASCII. *)
Theorem edit_server_replaces_one w req wait servers server_id :
  admin_request w -> method req = POST ->
  ascii_fields req ->
  config_value w "SERVERS" = Some (JList servers) ->
  0 <= server_id < Z.of_nat (List.length servers) ->
  py_int (form_get req "wait_time" (JInt 60)) = Ok wait ->
  let w' := snd (edit_server server_id req w) in
  let entry :=
    JDict [("NAME", JStr (strip (form_str req "name" "")));
           ("WOL_MAC_ADDRESS", JStr (strip (form_str req "mac" "")));
           ("BROADCAST_ADDRESS",
            JStr (strip (form_str req "broadcast" "255.255.255.255")));
           ("SITE_URL", JStr (strip (form_str req "url" "")));
           ("WAIT_TIME_SECONDS", JInt wait)] in
  List.length (roster_of w') = List.length servers /\
  nth_error (roster_of w') (Z.to_nat server_id) = Some entry /\
  (forall j, j <> Z.to_nat server_id ->
     nth_error (roster_of w') j = nth_error servers j) /\
  (forall k, k <> "SERVERS" -> config_value w' k = config_value w k).
Proof.
  intros [En L] Hp _ Hs Hr Hw. cbv zeta.
  unfold config_value in Hs.
  destruct (config_file w) as [[why|config]|] eqn:Hc; try discriminate.
  assert (He : server_from_form req = Ok
            (JDict [("NAME", JStr (strip (form_str req "name" "")));
                    ("WOL_MAC_ADDRESS", JStr (strip (form_str req "mac" "")));
                    ("BROADCAST_ADDRESS",
                     JStr (strip (form_str req "broadcast" "255.255.255.255")));
                    ("SITE_URL", JStr (strip (form_str req "url" "")));
                    ("WAIT_TIME_SECONDS", JInt wait)])).
  { unfold server_from_form. rewrite Hw. reflexivity. }
  pose proof (edit_server_stores_form w config servers server_id req _
                En L Hp Hc Hs Hr He) as Hf.
  assert (Hi : (Z.to_nat server_id < List.length servers)%nat) by lia.
  rewrite (roster_of_set _ config _ Hf).
  split; [apply length_replace, Hi|].
  split; [rewrite nth_error_replace, Nat.eqb_refl by exact Hi; reflexivity|].
  split.
  - intros j Hj. rewrite nth_error_replace by exact Hi.
    destruct (Nat.eqb_spec j (Z.to_nat server_id)); [contradiction|reflexivity].
  - intros k Hk. apply (config_value_set w _ config _ k Hc Hf Hk).
Qed.

Lemma edit_server_replaces_one_witness :
  nth_error (roster_of (snd (edit_server 0 careless_form sample_admin_world))) 0 =
  Some careless_entry.
Proof.
  assert (R : 0 <= 0 < Z.of_nat (List.length [nas_entry])) by (cbn; lia).
  apply (proj1 (proj2 (edit_server_replaces_one sample_admin_world careless_form
                         0 [nas_entry] 0 (conj eq_refl eq_refl) eq_refl
                         (conj eq_refl (conj eq_refl (conj eq_refl eq_refl)))
                         eq_refl R eq_refl))).
Defined.

(** X10.  [delete_server] with an index in range, on an entry that has a
    name, removes that entry: the roster is one shorter, the entries before
    the index keep their place, the entries after it move down by one, and
    the other keys of the file are kept. *)
Theorem delete_server_removes_one w servers server_id entry name :
  admin_request w ->
  config_value w "SERVERS" = Some (JList servers) ->
  nth_error servers (Z.to_nat server_id) = Some (JDict entry) ->
  0 <= server_id ->
  dict_lookup entry "NAME" = Some name ->
  let w' := snd (delete_server server_id w) in
  fst (delete_server server_id w) = Ok (Redirect "admin.dashboard") /\
  S (List.length (roster_of w')) = List.length servers /\
  (forall j, (j < Z.to_nat server_id)%nat ->
     nth_error (roster_of w') j = nth_error servers j) /\
  (forall j, (Z.to_nat server_id <= j)%nat ->
     nth_error (roster_of w') j = nth_error servers (S j)) /\
  (forall k, k <> "SERVERS" -> config_value w' k = config_value w k).
Proof.
  intros [En L] Hs Hn H0 Hname. cbv zeta.
  unfold config_value in Hs.
  destruct (config_file w) as [[why|config]|] eqn:Hc; try discriminate.
  assert (Hi : (Z.to_nat server_id < List.length servers)%nat).
  { apply nth_error_Some. congruence. }
  assert (Hrun : delete_server server_id w =
            (Ok (Redirect "admin.dashboard"),
             add_flash ("Server " ++ dq ++ py_str name ++ dq
                          ++ " deleted successfully!" ++ restart_note)%string
                       "success"
               (set_config_file
                  (Some (Document (dict_set config "SERVERS"
                     (JList (firstn (Z.to_nat server_id) servers ++
                             skipn (S (Z.to_nat server_id)) servers))))) w))).
  { unfold delete_server.
    rewrite (login_required_passes w _ En L), (enabled_panel_has_file w En).
    unfold delete_server_body, read_config, bind, gets. rewrite Hc.
    unfold ret, lift, dict_get. rewrite Hs. cbn [py_len].
    rewrite in_range_test by lia.
    cbn [get_item]. rewrite Hn. cbn [subscript]. unfold dict_item.
    rewrite Hname. reflexivity. }
  rewrite Hrun. cbn [fst snd].
  assert (Hf : config_file
            (add_flash ("Server " ++ dq ++ py_str name ++ dq
                          ++ " deleted successfully!" ++ restart_note)%string
                       "success"
               (set_config_file
                  (Some (Document (dict_set config "SERVERS"
                     (JList (firstn (Z.to_nat server_id) servers ++
                             skipn (S (Z.to_nat server_id)) servers))))) w)) =
            Some (Document (dict_set config "SERVERS"
                     (JList (firstn (Z.to_nat server_id) servers ++
                             skipn (S (Z.to_nat server_id)) servers)))))
    by reflexivity.
  rewrite (roster_of_set _ config _ Hf).
  split; [reflexivity|].
  split; [apply length_remove, Hi|].
  split; [|split].
  - intros j Hj. rewrite nth_error_remove.
    destruct (Nat.ltb_spec j (Z.to_nat server_id)); [reflexivity|lia].
  - intros j Hj. rewrite nth_error_remove.
    destruct (Nat.ltb_spec j (Z.to_nat server_id)); [lia|reflexivity].
  - intros k Hk. apply (config_value_set w _ config _ k Hc Hf Hk).
Qed.

Lemma delete_server_removes_one_witness :
  fst (delete_server 0 sample_admin_world) = Ok (Redirect "admin.dashboard") /\
  S (List.length (roster_of (snd (delete_server 0 sample_admin_world)))) = 1%nat.
Proof.
  assert (R : 0 <= 0) by lia.
  destruct (delete_server_removes_one sample_admin_world [nas_entry] 0
              [("NAME", JStr "NAS");
               ("WOL_MAC_ADDRESS", JStr "00:11:22:33:44:55");
               ("BROADCAST_ADDRESS", JStr "255.255.255.255");
               ("SITE_URL", JStr "http://nas.local");
               ("WAIT_TIME_SECONDS", JInt 30)]
              (JStr "NAS") (conj eq_refl eq_refl) eq_refl eq_refl R eq_refl)
    as (H1 & H2 & _).
  split; [exact H1|exact H2].
Defined.

(** X11.  A roster entry without a ["NAME"] key cannot be deleted: the
    handler reads the name before it removes the entry, so the request
    raises [KeyError] and the world is unchanged. *)
Lemma nameless_entry_stays w servers server_id entry :
  admin_request w ->
  config_value w "SERVERS" = Some (JList servers) ->
  nth_error servers (Z.to_nat server_id) = Some (JDict entry) ->
  0 <= server_id ->
  dict_lookup entry "NAME" = None ->
  delete_server server_id w = (Raise (KeyError "NAME"), w).
Proof.
  intros [En L] Hs Hn H0 Hname.
  unfold config_value in Hs.
  destruct (config_file w) as [[why|config]|] eqn:Hc; try discriminate.
  assert (Hi : (Z.to_nat server_id < List.length servers)%nat).
  { apply nth_error_Some. congruence. }
  unfold delete_server.
  rewrite (login_required_passes w _ En L), (enabled_panel_has_file w En).
  unfold delete_server_body, read_config, bind, gets. rewrite Hc.
  unfold ret, lift, dict_get. rewrite Hs. cbn [py_len].
  rewrite in_range_test by lia.
  cbn [get_item]. rewrite Hn. cbn [subscript]. unfold dict_item.
  rewrite Hname. reflexivity.
Qed.

Lemma nameless_entry_stays_witness :
  delete_server 0 nameless_world = (Raise (KeyError "NAME"), nameless_world).
Proof.
  assert (R : 0 <= 0) by lia.
  apply (nameless_entry_stays nameless_world
           [JDict [("WOL_MAC_ADDRESS", JStr "00:11:22:33:44:55")]] 0
           [("WOL_MAC_ADDRESS", JStr "00:11:22:33:44:55")]
           (conj eq_refl eq_refl) eq_refl eq_refl R eq_refl).
Defined.

(** ** Trimming *)

Lemma lstrip_with_clean p cs : starts_clean p (lstrip_with p cs).
Proof.
  induction cs as [|c t IH]; cbn; [exact I|].
  destruct (p c) eqn:E; [exact IH|exact E].
Qed.

Lemma lstrip_with_fixed p cs : starts_clean p cs -> lstrip_with p cs = cs.
Proof.
  destruct cs as [|c t]; cbn; [reflexivity|]. now intros ->.
Qed.

Lemma lstrip_with_suffix p cs : exists pre, cs = pre ++ lstrip_with p cs.
Proof.
  induction cs as [|c t (pre & IH)]; cbn; [now exists []|].
  destruct (p c).
  - exists (c :: pre). cbn. now f_equal.
  - now exists [].
Qed.

Lemma rstrip_with_prefix p cs : exists post, cs = rstrip_with p cs ++ post.
Proof.
  unfold rstrip_with.
  destruct (lstrip_with_suffix p (rev cs)) as (pre & H).
  exists (rev pre). rewrite <- rev_app_distr, <- H. now rewrite rev_involutive.
Qed.

Lemma rstrip_with_clean p cs : starts_clean p (rev (rstrip_with p cs)).
Proof.
  unfold rstrip_with. rewrite rev_involutive. apply lstrip_with_clean.
Qed.

Lemma rstrip_with_fixed p cs :
  starts_clean p (rev cs) -> rstrip_with p cs = cs.
Proof.
  intros H. unfold rstrip_with. rewrite (lstrip_with_fixed p _ H).
  apply rev_involutive.
Qed.

Lemma prefix_starts_clean p (a b post : list ascii) :
  a = b ++ post -> starts_clean p a -> starts_clean p b.
Proof.
  intros -> H. destruct b; [exact I|exact H].
Qed.

(** The trimmed text starts and ends with a character that is not trimmed. *)
Lemma strip_with_clean p s :
  let cs := list_ascii_of_string (strip_with p s) in
  starts_clean p cs /\ starts_clean p (rev cs).
Proof.
  cbv zeta. unfold strip_with. rewrite list_ascii_of_string_of_list_ascii.
  split; [|apply rstrip_with_clean].
  destruct (rstrip_with_prefix p (lstrip_with p (list_ascii_of_string s)))
    as (post & H).
  apply (prefix_starts_clean p _ _ post H), lstrip_with_clean.
Qed.

Lemma strip_with_fixed p s :
  starts_clean p (list_ascii_of_string s) ->
  starts_clean p (rev (list_ascii_of_string s)) ->
  strip_with p s = s.
Proof.
  intros H1 H2. unfold strip_with.
  rewrite (lstrip_with_fixed p _ H1), (rstrip_with_fixed p _ H2).
  apply string_of_list_ascii_of_string.
Qed.

Lemma strip_idempotent s : strip (strip s) = strip s.
Proof.
  unfold strip. destruct (strip_with_clean is_space s) as [H1 H2].
  now apply strip_with_fixed.
Qed.

Lemma strip_never_ends_with_newline s : ends_with_newline (strip s) = false.
Proof.
  unfold ends_with_newline, strip.
  destruct (strip_with_clean is_space s) as [_ H].
  destruct (rev (list_ascii_of_string (strip_with is_space s))) as [|c t];
    [reflexivity|].
  cbn in H. destruct (Ascii.eqb_spec c newline) as [->|]; [|reflexivity].
  discriminate H.
Qed.

(** ** The configuration dialogue of the set-up script *)

Lemma prompt_mac_answer default_mac lines mac rest :
  prompt_mac default_mac lines = Some (mac, rest) ->
  (mac = default_mac /\ truthy default_mac = true) \/
  (exists s, mac = JStr s /\ mac_groups false s = true /\ strip s = s).
Proof.
  induction lines as [|line t IH]; cbn [prompt_mac]; [discriminate|].
  destruct (is_empty (strip line) && truthy default_mac) eqn:E.
  - intros H. inversion H; subst. left. split; [reflexivity|].
    now apply andb_true_iff in E.
  - destruct (validate_mac (strip line)) eqn:V; [|exact IH].
    intros H. inversion H; subst. right. exists (strip line).
    split; [reflexivity|]. split; [|apply strip_idempotent].
    apply accepted_groups; [exact V|apply strip_never_ends_with_newline].
Qed.

Lemma prompt_broadcast_answer d lines b rest :
  prompt_broadcast d lines = Some (b, rest) ->
  (b = d /\ truthy d = true) \/
  (exists s, b = JStr s /\ s <> "" /\ strip s = s).
Proof.
  destruct lines as [|line t]; cbn [prompt_broadcast]; [discriminate|].
  destruct (is_empty (strip line) && truthy d) eqn:E.
  - intros H. inversion H; subst. left. split; [reflexivity|].
    now apply andb_true_iff in E.
  - destruct (is_empty (strip line)) eqn:Em; cbn [negb];
      intros H; inversion H; subst; right.
    + exists "255.255.255.255". repeat split. discriminate.
    + exists (strip line). split; [reflexivity|].
      split; [now apply is_empty_false|apply strip_idempotent].
Qed.

Lemma prompt_url_answer d lines u rest :
  prompt_url d lines = Some (u, rest) ->
  (u = d /\ truthy d = true) \/
  (exists s, u = JStr s /\ s <> "" /\ strip s = s).
Proof.
  induction lines as [|line t IH]; cbn [prompt_url]; [discriminate|].
  destruct (is_empty (strip line) && truthy d) eqn:E.
  - intros H. inversion H; subst. left. split; [reflexivity|].
    now apply andb_true_iff in E.
  - destruct (is_empty (strip line)) eqn:Em; cbn [negb]; [exact IH|].
    intros H; inversion H; subst; right.
    exists (strip line). split; [reflexivity|].
    split; [now apply is_empty_false|apply strip_idempotent].
Qed.

Lemma prompt_wait_answer d lines wait rest :
  prompt_wait d lines = Some (wait, rest) -> 0 < wait.
Proof.
  induction lines as [|line t IH]; cbn [prompt_wait]; [discriminate|].
  destruct (typed_or_default d (strip line)) as [n|]; [|exact IH].
  destruct (Z.leb_spec n 0) as [|Hpos]; [exact IH|].
  intros Heq. inversion Heq; subst. exact Hpos.
Qed.

Lemma prompt_port_answer d lines port rest :
  prompt_port d lines = Some (port, rest) -> 1 <= port <= 65535.
Proof.
  induction lines as [|line t IH]; cbn [prompt_port]; [discriminate|].
  destruct (typed_or_default d (strip line)) as [n|]; [|exact IH].
  destruct ((n <=? 0) || (n >? 65535)) eqn:E; [exact IH|].
  intros H. inversion H; subst.
  apply orb_false_iff in E. destruct E as [E1 E2].
  apply Z.leb_gt in E1. rewrite Z.gtb_ltb in E2. apply Z.ltb_ge in E2. lia.
Qed.

Lemma load_current_config_eq w :
  load_current_config w = (Ok (current_config_of w), w).
Proof.
  unfold load_current_config, current_config_of, bind, gets.
  destruct (config_file w) as [[why|d]|]; reflexivity.
Qed.

Lemma main_configure_run lines w :
  main_configure lines w =
  let current := current_config_of w in
  and_then (prompt_mac (dict_get current "WOL_MAC_ADDRESS" (JStr "")) lines)
    (fun mac lines =>
  and_then (prompt_broadcast
              (dict_get current "BROADCAST_ADDRESS" (JStr "255.255.255.255"))
              lines) (fun broadcast lines =>
  and_then (prompt_url (dict_get current "SITE_URL" (JStr "")) lines)
    (fun url lines =>
  and_then (prompt_wait (dict_get current "WAIT_TIME_SECONDS" JNull) lines)
    (fun wait lines =>
  and_then (prompt_port (dict_get current "PORT" (JInt 5000)) lines)
    (fun port lines =>
     bind (main_save_config mac broadcast url wait port)
          (fun _ => ret (Some lines))))))) w.
Proof.
  unfold main_configure. unfold bind at 1.
  now rewrite load_current_config_eq.
Qed.

(** The dialogue, case by case. *)
Lemma main_configure_cases lines w :
  main_configure lines w = (Ok None, w) \/
  exists mac lines1 broadcast lines2 url lines3 wait lines4 port rest,
    let current := current_config_of w in
    prompt_mac (dict_get current "WOL_MAC_ADDRESS" (JStr "")) lines
      = Some (mac, lines1) /\
    prompt_broadcast
      (dict_get current "BROADCAST_ADDRESS" (JStr "255.255.255.255")) lines1
      = Some (broadcast, lines2) /\
    prompt_url (dict_get current "SITE_URL" (JStr "")) lines2 = Some (url, lines3) /\
    prompt_wait (dict_get current "WAIT_TIME_SECONDS" JNull) lines3
      = Some (wait, lines4) /\
    prompt_port (dict_get current "PORT" (JInt 5000)) lines4 = Some (port, rest) /\
    main_configure lines w =
      (Ok (Some rest),
       set_config_file
         (Some (Document (written_config mac broadcast url wait port))) w).
Proof.
  rewrite main_configure_run. cbv zeta.
  destruct (prompt_mac _ lines) as [[mac l1]|] eqn:E1; cbn [and_then];
    [|now left].
  destruct (prompt_broadcast _ l1) as [[b l2]|] eqn:E2; cbn [and_then];
    [|now left].
  destruct (prompt_url _ l2) as [[u l3]|] eqn:E3; cbn [and_then]; [|now left].
  destruct (prompt_wait _ l3) as [[n l4]|] eqn:E4; cbn [and_then]; [|now left].
  destruct (prompt_port _ l4) as [[p l5]|] eqn:E5; cbn [and_then]; [|now left].
  right. exists mac, l1, b, l2, u, l3, n, l4, p, l5.
  repeat (split; [first [reflexivity | assumption]|]). reflexivity.
Qed.

Lemma default_kept w k fallback v :
  truthy fallback = false ->
  v = dict_get (current_config_of w) k fallback -> truthy v = true ->
  kept_from w k v.
Proof.
  intros Hf -> Ht. unfold kept_from, dict_get in *.
  destruct (dict_lookup (current_config_of w) k) as [x|];
    [now split|congruence].
Qed.

(** X12.  The configuration dialogue writes the file once, at its end, or
    not at all: when the input ends before the fifth answer is accepted
    nothing has been written, however many answers were given; otherwise
    the file is replaced by an object with exactly the five keys of the
    set-up script, and nothing else of the world changes. *)
Theorem setup_writes_all_or_nothing lines w :
  main_configure lines w = (Ok None, w) \/
  exists mac broadcast url wait port rest,
    main_configure lines w =
      (Ok (Some rest),
       set_config_file
         (Some (Document [("WOL_MAC_ADDRESS", mac);
                          ("BROADCAST_ADDRESS", broadcast);
                          ("SITE_URL", url);
                          ("WAIT_TIME_SECONDS", JInt wait);
                          ("PORT", JInt port)])) w).
Proof.
  destruct (main_configure_cases lines w)
    as [H|(mac & l1 & b & l2 & u & l3 & n & l4 & p & rest & _ & _ & _ & _ & _ & H)];
    [now left|right].
  exists mac, b, u, n, p, rest. exact H.
Qed.

(** X13.  Every value the dialogue writes has passed its check.  The
    hardware address is the one of the earlier file (taken with Enter) or a
    typed text of six pairs of hexadecimal digits separated by [:] or [-];
    the broadcast address and the URL are the ones of the earlier file or a
    typed text, trimmed and not empty (the broadcast address falls back to
    255.255.255.255); the wait is positive and the port lies in 1..65535. *)
Theorem setup_answers_are_checked lines w rest w' :
  main_configure lines w = (Ok (Some rest), w') ->
  exists mac broadcast url wait port,
    config_file w' =
      Some (Document (written_config mac broadcast url wait port)) /\
    (kept_from w "WOL_MAC_ADDRESS" mac \/
     exists s, mac = JStr s /\ mac_groups false s = true /\ strip s = s) /\
    (kept_from w "BROADCAST_ADDRESS" broadcast \/ typed_text broadcast) /\
    (kept_from w "SITE_URL" url \/ typed_text url) /\
    0 < wait /\ 1 <= port <= 65535.
Proof.
  intros Hrun.
  destruct (main_configure_cases lines w)
    as [H|(mac & l1 & b & l2 & u & l3 & n & l4 & p & rest0 &
           E1 & E2 & E3 & E4 & E5 & H)]; [congruence|].
  rewrite H in Hrun. inversion Hrun; subst rest0 w'. clear Hrun.
  exists mac, b, u, n, p. split; [reflexivity|].
  split; [|split; [|split; [|split]]].
  - destruct (prompt_mac_answer _ _ _ _ E1) as [[Hd Ht]|Hs]; [left|now right].
    rewrite <- Hd in Ht.
    exact (default_kept w "WOL_MAC_ADDRESS" (JStr "") mac eq_refl Hd Ht).
  - destruct (prompt_broadcast_answer _ _ _ _ E2) as [[Hd Ht]|Hs];
      [|now right].
    unfold dict_get in Hd, Ht.
    destruct (dict_lookup (current_config_of w) "BROADCAST_ADDRESS") as [x|] eqn:E.
    + left. subst b. now split.
    + right. exists "255.255.255.255". subst b. repeat split. discriminate.
  - destruct (prompt_url_answer _ _ _ _ E3) as [[Hd Ht]|Hs]; [left|now right].
    rewrite <- Hd in Ht.
    exact (default_kept w "SITE_URL" (JStr "") u eq_refl Hd Ht).
  - exact (prompt_wait_answer _ _ _ _ E4).
  - exact (prompt_port_answer _ _ _ _ E5).
Qed.

Lemma setup_answers_are_checked_witness :
  exists mac broadcast url wait port,
    config_file (snd (main_configure sample_dialogue fresh_world)) =
      Some (Document (written_config mac broadcast url wait port)) /\
    0 < wait /\ 1 <= port <= 65535.
Proof.
  destruct (setup_answers_are_checked sample_dialogue fresh_world []
              (snd (main_configure sample_dialogue fresh_world)) eq_refl)
    as (mac & b & u & n & p & H & _ & _ & _ & Hn & Hp).
  exists mac, b, u, n, p. split; [exact H|]. split; [exact Hn|exact Hp].
Defined.

(** X14.  The set-up script and the gateway agree: whenever the dialogue
    writes a file, [load_config] of the gateway accepts it and starts with
    the values written (texts trimmed), provided that no text offered as a
    default by an earlier file consists of white space only.  What is typed
    and what the earlier file offers is ASCII. *)
Theorem setup_then_load lines w rest w' :
  Forall (fun line => is_ascii line = true) lines ->
  defaults_usable w ->
  main_configure lines w = (Ok (Some rest), w') ->
  exists mac broadcast url wait port,
    config_file w' = Some (Document (written_config mac broadcast url wait port)) /\
    load_config_from (config_file w') =
      Ok (mkGatewayConfig (strip (py_str mac)) (strip (py_str broadcast))
                          (strip (py_str url)) wait port).
Proof.
  intros _ [_ Hu] Hrun.
  destruct (main_configure_cases lines w)
    as [H|(mac & l1 & b & l2 & u & l3 & n & l4 & p & rest0 &
           E1 & E2 & E3 & E4 & E5 & H)]; [congruence|].
  rewrite H in Hrun. inversion Hrun; subst rest0 w'. clear Hrun.
  exists mac, b, u, n, p. split; [reflexivity|].
  cbn [config_file set_config_file].
  apply load_config_complete.
  exists mac, b, u, (JInt n), (JInt p). cbn [py_int].
  pose proof (prompt_wait_answer _ _ _ _ E4).
  pose proof (prompt_port_answer _ _ _ _ E5).
  cbn [WOL_MAC_ADDRESS BROADCAST_ADDRESS SITE_URL WAIT_TIME_SECONDS PORT].
  repeat split; try reflexivity; try lia.
  - apply prompt_mac_answer in E1.
    destruct E1 as [[-> Ht]|(s & -> & Hg & Hs)].
    + unfold dict_get in *.
      destruct (dict_lookup (current_config_of w) "WOL_MAC_ADDRESS") as [x|] eqn:E.
      * apply (Hu "WOL_MAC_ADDRESS" x); [cbn; tauto|exact E|exact Ht].
      * discriminate Ht.
    + cbn [py_str]. rewrite Hs. intros ->. discriminate Hg.
  - apply prompt_broadcast_answer in E2.
    destruct E2 as [[-> Ht]|(s & -> & Hn & Hs)].
    + unfold dict_get in *.
      destruct (dict_lookup (current_config_of w) "BROADCAST_ADDRESS") as [x|] eqn:E.
      * apply (Hu "BROADCAST_ADDRESS" x); [cbn; tauto|exact E|exact Ht].
      * discriminate.
    + cbn [py_str]. now rewrite Hs.
  - apply prompt_url_answer in E3.
    destruct E3 as [[-> Ht]|(s & -> & Hn & Hs)].
    + unfold dict_get in *.
      destruct (dict_lookup (current_config_of w) "SITE_URL") as [x|] eqn:E.
      * apply (Hu "SITE_URL" x); [cbn; tauto|exact E|exact Ht].
      * discriminate Ht.
    + cbn [py_str]. now rewrite Hs.
Qed.

Lemma fresh_world_defaults_usable : defaults_usable fresh_world.
Proof. split; [intros k v _ H|intros k v _ H _]; discriminate H. Qed.

Lemma sample_dialogue_ascii :
  Forall (fun line => is_ascii line = true) sample_dialogue.
Proof. repeat constructor. Qed.

Lemma setup_then_load_witness :
  load_config_from (config_file (snd (main_configure sample_dialogue fresh_world))) =
  Ok (mkGatewayConfig "00:11:22:33:44:55" "255.255.255.255" "http://nas.local"
                      30 5000).
Proof.
  destruct (setup_then_load sample_dialogue fresh_world []
              (snd (main_configure sample_dialogue fresh_world))
              sample_dialogue_ascii fresh_world_defaults_usable eq_refl)
    as (mac & b & u & n & p & Hf & Hl).
  rewrite Hl. vm_compute in Hf. inversion Hf. reflexivity.
Defined.

(** ** Requests that only look *)

Lemma guarded_view f w :
  (forall w0, after_load w0 = w0 -> snd (f w0) = w0) ->
  snd (login_required f w) = after_load w.
Proof.
  intros Hf.
  destruct (panel_enabled w) eqn:En; [destruct (logged_in w) eqn:L|].
  - rewrite (login_required_passes w f En L), (enabled_panel_has_file w En).
    apply Hf, (enabled_panel_has_file w En).
  - now rewrite (login_required_logged_out w f En L).
  - now rewrite (login_required_disabled w f En).
Qed.

Lemma edit_server_body_view server_id req w :
  method req = GET -> snd (edit_server_body server_id req w) = w.
Proof.
  intros Hg. unfold edit_server_body, bind, is_post. rewrite Hg.
  destruct (read_config_world w) as (r & ->).
  unfold lift, ret.
  split_handler; reflexivity.
Qed.

(** X15.  Looking changes nothing.  The dashboard, and a GET request to the
    login page, to the form for a new entry, to the form of an existing
    entry or to the security page, leave the configuration file, the
    login state of the session and the credentials as they were and flash no
    message, whoever asks; the one thing that can happen is that a missing
    credentials file is created with the defaults. *)
Theorem views_write_nothing lib w req server_id :
  method req = GET ->
  snd (dashboard w) = after_load w /\
  snd (login req w) = after_load w /\
  snd (add_server req w) = after_load w /\
  snd (edit_server server_id req w) = after_load w /\
  snd (security_settings lib req w) = after_load w.
Proof.
  intros Hg. repeat split.
  - apply guarded_view. intros w0 _. unfold dashboard_body, bind, gets, ret.
    destruct (config_file w0) as [[why|d]|]; reflexivity.
  - unfold login, bind. rewrite load_admin_config_eq.
    unfold is_post. rewrite Hg.
    destruct (negb _); reflexivity.
  - apply guarded_view. intros w0 _. unfold add_server_body, is_post.
    now rewrite Hg.
  - apply guarded_view. intros w0 _. now apply edit_server_body_view.
  - apply guarded_view. intros w0 H0.
    unfold security_settings_with, bind. rewrite load_admin_config_eq.
    unfold is_post. rewrite Hg. exact H0.
Qed.

Lemma views_write_nothing_witness :
  snd (edit_server 0 (mkRequest GET []) sample_admin_world) = sample_admin_world /\
  snd (security_settings sample_libraries (mkRequest GET []) sample_world) =
    sample_world.
Proof.
  destruct (views_write_nothing sample_libraries sample_admin_world
              (mkRequest GET []) 0 eq_refl) as (_ & _ & _ & H & _).
  destruct (views_write_nothing sample_libraries sample_world
              (mkRequest GET []) 0 eq_refl) as (_ & _ & _ & _ & H').
  split; [exact H|exact H'].
Defined.

(** ** One-time codes and the clock *)

Lemma timecode_within_a_step t t0 :
  0 <= t0 -> 0 <= t -> Z.abs (t - t0) <= 30 ->
  pyotp.timecode t - 1 <= pyotp.timecode t0 <= pyotp.timecode t + 1.
Proof.
  intros H0 Ht Hd. unfold pyotp.timecode.
  rewrite !Z.quot_div_nonneg by lia.
  assert (E1 : (t + 30) / 30 = t / 30 + 1)
    by (replace (t + 30) with (t + 1 * 30) by lia; apply Z.div_add; lia).
  assert (E2 : (t0 + 30) / 30 = t0 / 30 + 1)
    by (replace (t0 + 30) with (t0 + 1 * 30) by lia; apply Z.div_add; lia).
  assert (L1 : t0 / 30 <= (t + 30) / 30) by (apply Z.div_le_mono; lia).
  assert (L2 : t / 30 <= (t0 + 30) / 30) by (apply Z.div_le_mono; lia).
  lia.
Qed.

(** X16.  With the second factor on, [login] accepts the code that the
    authenticator shows at its time [t0] whenever the server's clock is
    within 30 seconds of [t0], either way: the window of one step on each
    side of [pyotp.verify] covers a code typed up to half a minute late
    and a clock that is up to half a minute off. *)
Theorem login_tolerates_thirty_seconds w req secret t0 :
  panel_enabled w = true -> method req = POST ->
  dict_lookup (stored_credentials w) "admin_username" =
    Some (JStr (form_str req "username" "")) ->
  dict_lookup (stored_credentials w) "admin_password_hash" =
    Some (JStr (hash_password (form_str req "password" ""))) ->
  totp_enabled w = true ->
  totp_secret w = Some (JStr secret) ->
  pyotp.at_ secret t0 0 = Ok (form_str req "totp_code" "") ->
  0 <= t0 -> 30 <= clock w -> Z.abs (clock w - t0) <= 30 ->
  login req w =
  (Ok (Redirect "admin.dashboard"), set_session (mkSession (Some true) true) w).
Proof.
  intros En Hp Hu Hh H2 Hs Hcode H0 Hc Hd.
  assert (Hv : totp_verify (JStr secret) (form_str req "totp_code" "") (clock w)
               = Ok true).
  { apply (totp_verify_window _ _ _ Hc). exists secret. split; [reflexivity|].
    exists (pyotp.timecode t0).
    split; [apply timecode_within_a_step; lia|].
    unfold pyotp.at_ in Hcode. now rewrite Z.add_0_r in Hcode. }
  unfold login, bind.
  rewrite load_admin_config_eq, (enabled_panel_has_file w En).
  unfold panel_enabled in En. rewrite En. unfold is_post. rewrite Hp.
  cbn [negb]. unfold lift, dict_item, ret. rewrite Hu.
  cbn [str_eq]. rewrite String.eqb_refl. rewrite Hh.
  unfold verify_password. cbn [str_eq]. rewrite String.eqb_refl.
  unfold totp_enabled in H2. rewrite H2.
  unfold totp_secret in Hs. rewrite Hs. unfold gets. rewrite Hv.
  reflexivity.
Qed.

Lemma login_tolerates_thirty_seconds_witness :
  auth_state_of
    (snd (login (login_request "admin" "hunter2" "324550")
                (mkWorld (config_file sample_world) (admin_file sample_world)
                         logged_out [] 1700000029))) = LoggedIn.
Proof.
  assert (H0 : 0 <= 1700000000) by lia.
  assert (Hc : 30 <= 1700000029) by lia.
  assert (Hd : Z.abs (1700000029 - 1700000000) <= 30) by (cbn; lia).
  assert (Hcode : pyotp.at_ "JBSWY3DPEHPK3PXP" 1700000000 0 = Ok "324550"%string)
    by (vm_compute; reflexivity).
  rewrite (login_tolerates_thirty_seconds
             (mkWorld (config_file sample_world) (admin_file sample_world)
                      logged_out [] 1700000029)
             (login_request "admin" "hunter2" "324550")
             "JBSWY3DPEHPK3PXP" 1700000000
             eq_refl eq_refl eq_refl eq_refl eq_refl eq_refl Hcode H0 Hc Hd).
  reflexivity.
Defined.

(** ** Finding the tool *)

Lemma first_usable_spec env paths :
  match first_usable env paths with
  | Some cmd =>
      exists before after,
        paths = before ++ cmd :: after /\ usable env cmd = true /\
        forall p, In p before -> usable env p = false
  | None => forall p, In p paths -> usable env p = false
  end.
Proof.
  induction paths as [|c rest IH]; cbn [first_usable]; [intros p []|].
  assert (Hskip : usable env c = false ->
            match first_usable env rest with
            | Some cmd =>
                exists before after,
                  c :: rest = before ++ cmd :: after /\ usable env cmd = true /\
                  forall p, In p before -> usable env p = false
            | None => forall p, In p (c :: rest) -> usable env p = false
            end).
  { intros Hc. destruct (first_usable env rest) as [cmd|].
    - destruct IH as (before & after & -> & Hu & Hb).
      exists (c :: before), after. split; [reflexivity|]. split; [exact Hu|].
      intros p [<-|Hp]; [exact Hc|now apply Hb].
    - intros p [<-|Hp]; [exact Hc|now apply IH]. }
  assert (Hhit : usable env c = true ->
            exists before after,
              c :: rest = before ++ c :: after /\ usable env c = true /\
              forall p, In p before -> usable env p = false).
  { intros Hc. exists [], rest. split; [reflexivity|]. split; [exact Hc|].
    intros p []. }
  pose proof (eq_refl (usable env c)) as Hc. unfold usable at 2 in Hc.
  destruct (has_slash c); cbn [negb].
  - destruct (is_executable_file env c); [apply Hhit|apply Hskip]; exact Hc.
  - destruct (which env c) as [[|]|]; [apply Hhit|apply Hskip..]; exact Hc.
Qed.

Lemma possible_paths_not_empty env p : In p (possible_paths env) -> p <> "".
Proof.
  unfold possible_paths. cbn [In].
  intros [<-|[<-|[<-|[<-|[<-|[]]]]]]; try discriminate.
  destruct (SUDO_USER env); [discriminate|].
  unfold path_join. cbn [fold_left].
  set (p := if starts_with_slash ".local" then _ else _).
  change (starts_with_slash "bin") with false.
  change (starts_with_slash "wakeonlan") with false. cbv iota.
  set (q := if is_empty p || ends_with_slash p then _ else _).
  destruct (is_empty q || ends_with_slash q); destruct q; discriminate.
Qed.

(** X17.  [find_wakeonlan_command] answers with the first candidate, in the
    order PATH, the user's ~/.local/bin, /usr/bin, /usr/local/bin, /bin,
    that passes its test (a bare name that [which] finds, a path to an
    executable file); a [which] that cannot be run counts as not found.  It
    answers [None] only when no candidate passes, and never with an empty
    text, so the wake route reports "not found" exactly in that case. *)
Theorem find_wakeonlan_command_first_usable env :
  match find_wakeonlan_command env with
  | Some cmd =>
      cmd <> "" /\
      exists before after,
        possible_paths env = before ++ cmd :: after /\
        usable env cmd = true /\
        forall p, In p before -> usable env p = false
  | None =>
      (forall p, In p (possible_paths env) -> usable env p = false) /\
      forall cfg, wake_server_and_redirect cfg env = Ok (Plain not_found_message 500)
  end.
Proof.
  pose proof (first_usable_spec env (possible_paths env)) as H.
  change (first_usable env (possible_paths env))
    with (find_wakeonlan_command env) in H.
  destruct (find_wakeonlan_command env) as [cmd|] eqn:Hf.
  - split; [|exact H].
    destruct H as (before & after & Hp & _).
    apply (possible_paths_not_empty env). rewrite Hp.
    apply in_or_app. right. now left.
  - split; [exact H|].
    intros cfg. unfold wake_server_and_redirect. now rewrite Hf.
Qed.

Example find_wakeonlan_command_samples :
  find_wakeonlan_command host_with_local_tool =
    Some "/home/ada/.local/bin/wakeonlan" /\
  find_wakeonlan_command (host_with_tool Completed) = Some "wakeonlan" /\
  find_wakeonlan_command host_without_tool = None.
Proof. vm_compute. repeat split. Qed.

(** ** Finding the package manager *)

Lemma first_package_manager_spec env candidates :
  match first_package_manager env candidates with
  | Ok (distro, Some pm) =>
      distro = "Unknown Linux" /\
      exists cmd, In (cmd, pm) candidates /\ which_status env cmd = Some true
  | Ok (distro, None) =>
      distro = "Unknown" /\
      forall cmd pm, In (cmd, pm) candidates -> which_status env cmd = Some false
  | Raise _ => exists cmd pm, In (cmd, pm) candidates /\ which_status env cmd = None
  end.
Proof.
  induction candidates as [|[cmd pm] rest IH]; cbn [first_package_manager].
  - split; [reflexivity|]. intros cmd pm [].
  - destruct (which_status env cmd) as [[|]|] eqn:E.
    + split; [reflexivity|]. exists cmd. split; [now left|exact E].
    + destruct (first_package_manager env rest) as [[distro [pm'|]]|e].
      * destruct IH as (-> & cmd' & Hin & Hw). split; [reflexivity|].
        exists cmd'. split; [now right|exact Hw].
      * destruct IH as (-> & Hall). split; [reflexivity|].
        intros c p [Heq|Hin]; [now inversion Heq; subst|now apply (Hall c p)].
      * destruct IH as (c & p & Hin & Hw). exists c, p. split; [now right|exact Hw].
    + exists cmd, pm. split; [now left|exact E].
Qed.

Lemma distro_of_release_known env text distro pm :
  distro_of_release env text = Some (distro, pm) ->
  exists p, pm = Some p /\ In p install_commands_keys.
Proof.
  unfold distro_of_release, install_commands_keys.
  repeat match goal with
         | |- context [if ?b then _ else _] => destruct b
         | |- context [match which_status ?e ?c with _ => _ end] =>
             destruct (which_status e c) as [[|]|]
         end;
    intros H; inversion H; subst; eexists; (split; [reflexivity|cbn; tauto]).
Qed.

(** X18.  Whenever [detect_linux_distro] names a package manager, the host
    is Linux and the name is one of the seven keys of the table
    [install_commands] of [install_dependencies]: the caller's branch
    "Don't know how to install with ..." can never be reached. *)
Theorem detected_manager_is_installable env distro pm :
  detect_linux_distro env = Ok (distro, Some pm) ->
  platform_system env = "Linux" /\ In pm install_commands_keys.
Proof.
  unfold detect_linux_distro.
  destruct (String.eqb_spec (platform_system env) "Linux") as [Hl|Hl];
    cbn [negb]; [|discriminate].
  intros H. split; [exact Hl|].
  destruct (match os_release env with
            | Some text => distro_of_release env text
            | None => None
            end) as [[d p]|] eqn:E.
  - destruct (os_release env) as [text|]; [|discriminate E].
    destruct (distro_of_release_known env text d p E) as (p' & -> & Hin).
    inversion H; subst. exact Hin.
  - pose proof (first_package_manager_spec env package_managers) as S.
    rewrite H in S. destruct S as (_ & cmd & Hin & _).
    unfold package_managers in Hin. cbn [In] in Hin. unfold install_commands_keys.
    repeat (destruct Hin as [Heq|Hin]; [inversion Heq; cbn; tauto|]).
    destruct Hin.
Qed.

Lemma detected_manager_is_installable_witness :
  detect_linux_distro centos_host = Ok ("RHEL/CentOS", Some "yum") /\
  In "yum" install_commands_keys.
Proof.
  split; [reflexivity|].
  apply (detected_manager_is_installable centos_host "RHEL/CentOS" "yum" eq_refl).
Defined.



Example detect_linux_distro_samples :
  detect_linux_distro bare_host = Ok ("Unknown Linux", Some "zypper") /\
  detect_linux_distro (mkPlatform "Darwin" None (fun _ => None)) =
    Ok ("Darwin", None) /\
  detect_linux_distro (mkPlatform "Linux" (Some "ID=void")
                                  (fun _ => Some false)) = Ok ("Unknown", None).
Proof. vm_compute. repeat split. Qed.

(** ** The panel on the file the set-up script writes *)



(** ** Installing the dependencies *)

Example install_commands_keys_are_its_keys :
  map fst install_commands = install_commands_keys.
Proof. reflexivity. Qed.

Lemma first_package_manager_lookups_known env candidates name :
  In name (first_package_manager_lookups env candidates) ->
  exists pm, In (name, pm) candidates.
Proof.
  induction candidates as [|[cmd pm] rest IH]; cbn [first_package_manager_lookups];
    [intros []|].
  intros [<-|Hin]; [exists pm; now left|].
  destruct (which_status env cmd) as [[|]|]; try destruct Hin.
  destruct (IH Hin) as (pm' & H). exists pm'. now right.
Qed.

Lemma detect_lookups_known env name :
  In name (detect_lookups env) -> exists pm, In (name, pm) package_managers.
Proof.
  assert (Hloop : In name (first_package_manager_lookups env package_managers) ->
                  exists pm, In (name, pm) package_managers)
    by apply first_package_manager_lookups_known.
  assert (Hrel : forall text, In name (release_lookups text) ->
                              exists pm, In (name, pm) package_managers).
  { intros text. unfold release_lookups.
    repeat match goal with
           | |- context [if ?b then _ else _] => destruct b
           end; cbn [In]; try tauto.
    intros [<-|[]]. exists "dnf". cbn. tauto. }
  unfold detect_lookups. destruct (negb _); [intros []|].
  destruct (os_release env) as [text|]; [|exact Hloop].
  intros Hin. apply in_app_or in Hin. destruct Hin as [Hin|Hin];
    [exact (Hrel text Hin)|].
  destruct (distro_of_release env text); [destruct Hin|exact (Hloop Hin)].
Qed.

Section InstallerProperties.

Context {host : Type} (api : host_api host).

Lemma subprocess_run_shape cmd (s : host * list event) :
  exists rc h',
    subprocess_run api cmd s = (rc, (h', snd s ++ [(cmd, rc)])).
Proof.
  unfold subprocess_run. destruct (run_command api cmd (fst s)) as [rc h'].
  now exists rc, h'.
Qed.

Lemma check_command_exists_shape command (s : host * list event) :
  exists found rc,
    check_command_exists api command s =
      (found, (fst s, snd s ++ [(["which"; command], rc)])) /\
    (found = Ok true -> which_of api (fst s) command = Some true).
Proof.
  unfold check_command_exists, which_event.
  destruct (which_of api (fst s) command) as [[|]|];
    eexists _, _; (split; [reflexivity|]); [reflexivity|discriminate..].
Qed.

Lemma ensure_flask_shape (s : host * list event) :
  (importable api (fst s) "flask" = true /\ ensure_flask api s = (true, s)) \/
  exists rc h',
    ensure_flask api s =
      (match rc with Some returncode => returncode =? 0 | None => false end,
       (h', snd s ++ [(pip_install api "flask", rc)])).
Proof.
  unfold ensure_flask, check_python_package.
  destruct (importable api (fst s) "flask"); [now left|right].
  destruct (subprocess_run_shape (pip_install api "flask") s) as (rc & h' & ->).
  exists rc, h'. now destruct rc.
Qed.

Lemma try_packages_shape needs_sudo pkg_manager options (s : host * list event) :
  exists installed h' more,
    try_packages api needs_sudo pkg_manager options s =
      (installed, (h', snd s ++ more)) /\
    (forall cmd rc, In (cmd, rc) more ->
       cmd = ["which"; "wakeonlan"] \/
       exists pkg_name base,
         In (pkg_name, base) options /\
         cmd = full_cmd needs_sudo pkg_manager base) /\
    (installed = true -> which_of api h' "wakeonlan" = Some true).
Proof.
  revert s. induction options as [|[pkg_name base] rest IH]; intros s;
    cbn [try_packages].
  - exists false, (fst s), []. rewrite app_nil_r. destruct s.
    split; [reflexivity|]. split; [intros ? ? []|discriminate].
  - destruct (subprocess_run_shape (full_cmd needs_sudo pkg_manager base) s)
      as (rc & h1 & ->).
    set (ev := (full_cmd needs_sudo pkg_manager base, rc)).
    assert (Hnext : forall extra,
      (forall cmd rc0, In (cmd, rc0) extra -> cmd = ["which"; "wakeonlan"]) ->
      exists installed h' more,
        try_packages api needs_sudo pkg_manager rest
                     (h1, (snd s ++ [ev]) ++ extra) =
          (installed, (h', snd s ++ more)) /\
        (forall cmd rc0, In (cmd, rc0) more ->
           cmd = ["which"; "wakeonlan"] \/
           exists pkg_name0 base0,
             In (pkg_name0, base0) ((pkg_name, base) :: rest) /\
             cmd = full_cmd needs_sudo pkg_manager base0) /\
        (installed = true -> which_of api h' "wakeonlan" = Some true)).
    { intros extra Hextra.
      destruct (IH (h1, (snd s ++ [ev]) ++ extra))
        as (ok & h' & more & E & Hm & Hw).
      exists ok, h', (ev :: extra ++ more).
      split; [rewrite E; cbn [snd]; now rewrite <- !app_assoc|].
      split; [|exact Hw].
      intros cmd rc0 [Heq|Hin].
      - inversion Heq; subst. right. exists pkg_name, base.
        split; [now left|reflexivity].
      - apply in_app_or in Hin. destruct Hin as [Hin|Hin];
          [left; exact (Hextra cmd rc0 Hin)|].
        destruct (Hm cmd rc0 Hin) as [Hwc|(n0 & b0 & Hin0 & ->)]; [now left|].
        right. exists n0, b0. split; [now right|reflexivity]. }
    assert (Hnone := Hnext [] (fun _ _ H => match H with end)).
    rewrite app_nil_r in Hnone.
    destruct rc as [returncode|]; [|exact Hnone].
    destruct (returncode =? 0); [|exact Hnone].
    destruct (check_command_exists_shape "wakeonlan" (h1, snd s ++ [ev]))
      as (found & rcw & -> & Hfound).
    cbn [fst snd] in *.
    assert (Hlook := Hnext [(["which"; "wakeonlan"], rcw)]).
    destruct found as [[|]|e].
    + exists true, h1, [ev; (["which"; "wakeonlan"], rcw)].
      split; [now rewrite <- app_assoc|]. split; [|intros _; now apply Hfound].
      intros cmd rc0 [Heq|[Heq|[]]]; inversion Heq; subst; [right|now left].
      exists pkg_name, base. split; [now left|reflexivity].
    + apply Hlook. intros cmd rc0 [Heq|[]]. now inversion Heq.
    + apply Hlook. intros cmd rc0 [Heq|[]]. now inversion Heq.
Qed.

Lemma pip_fallback_shape (s : host * list event) :
  exists installed h' rc more,
    pip_fallback api s =
      (installed, (h', snd s ++ (pip_install api "wakeonlan", rc) :: more)) /\
    (installed = true -> rc = Some 0) /\
    (forall cmd rc0, In (cmd, rc0) more -> cmd = ["which"; "wakeonlan"]).
Proof.
  unfold pip_fallback.
  destruct (subprocess_run_shape (pip_install api "wakeonlan") s)
    as (rc & h' & ->).
  assert (Hstop : exists installed h'' rc' more,
            (false, (h', snd s ++ [(pip_install api "wakeonlan", rc)])) =
              (installed, (h'', snd s ++ (pip_install api "wakeonlan", rc') :: more)) /\
            (installed = true -> rc' = Some 0) /\
            (forall cmd rc0, In (cmd, rc0) more -> cmd = ["which"; "wakeonlan"])).
  { exists false, h', rc, []. split; [reflexivity|].
    split; [discriminate|intros ? ? []]. }
  destruct rc as [returncode|]; [|exact Hstop].
  destruct (Z.eqb_spec returncode 0) as [->|Hn]; [|exact Hstop].
  destruct (check_command_exists_shape "wakeonlan"
              (h', snd s ++ [(pip_install api "wakeonlan", Some 0)]))
    as (found & rcw & -> & _).
  cbn [fst snd].
  assert (Hlog : forall cmd rc0,
            In (cmd, rc0) [(["which"; "wakeonlan"], rcw)] ->
            cmd = ["which"; "wakeonlan"]).
  { intros cmd rc0 [Heq|[]]. now inversion Heq. }
  destruct found as [found|e];
    [exists true|exists false]; exists h', (Some 0), [(["which"; "wakeonlan"], rcw)];
    rewrite <- app_assoc; (split; [reflexivity|]); (split; [|exact Hlog]);
    [reflexivity|discriminate].
Qed.

(** The runs of [install_dependencies], by cases. *)
Lemma install_dependencies_cases h r h' log :
  install_dependencies api h = (r, (h', log)) ->
  (forall cmd rc, In (cmd, rc) log -> expected_command api h cmd) /\
  (r = Ok true ->
   (importable api h "flask" = true \/ In (pip_install api "flask", Some 0) log) /\
   (which_of api h' "wakeonlan" = Some true \/
    In (pip_install api "wakeonlan", Some 0) log)).
Proof.
  unfold install_dependencies. cbv zeta.
  set (log0 := map (which_event api h) (detect_lookups (platform_at api h))).
  assert (Hexp0 : forall cmd rc, In (cmd, rc) log0 -> expected_command api h cmd).
  { intros cmd rc Hin. subst log0. apply in_map_iff in Hin.
    destruct Hin as (name & Heq & Hin). inversion Heq; subst.
    destruct (detect_lookups_known _ _ Hin) as (pm & Hpm).
    right. left. now exists name, pm. }
  destruct (detect_linux_distro (platform_at api h)) as [[distro pm]|e] eqn:Hd;
    [|intros H; injection H as <- <- <-; split; [exact Hexp0|discriminate]].
  (* Flask *)
  assert (Hflask : exists ok h1 log1,
            ensure_flask api (h, log0) = (ok, (h1, log1)) /\
            (forall cmd rc, In (cmd, rc) log1 -> expected_command api h cmd) /\
            (ok = true ->
             importable api h "flask" = true \/
             In (pip_install api "flask", Some 0) log1)).
  { destruct (ensure_flask_shape (h, log0)) as [[Hi ->]|(rc & h1 & ->)].
    - exists true, h, log0. split; [reflexivity|]. split; [exact Hexp0|now left].
    - eexists _, h1, _. split; [reflexivity|]. cbn [snd]. split.
      + intros cmd rc0 Hin. apply in_app_or in Hin.
        destruct Hin as [Hin|[Heq|[]]]; [exact (Hexp0 cmd rc0 Hin)|].
        inversion Heq. right. right. now left.
      + destruct rc as [returncode|]; [|discriminate].
        destruct (Z.eqb_spec returncode 0) as [->|]; [|discriminate].
        intros _. right. apply in_or_app. right. now left. }
  destruct Hflask as (ok & h1 & log1 & -> & Hexp1 & Hok1).
  destruct ok; cbn [negb];
    [|intros H; injection H as <- <- <-; split; [exact Hexp1|discriminate]].
  specialize (Hok1 eq_refl).
  destruct (check_command_exists_shape "wakeonlan" (h1, log1))
    as (found & rcw & -> & Hfound).
  cbn [fst snd] in *.
  set (log2 := log1 ++ [(["which"; "wakeonlan"], rcw)]) in *.
  assert (Hexp2 : forall cmd rc, In (cmd, rc) log2 -> expected_command api h cmd).
  { intros cmd rc Hin. apply in_app_or in Hin.
    destruct Hin as [Hin|[Heq|[]]]; [exact (Hexp1 cmd rc Hin)|].
    inversion Heq. now left. }
  assert (Hok2 : importable api h "flask" = true \/
                 In (pip_install api "flask", Some 0) log2).
  { destruct Hok1 as [Hi|Hin]; [now left|right; apply in_or_app; now left]. }
  destruct found as [[|]|e].
  - intros H; injection H as <- <- <-.
    split; [exact Hexp2|intros _; split; [exact Hok2|left; now apply Hfound]].
  - destruct pm as [pm|];
      [|intros H; injection H as <- <- <-; split; [exact Hexp2|discriminate]].
    destruct (is_empty pm);
      [intros H; injection H as <- <- <-; split; [exact Hexp2|discriminate]|].
    destruct (table_lookup install_commands pm) as [options|] eqn:Ht;
      [|intros H; injection H as <- <- <-; split; [exact Hexp2|discriminate]].
    destruct (try_packages_shape (negb (geteuid api h =? 0)) pm options (h1, log2))
      as (installed & h2 & more & -> & Hmore & Hinst).
    cbn [snd] in *.
    assert (Hexp3 : forall cmd rc, In (cmd, rc) (log2 ++ more) ->
                                   expected_command api h cmd).
    { intros cmd rc Hin. apply in_app_or in Hin. destruct Hin as [Hin|Hin];
        [exact (Hexp2 cmd rc Hin)|].
      destruct (Hmore cmd rc Hin) as [->|(pkg_name & base & Hopt & ->)];
        [now left|].
      right. right. right. right. exists distro, pm, options, pkg_name, base.
      repeat split; auto. }
    destruct installed; cbn [negb].
    + intros H; injection H as <- <- <-.
      split; [exact Hexp3|]. intros _. split.
      * destruct Hok2 as [Hi|Hin]; [now left|right; apply in_or_app; now left].
      * left. now apply Hinst.
    + destruct (pip_fallback_shape (h2, log2 ++ more))
        as (ok & h3 & rc & tail & -> & Hrc & Htail).
      cbn [snd]. intros H; injection H as <- <- <-. split.
      * intros cmd rc0 Hin. apply in_app_or in Hin.
        destruct Hin as [Hin|[Heq|Hin]]; [exact (Hexp3 cmd rc0 Hin)| |].
        -- inversion Heq. right. right. right. now left.
        -- left. exact (Htail cmd rc0 Hin).
      * intros Heq. assert (Hok : ok = true) by congruence.
        rewrite (Hrc Hok). split.
        -- destruct Hok2 as [Hi|Hin]; [now left|right].
           apply in_or_app. left. apply in_or_app. now left.
        -- right. apply in_or_app. right. now left.
  - intros H; injection H as <- <- <-. split; [exact Hexp2|discriminate].
Qed.

(** X21.  Every command that [install_dependencies] runs through
    [subprocess.run] is one of: a look-up with [which] of [wakeonlan] or of
    one of the seven package-manager commands; pip for Flask; pip for
    wakeonlan; or an entry of the table [install_commands] for the package
    manager that [detect_linux_distro] found.  A table entry runs under
    [sudo] exactly when the user is not root and the manager is not
    Termux's [pkg]; pip and [which] never run under [sudo]. *)
Theorem installer_runs_expected_commands h cmd rc :
  In (cmd, rc) (snd (snd (install_dependencies api h))) ->
  expected_command api h cmd.
Proof.
  intros Hin.
  destruct (install_dependencies api h) as [r [h' log]] eqn:E.
  exact (proj1 (install_dependencies_cases h r h' log E) cmd rc Hin).
Qed.

(** X22.  What the answer [True] of [install_dependencies] stands for:
    Flask could be imported at the start or pip installed it with status 0,
    and either [which] finds [wakeonlan] on the host as it is left, or pip
    installed the wakeonlan package with status 0 (in which case the
    command need not be on the PATH). *)
Theorem install_true_means h :
  fst (install_dependencies api h) = Ok true ->
  let h' := fst (snd (install_dependencies api h)) in
  let log := snd (snd (install_dependencies api h)) in
  (importable api h "flask" = true \/ In (pip_install api "flask", Some 0) log) /\
  (which_of api h' "wakeonlan" = Some true \/
   In (pip_install api "wakeonlan", Some 0) log).
Proof.
  destruct (install_dependencies api h) as [r [h' log]] eqn:E.
  intros Ht. exact (proj2 (install_dependencies_cases h r h' log E) Ht).
Qed.

(** X23.  On a host where Flask can be imported and [which] finds
    [wakeonlan], [install_dependencies] answers [True], leaves the host as
    it is and runs nothing but look-ups: the [which] calls of the detection
    of the distribution, then [which wakeonlan]; no pip and no package
    manager is started (as long as the detection itself does not fail). *)
Theorem ready_host_is_left_alone h found :
  detect_linux_distro (platform_at api h) = Ok found ->
  importable api h "flask" = true ->
  which_of api h "wakeonlan" = Some true ->
  install_dependencies api h =
    (Ok true,
     (h, map (which_event api h)
             (detect_lookups (platform_at api h) ++ ["wakeonlan"]))) /\
  only_lookups (snd (snd (install_dependencies api h))).
Proof.
  intros Hd Hf Hw.
  assert (Hrun : install_dependencies api h =
            (Ok true,
             (h, map (which_event api h)
                     (detect_lookups (platform_at api h) ++ ["wakeonlan"])))).
  { unfold install_dependencies. rewrite Hd.
    destruct found as [distro pm]. cbv zeta.
    unfold ensure_flask, check_python_package. cbn [fst]. rewrite Hf.
    cbn [negb]. unfold check_command_exists. cbn [fst snd]. rewrite Hw.
    now rewrite map_app. }
  split; [exact Hrun|]. rewrite Hrun. cbn [snd].
  intros cmd rc Hin. apply in_map_iff in Hin.
  destruct Hin as (name & Heq & _). inversion Heq. now exists name.
Qed.

End InstallerProperties.

Lemma installer_runs_expected_commands_witness :
  In (["sudo"; "dnf"; "install"; "-y"; "wol"], Some 0)
     (snd (snd (install_dependencies toy_api []))) /\
  expected_command toy_api [] ["sudo"; "dnf"; "install"; "-y"; "wol"].
Proof.
  assert (Hin : In (["sudo"; "dnf"; "install"; "-y"; "wol"], Some 0)
                   (snd (snd (install_dependencies toy_api []))))
    by (vm_compute; tauto).
  split; [exact Hin|].
  exact (installer_runs_expected_commands toy_api [] _ _ Hin).
Defined.

Lemma install_true_means_witness :
  fst (install_dependencies toy_api_without_command []) = Ok true /\
  which_of toy_api_without_command
    (fst (snd (install_dependencies toy_api_without_command [])))
    "wakeonlan" = Some false /\
  In (pip_install toy_api_without_command "wakeonlan", Some 0)
     (snd (snd (install_dependencies toy_api_without_command []))).
Proof.
  split; [reflexivity|]. split; [reflexivity|].
  destruct (install_true_means toy_api_without_command [] eq_refl)
    as [_ [Hw|Hp]]; [discriminate Hw|exact Hp].
Defined.

Lemma ready_host_is_left_alone_witness :
  install_dependencies toy_api ["flask"; "wakeonlan"] =
  (Ok true, (["flask"; "wakeonlan"], [(["which"; "wakeonlan"], Some 0)])).
Proof.
  apply (ready_host_is_left_alone toy_api ["flask"; "wakeonlan"]
           ("Fedora", Some "dnf") eq_refl eq_refl eq_refl).
Defined.

Example install_dependencies_on_the_toy_host :
  install_dependencies toy_api [] =
  (Ok true,
   (["wakeonlan"; "flask"],
    [(["/usr/bin/python3"; "-m"; "pip"; "install"; "--user"; "flask"], Some 0);
     (["which"; "wakeonlan"], Some 1);
     (["sudo"; "dnf"; "install"; "-y"; "wakeonlan"], Some 1);
     (["sudo"; "dnf"; "install"; "-y"; "wol"], Some 0);
     (["which"; "wakeonlan"], Some 0)])).
Proof. reflexivity. Qed.

(** ** Each route keeps to its own file *)

Lemma after_load_stored w : stored_credentials (after_load w) = stored_credentials w.
Proof.
  unfold after_load, stored_credentials.
  destruct (admin_file w) as [[why|d]|] eqn:E; cbn; rewrite ?E; reflexivity.
Qed.

Lemma after_load_session w : session (after_load w) = session w.
Proof. unfold after_load. now destruct (admin_file w). Qed.

Lemma guarded_field {A} (field : world -> A) f w :
  (forall w0, field (snd (f w0)) = field w0) ->
  field (snd (login_required f w)) = field (after_load w).
Proof.
  intros Hf.
  destruct (panel_enabled w) eqn:En; [destruct (logged_in w) eqn:L|].
  - rewrite (login_required_passes w f En L). apply Hf.
  - now rewrite (login_required_logged_out w f En L).
  - now rewrite (login_required_disabled w f En).
Qed.

Lemma roster_bodies_keep_credentials server_id req w :
  let same w' := admin_file w' = admin_file w /\ session w' = session w in
  same (snd (add_server_body req w)) /\
  same (snd (edit_server_body server_id req w)) /\
  same (snd (delete_server_body server_id w)).
Proof.
  cbv zeta. repeat split.
  1,2: unfold add_server_body; destruct (is_post req); [|reflexivity].
  3,4: unfold edit_server_body.
  5,6: unfold delete_server_body.
  all: unfold bind; destruct (read_config_world w) as (r & ->);
    unfold write_config, gets, lift, ret, raise, modify;
    split_handler; reflexivity.
Qed.

(** X24.  [login] touches nothing but the login state: whatever is
    submitted, the configuration file and the credentials are left alone
    (a missing credentials file is created with the defaults), no message
    is flashed, and the session is either unchanged or marked logged in. *)
Theorem login_only_touches_the_session req w :
  snd (login req w) = after_load w \/
  snd (login req w) = set_session (mkSession (Some true) true) (after_load w).
Proof.
  unfold login, bind. rewrite load_admin_config_eq.
  unfold lift, ret, gets, login_success, modify, bind.
  destruct (negb _); [now left|].
  destruct (is_post req); [|now left].
  destruct (dict_item _ "admin_username") as [u|e]; [|now left].
  destruct (str_eq _ u).
  - destruct (dict_item _ "admin_password_hash") as [h|e]; [|now left].
    destruct (verify_password _ h); [|now left].
    destruct (truthy (dict_get _ "2fa_enabled" _)); [|now right].
    destruct (dict_item _ "2fa_secret") as [s|e]; [|now left].
    destruct (totp_verify _ _ _) as [[|]|e]; [now right|now left|now left].
  - now left.
Qed.

Lemma security_settings_with_keeps flag lib req w k :
  k <> "admin_password_hash" -> k <> "2fa_enabled" -> k <> "2fa_secret" ->
  let w' := snd (security_settings_with flag lib req w) in
  dict_lookup (stored_credentials w') k = dict_lookup (stored_credentials w) k /\
  config_file w' = config_file w /\ session w' = session w.
Proof.
  intros K1 K2 K3. cbv zeta.
  unfold security_settings_with, bind. rewrite load_admin_config_eq.
  pose proof (after_load_stored w) as Hs.
  pose proof (after_load_config_file w) as Hc.
  pose proof (after_load_session w) as Hl.
  unfold lift, ret, gets, modify, save_admin_config, back_to_settings, bind.
  assert (Hset : forall cfg msg cat,
            (forall k', k' <> "admin_password_hash" -> k' <> "2fa_enabled" ->
                        k' <> "2fa_secret" ->
                        dict_lookup cfg k' = dict_lookup (stored_credentials w) k') ->
            dict_lookup
              (stored_credentials
                 (add_flash msg cat
                    (set_admin_file (Some (Document cfg)) (after_load w)))) k =
              dict_lookup (stored_credentials w) k /\
            config_file
              (add_flash msg cat
                 (set_admin_file (Some (Document cfg)) (after_load w))) =
              config_file w /\
            session
              (add_flash msg cat
                 (set_admin_file (Some (Document cfg)) (after_load w))) =
              session w).
  { intros cfg msg cat Hcfg. cbn. rewrite Hc, Hl. repeat split. now apply Hcfg. }
  assert (Hflash : forall msg cat,
            dict_lookup (stored_credentials (add_flash msg cat (after_load w))) k =
              dict_lookup (stored_credentials w) k /\
            config_file (add_flash msg cat (after_load w)) = config_file w /\
            session (add_flash msg cat (after_load w)) = session w).
  { intros msg cat. cbn. rewrite Hc, Hl. repeat split.
    change (dict_lookup (stored_credentials (after_load w)) k =
            dict_lookup (stored_credentials w) k). now rewrite Hs. }
  assert (Hnone : dict_lookup (stored_credentials (after_load w)) k =
                    dict_lookup (stored_credentials w) k /\
                  config_file (after_load w) = config_file w /\
                  session (after_load w) = session w)
    by (now rewrite Hs, Hc, Hl).
  destruct (is_post req); [|exact Hnone].
  destruct (option_eqb _ "change_password").
  { destruct (dict_item _ "admin_password_hash") as [h|e]; [|exact Hnone].
    destruct (negb (verify_password _ h)); [apply Hflash|].
    destruct (negb (String.eqb _ _)); [apply Hflash|].
    destruct (_ <? 6)%nat; [apply Hflash|].
    apply Hset. intros k' N1 _ _. apply dict_lookup_set_other. congruence. }
  destruct (option_eqb _ "enable_2fa").
  { destruct flag as [flag|e]; [|exact Hnone].
    destruct (negb (truthy flag)); [apply Hflash|].
    cbn [fst snd].
    assert (Hsaved :
      dict_lookup
        (stored_credentials
           (set_admin_file
              (Some (Document
                 (dict_set (dict_set (stored_credentials w) "2fa_secret"
                                     (JStr (random_base32 lib)))
                           "2fa_enabled" (JBool false)))) (after_load w))) k =
        dict_lookup (stored_credentials w) k /\
      config_file
        (set_admin_file
           (Some (Document
              (dict_set (dict_set (stored_credentials w) "2fa_secret"
                                  (JStr (random_base32 lib)))
                        "2fa_enabled" (JBool false)))) (after_load w)) =
        config_file w /\
      session
        (set_admin_file
           (Some (Document
              (dict_set (dict_set (stored_credentials w) "2fa_secret"
                                  (JStr (random_base32 lib)))
                        "2fa_enabled" (JBool false)))) (after_load w)) =
        session w).
    { cbn. rewrite Hc, Hl. repeat split.
      rewrite !dict_lookup_set_other by congruence. reflexivity. }
    destruct (dict_item _ "admin_username") as [name|e]; [|exact Hsaved].
    destruct (generate_qr_code_with _ _ _); exact Hsaved. }
  destruct (option_eqb _ "verify_2fa").
  { destruct (dict_item _ "2fa_secret") as [secret|e]; [|exact Hnone].
    cbn [fst snd].
    destruct (totp_verify _ _ _) as [[|]|e]; [|apply Hflash|exact Hnone].
    apply Hset. intros k' _ N2 _. apply dict_lookup_set_other. congruence. }
  destruct (option_eqb _ "disable_2fa").
  { destruct (dict_item _ "admin_password_hash") as [h|e]; [|exact Hnone].
    destruct (verify_password _ h); [|apply Hflash].
    apply Hset. intros k' _ N2 N3.
    rewrite !dict_lookup_set_other by congruence. reflexivity. }
  exact Hnone.
Qed.

(** X25.  Each route keeps to its own file.  The three roster routes never
    write the credentials file and never change the login state; the
    security page never writes the configuration file, never changes the
    login state, and of the credentials it can change the password hash and
    the two second-factor fields only: no request to it can switch the
    panel off or rename the administrator. *)
Theorem routes_keep_to_their_file lib w req server_id :
  (admin_file (snd (add_server req w)) = admin_file (after_load w) /\
   session (snd (add_server req w)) = session w) /\
  (admin_file (snd (edit_server server_id req w)) = admin_file (after_load w) /\
   session (snd (edit_server server_id req w)) = session w) /\
  (admin_file (snd (delete_server server_id w)) = admin_file (after_load w) /\
   session (snd (delete_server server_id w)) = session w) /\
  config_file (snd (security_settings lib req w)) = config_file w /\
  session (snd (security_settings lib req w)) = session w /\
  forall k, k <> "admin_password_hash" -> k <> "2fa_enabled" -> k <> "2fa_secret" ->
    dict_lookup (stored_credentials (snd (security_settings lib req w))) k =
    dict_lookup (stored_credentials w) k.
Proof.
  unfold add_server, edit_server, delete_server, security_settings.
  rewrite <- (after_load_session w).
  repeat split.
  1,3,5: apply (guarded_field admin_file); intros w0;
    apply (roster_bodies_keep_credentials server_id req w0).
  1,2,3: apply (guarded_field session); intros w0;
    apply (roster_bodies_keep_credentials server_id req w0).
  - rewrite <- (after_load_config_file w).
    apply (guarded_field config_file). intros w0.
    apply (security_settings_with_keeps TOTP_AVAILABLE lib req w0 "admin_enabled");
      discriminate.
  - apply (guarded_field session). intros w0.
    apply (security_settings_with_keeps TOTP_AVAILABLE lib req w0 "admin_enabled");
      discriminate.
  - intros k K1 K2 K3. rewrite <- (after_load_stored w).
    apply (guarded_field (fun w0 => dict_lookup (stored_credentials w0) k)).
    intros w0.
    now apply (security_settings_with_keeps TOTP_AVAILABLE lib req w0 k).
Qed.

Lemma routes_keep_to_their_file_witness :
  dict_lookup
    (stored_credentials
       (snd (security_settings sample_libraries (disable_2fa_request "hunter2")
                               sample_admin_world))) "admin_enabled" =
  Some (JBool true).
Proof.
  assert (N1 : "admin_enabled" <> "admin_password_hash") by discriminate.
  assert (N2 : "admin_enabled" <> "2fa_enabled") by discriminate.
  assert (N3 : "admin_enabled" <> "2fa_secret") by discriminate.
  rewrite (proj2 (proj2 (proj2 (proj2 (proj2
             (routes_keep_to_their_file sample_libraries sample_admin_world
                (disable_2fa_request "hunter2") 0)))))
             "admin_enabled" N1 N2 N3).
  reflexivity.
Defined.

(** ** The roster and the gateway *)

Lemma load_config_from_agree d d' :
  (forall k, In k required_keys -> dict_lookup d k = dict_lookup d' k) ->
  load_config_from (Some (Document d)) = load_config_from (Some (Document d')).
Proof.
  intros H. rewrite !load_config_from_document.
  assert (Hf : filter (fun key => negb (dict_has d key)) required_keys =
               filter (fun key => negb (dict_has d' key)) required_keys).
  { apply filter_ext_in. intros k Hk. unfold dict_has. now rewrite (H k Hk). }
  rewrite Hf. unfold dict_item.
  rewrite (H "WOL_MAC_ADDRESS"), (H "BROADCAST_ADDRESS"), (H "SITE_URL"),
          (H "WAIT_TIME_SECONDS"), (H "PORT") by (cbn; tauto).
  reflexivity.
Qed.

Lemma load_after_roster_write config v :
  load_config_from (Some (Document (dict_set config "SERVERS" v))) =
  load_config_from (Some (Document config)).
Proof.
  apply load_config_from_agree. intros k Hk.
  apply dict_lookup_set_other. intros E. subst k.
  cbn in Hk. repeat (destruct Hk as [Hk|Hk]; [discriminate Hk|]). exact Hk.
Qed.

Lemma roster_bodies_invisible server_id req w :
  let seen w' := load_config_from (config_file w') in
  seen (snd (add_server_body req w)) = seen w /\
  seen (snd (edit_server_body server_id req w)) = seen w /\
  seen (snd (delete_server_body server_id w)) = seen w.
Proof.
  cbv zeta. repeat split.
  1: unfold add_server_body; destruct (is_post req); [|reflexivity].
  2: unfold edit_server_body.
  3: unfold delete_server_body.
  all: unfold read_config, bind, gets, raise, ret;
    destruct (config_file w) as [[why|config]|] eqn:Hc;
    [cbn [snd]; rewrite ?Hc; reflexivity| |cbn [snd]; rewrite ?Hc; reflexivity];
    unfold write_config, lift, ret, modify;
    split_handler; cbn [snd config_file set_config_file add_flash];
    rewrite ?Hc, ?load_after_roster_write; reflexivity.
Qed.

(** X26.  The gateway never sees the roster.  Whatever a request to
    [add_server], [edit_server] or [delete_server] does, [load_config] of
    the gateway answers on the file it leaves exactly as it did before:
    the entries under ["SERVERS"] are never read by the gateway, restarted
    or not. *)
Theorem roster_is_invisible_to_the_gateway w req server_id :
  load_config_from (config_file (snd (add_server req w))) =
    load_config_from (config_file w) /\
  load_config_from (config_file (snd (edit_server server_id req w))) =
    load_config_from (config_file w) /\
  load_config_from (config_file (snd (delete_server server_id w))) =
    load_config_from (config_file w).
Proof.
  unfold add_server, edit_server, delete_server.
  rewrite <- (after_load_config_file w).
  repeat split;
    apply (guarded_field (fun w0 => load_config_from (config_file w0)));
    intros w0; apply (roster_bodies_invisible server_id req w0).
Qed.

Example added_server_is_not_loaded :
  fst (add_server careless_form
         (set_config_file (Some (Document (("SERVERS", JList []) ::
                                           written_config
                                             (JStr "00:11:22:33:44:55")
                                             (JStr "255.255.255.255")
                                             (JStr "http://nas.local") 30 5000)))
                          sample_admin_world)) = Ok (Redirect "admin.dashboard") /\
  load_config_from
    (config_file
       (snd (add_server careless_form
         (set_config_file (Some (Document (("SERVERS", JList []) ::
                                           written_config
                                             (JStr "00:11:22:33:44:55")
                                             (JStr "255.255.255.255")
                                             (JStr "http://nas.local") 30 5000)))
                          sample_admin_world)))) = Ok nas_config.
Proof. vm_compute. split; reflexivity. Qed.

(** ** The stored hash *)

Lemma round_length k wt s :
  List.length s = 8%nat -> List.length (Sha256.round k wt s) = 8%nat.
Proof.
  intros H. do 9 (destruct s as [|? s]; try discriminate H). reflexivity.
Qed.

Lemma rounds_length ks w s :
  List.length s = 8%nat -> List.length (Sha256.rounds ks w s) = 8%nat.
Proof.
  revert w s. induction ks as [|k ks IH]; intros w s H; cbn [Sha256.rounds];
    [exact H|].
  apply IH, round_length, H.
Qed.

Lemma compress_length h blk :
  List.length h = 8%nat -> List.length (Sha256.compress h blk) = 8%nat.
Proof.
  intros H. unfold Sha256.compress.
  rewrite length_map, length_combine, (rounds_length _ _ _ H), H. reflexivity.
Qed.

Lemma fold_compress_length blocks h :
  List.length h = 8%nat ->
  List.length (fold_left Sha256.compress blocks h) = 8%nat.
Proof.
  revert h. induction blocks as [|b blocks IH]; intros h H; cbn [fold_left];
    [exact H|].
  apply IH, compress_length, H.
Qed.

Lemma string_of_list_length l :
  String.length (string_of_list_ascii l) = List.length l.
Proof. induction l as [|c l IH]; cbn; [reflexivity|now rewrite IH]. Qed.

Lemma hex_length bs : String.length (hex bs) = (2 * List.length bs)%nat.
Proof.
  unfold hex. rewrite string_of_list_length.
  induction bs as [|b bs IH]; cbn [flat_map List.length app hex_of_byte];
    [reflexivity|].
  rewrite IH. lia.
Qed.

Lemma digest_length msg : List.length (Sha256.digest msg) = 32%nat.
Proof.
  unfold Sha256.digest.
  pose proof (fold_compress_length (chunks 64 (md_pad msg)) Sha256.H0 eq_refl) as H.
  destruct (fold_left Sha256.compress (chunks 64 (md_pad msg)) Sha256.H0)
    as [|a l]; [discriminate H|].
  do 8 (destruct l as [|? l]; try discriminate H). reflexivity.
Qed.

Lemma hash_password_length password :
  String.length (hash_password password) = 64%nat.
Proof.
  unfold hash_password. now rewrite hex_length, digest_length.
Qed.

Lemma verify_password_needs_64 password h :
  (forall s, h = JStr s -> String.length s <> 64%nat) ->
  verify_password password h = false.
Proof.
  intros Hh. unfold verify_password.
  destruct (str_eq (hash_password password) h) eqn:E; [|reflexivity].
  apply str_eq_true in E. exfalso.
  apply (Hh _ E), hash_password_length.
Qed.

(** X27.  [hash_password] always yields a text of 64 characters, so a
    stored hash of any other length -- in particular the empty hash of the
    default record -- lets nobody in: whatever is submitted to [login], a
    logged-out browser stays logged out. *)
Theorem malformed_hash_admits_nobody w req h :
  logged_in w = false ->
  dict_lookup (stored_credentials w) "admin_password_hash" = Some h ->
  (forall s, h = JStr s -> String.length s <> 64%nat) ->
  logged_in (snd (login req w)) = false.
Proof.
  intros L Hh Hlen. unfold login, bind. rewrite load_admin_config_eq.
  unfold lift, ret, gets, login_success, modify, bind, dict_item at 2.
  rewrite Hh. rewrite (verify_password_needs_64 _ h Hlen).
  pose proof (after_load_logged_in w) as La. rewrite L in La.
  destruct (negb _); [exact La|].
  destruct (is_post req); [|exact La].
  destruct (dict_item _ "admin_username") as [u|e]; [|exact La].
  destruct (str_eq _ u); exact La.
Qed.

Lemma malformed_hash_admits_nobody_witness :
  logged_in (snd (login (login_request "admin" "" "") enabled_defaults_world))
  = false.
Proof.
  apply (malformed_hash_admits_nobody enabled_defaults_world
           (login_request "admin" "" "") (JStr "") eq_refl eq_refl).
  intros s Hs. inversion Hs. discriminate.
Defined.
